(** * gainz: historical series store, time windows and portfolio metrics

    A shallow embedding of the JavaScript modules

    - [js/data/historicalData.js]  (parser and lookups of the price series),
    - [js/business/timeWindows.js] (start dates of the time windows, filtering
                                    by window, the windows on offer),
    - [js/business/portfolio.js]   (value, gain and CAGR computations),
    - [js/app.js]                  (the metrics of the selected time window,
                                    the series as data points),
    - [js/weekmove.js]             (the week key of a day),

    together with the part of the ECMAScript [Date] object these modules
    rely on.

    Conventions of the embedding.

    - A JavaScript number is an exact rational extended with [NaN] and the
      two infinities; the rounding of binary64 arithmetic and the sign of
      zero are not modelled, except in the constant [minYearsForCAGR],
      which is the binary64 value the code compares with.  [Math.pow] is a
      parameter.
    - A [Date] is its time value: an integral number of milliseconds since
      the epoch within the ECMAScript range, or the invalid date.  [Date]
      objects are copied before they are changed in these modules, so they
      are values here.
    - The host's local time zone is a fixed offset [LocalTZA] from UTC
      (no daylight-saving transitions).
    - [Date.parse] is defined on the ECMAScript date-only forms (optionally
      followed by the literal [T00:00:00.000Z]); every other string is left
      to the parameter [impl_parse], as the standard leaves it to the
      implementation.
    - A thrown exception is the [Throw] of a result type; [console] output,
      the DOM and the limits of the engine (stack, memory) are left out. *)

From Stdlib Require Import ZArith QArith List String Ascii Bool Lia.
From Stdlib Require Import Qround.
Import ListNotations.

Local Open Scope Z_scope.

(* ================================================================== *)
(** ** Numbers *)

Inductive number : Type :=
| NaN
| PosInf
| NegInf
| Fin (q : Q).

Definition Qltb (a b : Q) : bool := negb (Qle_bool b a).

Definition Qsgn (q : Q) : Z := Z.sgn (Qnum q).

Definition num_of_Z (z : Z) : number := Fin (inject_Z z).

(** [x < y] of JavaScript: false as soon as one side is [NaN]. *)
Definition num_lt (x y : number) : bool :=
  match x, y with
  | NaN, _ | _, NaN => false
  | Fin a, Fin b => Qltb a b
  | NegInf, NegInf => false
  | NegInf, _ => true
  | _, NegInf => false
  | PosInf, _ => false
  | Fin _, PosInf => true
  end.

(** [x <= y] of JavaScript. *)
Definition num_le (x y : number) : bool :=
  match x, y with
  | NaN, _ | _, NaN => false
  | Fin a, Fin b => Qle_bool a b
  | NegInf, _ => true
  | _, PosInf => true
  | _, NegInf => false
  | PosInf, Fin _ => false
  end.

Definition num_gt (x y : number) : bool := num_lt y x.
Definition num_ge (x y : number) : bool := num_le y x.

Definition num_isNaN (x : number) : bool :=
  match x with NaN => true | _ => false end.

Definition num_isFinite (x : number) : bool :=
  match x with Fin _ => true | _ => false end.

Definition num_sgn (x : number) : Z :=
  match x with
  | NaN => 0
  | PosInf => 1
  | NegInf => -1
  | Fin q => Qsgn q
  end.

Definition inf_of_sgn (s : Z) : number :=
  if 0 <? s then PosInf else NegInf.

Definition num_mul (x y : number) : number :=
  match x, y with
  | NaN, _ | _, NaN => NaN
  | Fin a, Fin b => Fin (Qred (a * b))
  | _, _ =>
      let s := num_sgn x * num_sgn y in
      if s =? 0 then NaN else inf_of_sgn s
  end.

Definition num_sub (x y : number) : number :=
  match x, y with
  | NaN, _ | _, NaN => NaN
  | Fin a, Fin b => Fin (Qred (a - b))
  | PosInf, PosInf | NegInf, NegInf => NaN
  | PosInf, _ => PosInf
  | NegInf, _ => NegInf
  | Fin _, PosInf => NegInf
  | Fin _, NegInf => PosInf
  end.

Definition num_div (x y : number) : number :=
  match x, y with
  | NaN, _ | _, NaN => NaN
  | Fin a, Fin b =>
      if Qeq_bool b 0
      then (if Qeq_bool a 0 then NaN else inf_of_sgn (Qsgn a))
      else Fin (Qred (a / b))
  | Fin _, _ => Fin 0
  | _, Fin b => inf_of_sgn (num_sgn x * (if Qsgn b <? 0 then -1 else 1))
  | _, _ => NaN
  end.

(* ================================================================== *)
(** ** Day numbers and the proleptic Gregorian calendar
    (ECMAScript, "Time Values and Time Range" and the following clauses) *)

Definition msPerDay : Z := 86400000.

Definition Day (t : Z) : Z := t / msPerDay.

Definition TimeWithinDay (t : Z) : Z := t mod msPerDay.

Definition InLeapYear (y : Z) : bool :=
  (y mod 4 =? 0) && (negb (y mod 100 =? 0) || (y mod 400 =? 0)).

Definition DayFromYear (y : Z) : Z :=
  365 * (y - 1970) + (y - 1969) / 4 - (y - 1901) / 100 + (y - 1601) / 400.

(** Days of the year before the first of month [m] (0 = January). *)
Definition DaysBeforeMonth (leap : bool) (m : Z) : Z :=
  let l := if leap then 1 else 0 in
  match m with
  | 0 => 0
  | 1 => 31
  | 2 => 59 + l
  | 3 => 90 + l
  | 4 => 120 + l
  | 5 => 151 + l
  | 6 => 181 + l
  | 7 => 212 + l
  | 8 => 243 + l
  | 9 => 273 + l
  | 10 => 304 + l
  | _ => 334 + l
  end.

Definition DaysInMonth (leap : bool) (m : Z) : Z :=
  match m with
  | 1 => if leap then 29 else 28
  | 3 | 5 | 8 | 10 => 30
  | _ => 31
  end.

(** [MakeDay(year, month, date)]: the day number of the given date, months
    counted from 0 and overflowing into the following years. *)
Definition MakeDay (year month date : Z) : Z :=
  let ym := year + month / 12 in
  let mn := month mod 12 in
  DayFromYear ym + DaysBeforeMonth (InLeapYear ym) mn + date - 1.

Definition MakeDate (day time : Z) : Z := day * msPerDay + time.

(** [YearFromTime]: the largest year whose first day is not after the day.
    The quotient is that year or one of its two neighbours. *)
Definition YearFromDay (z : Z) : Z :=
  let y := (400 * (z + 719528)) / 146097 in
  if DayFromYear (y + 1) <=? z then y + 1
  else if DayFromYear y <=? z then y
  else y - 1.

Definition DayWithinYear (z : Z) : Z := z - DayFromYear (YearFromDay z).

(** [MonthFromTime]: by the table of the standard, months from 0. *)
Definition MonthOfDayInYear (leap : bool) (d : Z) : Z :=
  let l := if leap then 1 else 0 in
  if d <? 31 then 0
  else if d <? 59 + l then 1
  else if d <? 90 + l then 2
  else if d <? 120 + l then 3
  else if d <? 151 + l then 4
  else if d <? 181 + l then 5
  else if d <? 212 + l then 6
  else if d <? 243 + l then 7
  else if d <? 273 + l then 8
  else if d <? 304 + l then 9
  else if d <? 334 + l then 10
  else 11.

Definition MonthFromDay (z : Z) : Z :=
  MonthOfDayInYear (InLeapYear (YearFromDay z)) (DayWithinYear z).

Definition DateFromDay (z : Z) : Z :=
  DayWithinYear z
  - DaysBeforeMonth (InLeapYear (YearFromDay z)) (MonthFromDay z) + 1.

(** Year, month (from 0) and day of the month of a day number. *)
Definition civil_of_day (z : Z) : Z * Z * Z :=
  (YearFromDay z, MonthFromDay z, DateFromDay z).

Definition YearFromTime (t : Z) : Z := YearFromDay (Day t).
Definition MonthFromTime (t : Z) : Z := MonthFromDay (Day t).
Definition DateFromTime (t : Z) : Z := DateFromDay (Day t).

(** 0 = Sunday; the epoch was a Thursday. *)
Definition WeekDay (t : Z) : Z := (Day t + 4) mod 7.

Definition maxTime : Z := 8640000000000000.

(** A [Date] object, identified with its time value. *)
Inductive Date : Type :=
| ValidDate (t : Z)
| InvalidDate.

Definition TimeClip (t : Z) : Date :=
  if Z.abs t <=? maxTime then ValidDate t else InvalidDate.

Definition inTimeRange (t : Z) : Prop := - maxTime <= t <= maxTime.

(* ================================================================== *)
(** ** Date strings: [toISOString] and [Date.parse] *)

Definition digitChar (n : Z) : ascii := ascii_of_nat (48 + Z.to_nat n).

Definition digitVal (c : ascii) : option Z :=
  let n := Z.of_nat (nat_of_ascii c) in
  if (48 <=? n) && (n <=? 57) then Some (n - 48) else None.

(** The [k] low decimal digits of [n], most significant first. *)
Fixpoint padDigits (k : nat) (n : Z) : string :=
  match k with
  | O => EmptyString
  | S k' => String (digitChar (n / 10 ^ Z.of_nat k' mod 10)) (padDigits k' n)
  end.

Fixpoint parseDigits (k : nat) (acc : Z) (s : string) : option (Z * string) :=
  match k with
  | O => Some (acc, s)
  | S k' =>
      match s with
      | String c r =>
          match digitVal c with
          | Some v => parseDigits k' (10 * acc + v) r
          | None => None
          end
      | EmptyString => None
      end
  end.

(** Year of an ISO string: four digits for 0 .. 9999, otherwise a sign and
    six digits. *)
Definition isoYear (y : Z) : string :=
  if (0 <=? y) && (y <=? 9999) then padDigits 4 y
  else String (if y <? 0 then "-"%char else "+"%char) (padDigits 6 (Z.abs y)).

(** The part of [toISOString()] before the [T], for a day number. *)
Definition isoDateOfDay (z : Z) : string :=
  let '(y, m, d) := civil_of_day z in
  (isoYear y ++ "-" ++ padDigits 2 (m + 1) ++ "-" ++ padDigits 2 d)%string.

Definition parseYear (s : string) : option (Z * string) :=
  match s with
  | String "+"%char r => parseDigits 6 0 r
  | String "-"%char r =>
      match parseDigits 6 0 r with
      | Some (n, r') => if n =? 0 then None else Some (- n, r')
      | None => None
      end
  | _ => parseDigits 4 0 s
  end.

(** The date-only forms [YYYY], [YYYY-MM] and [YYYY-MM-DD] (also with an
    expanded year) at the head of a string: the day number and what
    follows.  A month outside 01 .. 12 or a day that the month does not
    have is not an instance of the format. *)
Definition parseDateOnly (s : string) : option (Z * string) :=
  match parseYear s with
  | None => None
  | Some (y, r1) =>
      match r1 with
      | String "-"%char r2 =>
          match parseDigits 2 0 r2 with
          | None => None
          | Some (m, r3) =>
              if (1 <=? m) && (m <=? 12) then
                match r3 with
                | String "-"%char r4 =>
                    match parseDigits 2 0 r4 with
                    | None => None
                    | Some (d, r5) =>
                        if (1 <=? d) && (d <=? DaysInMonth (InLeapYear y) (m - 1))
                        then Some (MakeDay y (m - 1) d, r5)
                        else None
                    end
                | _ => Some (MakeDay y (m - 1) 1, r3)
                end
              else None
          end
      | _ => Some (MakeDay y 0 1, r1)
      end
  end.

Definition utcMidnightSuffix : string := "T00:00:00.000Z".

(* ================================================================== *)
(** ** JavaScript values, errors *)

#[warnings="-register-all"]
Inductive JSValue : Type :=
| JUndefined
| JNull
| JBool (b : bool)
| JNumber (n : number)
| JString (s : string)
| JArray (items : list JSValue)
| JObject (fields : list (string * JSValue))
| JDate (d : Date).

Inductive JSType : Type :=
| TUndefined | TObject | TBoolean | TNumber | TString.

Definition typeof (v : JSValue) : JSType :=
  match v with
  | JUndefined => TUndefined
  | JNull => TObject
  | JBool _ => TBoolean
  | JNumber _ => TNumber
  | JString _ => TString
  | JArray _ | JObject _ | JDate _ => TObject
  end.

Definition isObjectType (v : JSValue) : bool :=
  match typeof v with TObject => true | _ => false end.

Definition ToBoolean (v : JSValue) : bool :=
  match v with
  | JUndefined | JNull => false
  | JBool b => b
  | JNumber NaN => false
  | JNumber (Fin q) => negb (Qeq_bool q 0)
  | JNumber _ => true
  | JString s => negb (String.eqb s EmptyString)
  | JArray _ | JObject _ | JDate _ => true
  end.

Fixpoint lookupField (k : string) (fs : list (string * JSValue)) : JSValue :=
  match fs with
  | [] => JUndefined
  | (k', v) :: fs' => if String.eqb k k' then v else lookupField k fs'
  end.

(** Property access [v.k] for the own data properties of a plain object. *)
Definition getProp (v : JSValue) (k : string) : JSValue :=
  match v with
  | JObject fs => lookupField k fs
  | _ => JUndefined
  end.

(** What the code throws, one constructor per [throw] site and message. *)
Inductive Error : Type :=
| InvalidDateFormat (dateString : string)
| RangeError_InvalidTimeValue
| MustBeAnObject
| MissingOrInvalidStartDate
| PricesMustBeAnArray
| PricesArrayIsEmpty
| FoundInvalidPrices (count : nat)
| TargetDateMustBeStringOrDate
| RangeStartMustBeBeforeEnd
| InvalidCalendarTimeWindow (timeWindow : string)
| InvalidTimeWindow (timeWindow : string)
| TotalValue_MustBeNumbers
| TotalValue_MustBeNonNegative
| AbsoluteGain_MustBeNumbers
| AbsoluteGain_MustBeNonNegative
| PercentageGain_MustBeNumbers
| PercentageGain_MustBePositive
| CAGR_MustBeNumbers
| CAGR_MustBePositive
| Years_MustBeDates
| Years_StartMustBeBeforeEnd.

Inductive result (A : Type) : Type :=
| Ok (a : A)
| Throw (e : Error).

Arguments Ok {A} a.
Arguments Throw {A} e.

Definition bind {A B : Type} (r : result A) (k : A -> result B) : result B :=
  match r with
  | Ok a => k a
  | Throw e => Throw e
  end.

Notation "'do' x <- r ; k" := (bind r (fun x => k))
  (at level 10, x name, r at level 100, k at level 200).

Definition isOk {A : Type} (r : result A) : bool :=
  match r with Ok _ => true | Throw _ => false end.

Definition throws {A : Type} (r : result A) : Prop :=
  exists e, r = Throw e.

(** [a[i]]: [undefined] outside the array. *)
Definition arrayGet (a : list JSValue) (i : Z) : JSValue :=
  if i <? 0 then JUndefined else nth (Z.to_nat i) a JUndefined.

Definition arrayLength (a : list JSValue) : Z := Z.of_nat (List.length a).

(** Value subtraction [a - b] of two dates, then
    [Math.floor(... / (1000 * 60 * 60 * 24))]; [None] stands for [NaN]. *)
Definition floorDaysBetween (a b : Date) : option Z :=
  match a, b with
  | ValidDate ta, ValidDate tb => Some ((ta - tb) / msPerDay)
  | _, _ => None
  end.

(** [date.toISOString().split('T')[0]]. *)
Definition isoDatePart (d : Date) : result string :=
  match d with
  | ValidDate t => Ok (isoDateOfDay (Day t))
  | InvalidDate => Throw RangeError_InvalidTimeValue
  end.

(** [date.getUTCDate()]; [None] stands for [NaN]. *)
Definition Date_getUTCDate (d : Date) : option Z :=
  match d with
  | ValidDate t => Some (DateFromTime t)
  | InvalidDate => None
  end.

(** [date.setUTCDate(dt)]. *)
Definition Date_setUTCDate (d : Date) (dt : option Z) : Date :=
  match d, dt with
  | ValidDate t, Some n =>
      TimeClip (MakeDate (MakeDay (YearFromTime t) (MonthFromTime t) n)
                         (TimeWithinDay t))
  | _, _ => InvalidDate
  end.

Definition optZ_add (a : option Z) (b : Z) : option Z :=
  match a with Some x => Some (x + b) | None => None end.

Definition optZ_sub (a : option Z) (b : Z) : option Z :=
  match a with Some x => Some (x - b) | None => None end.

(** The series returned by [parseHistoricalData]. *)
Record HistoricalData : Type := mkHistoricalData {
  start : string;
  startDate : Date;
  endDate : Date;
  prices : list JSValue;
  totalDays : Z
}.

(** [{date, price}] as returned by the lookups. *)
Record PriceInfo : Type := mkPriceInfo {
  date : string;
  price : JSValue
}.

(** The object returned by [calculatePortfolioMetrics]. *)
Record Metrics : Type := mkMetrics {
  totalValue : number;
  absoluteGain : number;
  percentageGain : number;
  cagr : number;
  displayCAGR : JSValue;
  years : number;
  initialValue : number
}.

(** One entry of [TIME_WINDOWS]; [days] is [None] for [null] and for
    [Infinity]. *)
Inductive WindowType : Type := Daily | Calendar | Fixed.

Record WindowConfig : Type := mkWindowConfig {
  days : option Z;
  type : WindowType
}.

Definition TIME_WINDOWS (key : string) : option WindowConfig :=
  if String.eqb key "1d" then Some (mkWindowConfig (Some 1) Daily)
  else if String.eqb key "wtd" then Some (mkWindowConfig None Calendar)
  else if String.eqb key "mtd" then Some (mkWindowConfig None Calendar)
  else if String.eqb key "ytd" then Some (mkWindowConfig None Calendar)
  else if String.eqb key "7d" then Some (mkWindowConfig (Some 7) Fixed)
  else if String.eqb key "30d" then Some (mkWindowConfig (Some 30) Fixed)
  else if String.eqb key "3mo" then Some (mkWindowConfig (Some 90) Fixed)
  else if String.eqb key "6mo" then Some (mkWindowConfig (Some 180) Fixed)
  else if String.eqb key "1y" then Some (mkWindowConfig (Some 365) Fixed)
  else if String.eqb key "5y" then Some (mkWindowConfig (Some 1825) Fixed)
  else if String.eqb key "all" then Some (mkWindowConfig None Fixed)
  else None.

(** What [updatePortfolioMetricsForTimeWindow] leaves on the page. *)
Inductive MetricsDisplay : Type :=
| ShowError                      (* showMetricsError: every box "--" *)
| ShowLoading                    (* nothing after showMetricsLoading *)
| ShowStaleNA (timeHeld : number) (initial : number) (purchasePrice : JSValue)
                                 (* gain, percent and CAGR boxes "N/A*" *)
| ShowMetrics (m : Metrics).     (* updateMetricsDisplay(metrics) *)

(** *** Values of the remaining functions of [timeWindows.js], of [app.js]
    and of [weekmove.js] *)

(** What the functions of [timeWindows.js] other than the calendar starts
    throw, one constructor per [throw] site; [TypeError_PropertyOfNullish]
    is the engine's error on reading a property of [undefined] or [null];
    [FromCalendarStart] carries what [getCalendarStartDate] throws. *)
Inductive WindowError : Type :=
| ReferenceDateMustBeADate
| DaysAgoMustBeNonNegative
| PriceDataMustBeAnArray
| TimeWindowMustBeAString
| InvalidTimeWindowOption (timeWindow : string)
| DataPointMustHaveADate
| TypeError_PropertyOfNullish
| FromCalendarStart (e : Error).

Inductive wresult (A : Type) : Type :=
| WOk (a : A)
| WThrow (e : WindowError).

Arguments WOk {A} a.
Arguments WThrow {A} e.

Definition wbind {A B : Type} (r : wresult A) (k : A -> wresult B)
    : wresult B :=
  match r with
  | WOk a => k a
  | WThrow e => WThrow e
  end.

Notation "'doW' x <- r ; k" := (wbind r (fun x => k))
  (at level 10, x name, r at level 100, k at level 200).

Definition liftCalendar {A : Type} (r : result A) : wresult A :=
  match r with
  | Ok a => WOk a
  | Throw e => WThrow (FromCalendarStart e)
  end.

(** [Array.prototype.filter] and [Array.prototype.reduce] with a callback
    that may throw: elements are visited in index order and the first
    exception ends the call. *)
Fixpoint Array_filter {A : Type} (f : A -> wresult bool) (l : list A)
    : wresult (list A) :=
  match l with
  | [] => WOk []
  | x :: l' =>
      doW keep <- f x;
      doW rest <- Array_filter f l';
      WOk (if keep then x :: rest else rest)
  end.

Fixpoint Array_reduce {A B : Type} (f : B -> A -> wresult B) (l : list A)
    (init : B) : wresult B :=
  match l with
  | [] => WOk init
  | x :: l' => doW acc <- f init x; Array_reduce f l' acc
  end.

(** [ToIntegerOrInfinity] on a finite number: truncation towards zero. *)
Definition Qtrunc (q : Q) : Z :=
  if Qnum q <? 0 then Qceiling q else Qfloor q.

(** [Math.floor]. *)
Definition Math_floor (x : number) : number :=
  match x with
  | Fin q => num_of_Z (Qfloor q)
  | _ => x
  end.

(** [Object.keys(TIME_WINDOWS)]: the keys in the order of the literal (none
    of them is an array index). *)
Definition timeWindowKeys : list string :=
  ["1d"; "wtd"; "mtd"; "ytd"; "7d"; "30d"; "3mo"; "6mo"; "1y"; "5y";
   "all"]%string.

(** The properties that the object literal [TIME_WINDOWS] inherits from
    [Object.prototype]: functions and, for [__proto__], the prototype
    object itself; each is truthy and has no property [type] or [days]. *)
Definition objectPrototypeKeys : list string :=
  ["constructor"; "hasOwnProperty"; "isPrototypeOf"; "propertyIsEnumerable";
   "toLocaleString"; "toString"; "valueOf"; "__proto__";
   "__defineGetter__"; "__defineSetter__"; "__lookupGetter__";
   "__lookupSetter__"]%string.

Definition inheritedKey (key : string) : bool :=
  existsb (String.eqb key) objectPrototypeKeys.

(** [windowConfig.days] as a value. *)
Definition windowDays (key : string) (c : WindowConfig) : JSValue :=
  match days c with
  | Some n => JNumber (num_of_Z n)
  | None => if String.eqb key "all" then JNumber PosInf else JNull
  end.

(** [dataPoint.date]. *)
Definition dataPointDate (dataPoint : JSValue) : wresult JSValue :=
  match dataPoint with
  | JUndefined | JNull => WThrow TypeError_PropertyOfNullish
  | _ => WOk (getProp dataPoint "date")
  end.

(** A parameter with the default [new Date()]: the default is taken when
    the argument is [undefined]. *)
Definition orNow (clock : Date) (v : JSValue) : JSValue :=
  match v with JUndefined => JDate clock | _ => v end.

(** [getUTCDay()], [getUTCMonth()], [getUTCFullYear()]. *)
Definition Date_getUTCDay (d : Date) : option Z :=
  match d with
  | ValidDate t => Some (WeekDay t)
  | InvalidDate => None
  end.

Definition Date_getUTCMonth (d : Date) : option Z :=
  match d with
  | ValidDate t => Some (MonthFromTime t)
  | InvalidDate => None
  end.

Definition Date_getUTCFullYear (d : Date) : option Z :=
  match d with
  | ValidDate t => Some (YearFromTime t)
  | InvalidDate => None
  end.

(** [new Date(Date.UTC(year, month, date))]; a year in 0 .. 99 means
    1900 + year. *)
Definition Date_ofUTC (year month date : option Z) : Date :=
  match year, month, date with
  | Some y, Some m, Some dt =>
      let yr := if (0 <=? y) && (y <=? 99) then 1900 + y else y in
      TimeClip (MakeDate (MakeDay yr m dt) 0)
  | _, _, _ => InvalidDate
  end.

(** A data point [{date, price}] of the arrays that [app.js] hands to the
    time-window functions. *)
Definition dataPoint (d : Date) (p : JSValue) : JSValue :=
  JObject [("date"%string, JDate d); ("price"%string, p)].

(* ================================================================== *)
(** ** Concrete hosts and inputs *)

(** An engine whose [Date.parse] has no fallback beyond the standard's
    format. *)
Definition strictParse (s : string) : option Z := None.

(** [Math.pow] on the exponent 1, where it is exact; [NaN] stands for every
    other result. *)
Definition powExponentOne (x y : number) : number :=
  match y with
  | Fin q => if Qeq_bool q 1 then x else NaN
  | _ => NaN
  end.

(** [ToNumber] of strings and objects: not reached by the inputs below. *)
Definition toNumberNaN (v : JSValue) : number := NaN.

(** Local time two hours ahead of UTC. *)
Definition utcPlus2 : Z := 7200000.

Definition num (z : Z) : JSValue := JNumber (Fin (inject_Z z)).

Definition scenarioA_raw : JSValue :=
  JObject [("start"%string, JString "2024-12-14");
           ("prices"%string,
            JArray [JNumber (Fin 52000); JNumber (Fin 50000);
                    JNumber (Fin 45000)])].

(** 2024-12-16T12:00:00Z *)
Definition scenarioA_now : Z := 1734350400000.

Definition scenarioA_series : HistoricalData :=
  mkHistoricalData "2024-12-14" (ValidDate 1734134400000)
    (ValidDate 1734307200000)
    [JNumber (Fin 52000); JNumber (Fin 50000); JNumber (Fin 45000)] 3.

(** A series that ends on 2024-12-15. *)
Definition endsYesterday_raw : JSValue :=
  JObject [("start"%string, JString "2024-12-14");
           ("prices"%string, JArray [num 52000; num 50000])].

Definition endsYesterday_series : HistoricalData :=
  mkHistoricalData "2024-12-14" (ValidDate 1734134400000)
    (ValidDate 1734220800000) [num 52000; num 50000] 2.

(** A series that ends on 2024-12-09, seven days before scenario A's
    reference instant. *)
Definition endsLastWeek_raw : JSValue :=
  JObject [("start"%string, JString "2024-12-08");
           ("prices"%string, JArray [num 52000; num 50000])].

Definition endsLastWeek_series : HistoricalData :=
  mkHistoricalData "2024-12-08" (ValidDate 1733616000000)
    (ValidDate 1733702400000) [num 52000; num 50000] 2.

(** A price list with [Infinity] (what [JSON.parse] makes of 1e999). *)
Definition infinitePrice_raw : JSValue :=
  JObject [("start"%string, JString "2024-01-01");
           ("prices"%string, JArray [JNumber PosInf])].

(** Two prices from the last day of the range of [Date]. *)
Definition lastDay_raw : JSValue :=
  JObject [("start"%string, JString "+275760-09-13");
           ("prices"%string, JArray [num 1; num 2])].

(** The series of the unit tests of the parser. *)
Definition testData_raw : JSValue :=
  JObject [("start"%string, JString "2024-01-01");
           ("prices"%string,
            JArray [num 50000; num 51000; num 52000; num 53000; num 54000])].

Definition testData : HistoricalData :=
  mkHistoricalData "2024-01-01" (ValidDate 1704067200000)
    (ValidDate 1704412800000)
    [num 50000; num 51000; num 52000; num 53000; num 54000] 5.

(** An engine whose fallback parser reads a date written in words and takes
    what follows an unclosed parenthesis as a comment, as the parsers of
    V8, SpiderMonkey and JavaScriptCore do: on the one string below it
    returns 2024-01-01T10:00:00Z. *)
Definition lenientParse (s : string) : option Z :=
  if String.eqb s "Jan 1 2024 10:00 GMT (T00:00:00.000Z"
  then Some 1704103200000
  else None.

(** A stored series whose start is written in words, with a time of day. *)
Definition wordsStart_raw : JSValue :=
  JObject [("start"%string, JString "Jan 1 2024 10:00 GMT (");
           ("prices"%string, JArray [num 100])].

Definition wordsStart_series : HistoricalData :=
  mkHistoricalData "Jan 1 2024 10:00 GMT (" (ValidDate 1704103200000)
    (ValidDate 1704067200000) [num 100] 1.

(** A relational comparison that is undefined outside pairs of dates: not
    reached by the inputs below. *)
Definition noOrder (x y : JSValue) : option bool := None.

(** Three data points, dated 1970-01-01, 1970-01-11 and 1970-01-12, and a
    reference instant, 1970-01-13T01:00:00Z. *)
Definition samplePoints : list JSValue :=
  [dataPoint (ValidDate 0) (num 100);
   dataPoint (ValidDate 864000000) (num 110);
   dataPoint (ValidDate 950400000) (num 120)].

Definition sampleNow : Z := 1040400000.

(** 0050-01-01T00:00:00Z *)
Definition year50 : Z := -60589296000000.

(* ================================================================== *)
(** ** The modules *)

Set Default Proof Using "Type".

Section Host.

(** Offset of the host's local time from UTC, in milliseconds. *)
Variable LocalTZA : Z.

(** [Date.parse] on the strings that are not handled by [parseDateOnly]:
    implementation-defined; [None] stands for [NaN]. *)
Variable impl_parse : string -> option Z.

(** [Math.pow]. *)
Variable Math_pow : number -> number -> number.

(** [ToNumber] on strings and on objects other than dates. *)
Variable ToNumber_other : JSValue -> number.

(** The relational comparison [x < y] on two values that are not both
    dates; [None] stands for undefined (a [NaN] operand). *)
Variable IsLessThan_other : JSValue -> JSValue -> option bool.

(** *** The [Date] object *)

Definition Date_parse (s : string) : option Z :=
  match parseDateOnly s with
  | Some (day, rest) =>
      if String.eqb rest EmptyString || String.eqb rest utcMidnightSuffix
      then Some (MakeDate day 0)
      else impl_parse s
  | None => impl_parse s
  end.

(** [new Date(string)]. *)
Definition Date_ofString (s : string) : Date :=
  match Date_parse s with
  | Some t => TimeClip t
  | None => InvalidDate
  end.

Definition LocalTime (t : Z) : Z := t + LocalTZA.

Definition UTC (t : Z) : Z := t - LocalTZA.

(** [getDate()], [getDay()], [getMonth()], [getFullYear()]: local time. *)
Definition Date_getDate (d : Date) : option Z :=
  match d with
  | ValidDate t => Some (DateFromTime (LocalTime t))
  | InvalidDate => None
  end.

Definition Date_getDay (d : Date) : option Z :=
  match d with
  | ValidDate t => Some (WeekDay (LocalTime t))
  | InvalidDate => None
  end.

Definition Date_getMonth (d : Date) : option Z :=
  match d with
  | ValidDate t => Some (MonthFromTime (LocalTime t))
  | InvalidDate => None
  end.

Definition Date_getFullYear (d : Date) : option Z :=
  match d with
  | ValidDate t => Some (YearFromTime (LocalTime t))
  | InvalidDate => None
  end.

(** [setDate(dt)]: local time. *)
Definition Date_setDate (d : Date) (dt : option Z) : Date :=
  match d, dt with
  | ValidDate t, Some n =>
      let lt := LocalTime t in
      TimeClip (UTC (MakeDate (MakeDay (YearFromTime lt) (MonthFromTime lt) n)
                              (TimeWithinDay lt)))
  | _, _ => InvalidDate
  end.

(** [setHours(0, 0, 0, 0)]: local midnight of the local day. *)
Definition Date_setHours0 (d : Date) : Date :=
  match d with
  | ValidDate t => TimeClip (UTC (MakeDate (Day (LocalTime t)) 0))
  | InvalidDate => InvalidDate
  end.

(** [new Date(year, month, 1)]: local time; a year in 0 .. 99 means
    1900 + year. *)
Definition Date_ofLocalYM (year month : option Z) : Date :=
  match year, month with
  | Some y, Some m =>
      let yr := if (0 <=? y) && (y <=? 99) then 1900 + y else y in
      TimeClip (UTC (MakeDate (MakeDay yr m 1) 0))
  | _, _ => InvalidDate
  end.

(** [ToNumber]. *)
Definition ToNumber (v : JSValue) : number :=
  match v with
  | JUndefined => NaN
  | JNull => Fin 0
  | JBool b => if b then Fin 1 else Fin 0
  | JNumber n => n
  | JDate (ValidDate t) => num_of_Z t
  | JDate InvalidDate => NaN
  | _ => ToNumber_other v
  end.

(** Relational operators on two [Date] objects (by time value). *)
Definition Date_gt (a b : Date) : bool :=
  match a, b with
  | ValidDate ta, ValidDate tb => tb <? ta
  | _, _ => false
  end.

Definition Date_ge (a b : Date) : bool :=
  match a, b with
  | ValidDate ta, ValidDate tb => tb <=? ta
  | _, _ => false
  end.

(** [a - b] on two [Date] objects. *)
Definition Date_minus (a b : Date) : number :=
  match a, b with
  | ValidDate ta, ValidDate tb => num_of_Z (ta - tb)
  | _, _ => NaN
  end.

(** *** js/data/historicalData.js *)

Definition parseDate (dateString : string) : result Date :=
  match Date_ofString (dateString ++ utcMidnightSuffix) with
  | ValidDate t => Ok (ValidDate t)
  | InvalidDate => Throw (InvalidDateFormat dateString)
  end.

Definition formatDate (d : Date) : result string := isoDatePart d.

Definition calculateDate (startDate : string) (daysToAdd : Z) : result string :=
  do date <- parseDate startDate;
  let date' := Date_setUTCDate date (optZ_add (Date_getUTCDate date) daysToAdd) in
  formatDate date'.

(** The predicate of the [filter] that collects the invalid prices. *)
Definition invalidPrice (price : JSValue) : bool :=
  match price with
  | JNumber n => num_isNaN n || num_lt n (Fin 0)
  | _ => true
  end.

Definition stringOf (v : JSValue) : string :=
  match v with JString s => s | _ => EmptyString end.

Definition isStringType (v : JSValue) : bool :=
  match typeof v with TString => true | _ => false end.

Definition parseHistoricalData (data : JSValue) : result HistoricalData :=
  if negb (ToBoolean data) || negb (isObjectType data) then Throw MustBeAnObject
  else
    let data_start := getProp data "start" in
    if negb (ToBoolean data_start) || negb (isStringType data_start)
    then Throw MissingOrInvalidStartDate
    else
      match getProp data "prices" with
      | JArray data_prices =>
          if arrayLength data_prices =? 0 then Throw PricesArrayIsEmpty
          else
            do startDate <- parseDate (stringOf data_start);
            let invalidPrices := filter invalidPrice data_prices in
            if 0 <? arrayLength invalidPrices
            then Throw (FoundInvalidPrices (List.length invalidPrices))
            else
              do endDate <- calculateDate (stringOf data_start)
                                          (arrayLength data_prices - 1);
              do endDate' <- parseDate endDate;
              Ok (mkHistoricalData (stringOf data_start) startDate endDate'
                                   data_prices (arrayLength data_prices))
      | _ => Throw PricesMustBeAnArray
      end.

Definition getPriceForDate (historicalData : HistoricalData)
    (targetDate : JSValue) : result (option PriceInfo) :=
  do target <-
     match targetDate with
     | JDate d => Ok d
     | JString s => parseDate s
     | _ => Throw TargetDateMustBeStringOrDate
     end;
  match floorDaysBetween target (startDate historicalData) with
  | Some daysDiff =>
      if (daysDiff <? 0) || (arrayLength (prices historicalData) <=? daysDiff)
      then Ok None
      else
        do dateString <- formatDate target;
        Ok (Some (mkPriceInfo dateString
                              (arrayGet (prices historicalData) daysDiff)))
  | None =>
      do dateString <- formatDate target;
      Ok (Some (mkPriceInfo dateString JUndefined))
  end.

Definition getLatestPrice (historicalData : HistoricalData) : result PriceInfo :=
  let latestIndex := arrayLength (prices historicalData) - 1 in
  do latestDate <- calculateDate (start historicalData) latestIndex;
  Ok (mkPriceInfo latestDate (arrayGet (prices historicalData) latestIndex)).

(** The [for] loop of [getPriceRange]: [n] iterations from index [i]. *)
Fixpoint priceRangeLoop (historicalData : HistoricalData) (n : nat) (i : Z)
    (acc : list PriceInfo) : result (list PriceInfo) :=
  match n with
  | O => Ok acc
  | S n' =>
      do d <- calculateDate (start historicalData) i;
      priceRangeLoop historicalData n' (i + 1)
        (acc ++ [mkPriceInfo d (arrayGet (prices historicalData) i)])
  end.

(** The parameters [startDate] and [endDate] of the source are [fromDate]
    and [toDate] here. *)
Definition getPriceRange (historicalData : HistoricalData)
    (fromDate toDate : string) : result (list PriceInfo) :=
  do start_ <- parseDate fromDate;
  do end_ <- parseDate toDate;
  if Date_gt start_ end_ then Throw RangeStartMustBeBeforeEnd
  else
    match floorDaysBetween start_ (startDate historicalData),
          floorDaysBetween end_ (startDate historicalData) with
    | Some startDiff, Some endDiff =>
        let actualStart := Z.max 0 startDiff in
        let actualEnd :=
          Z.min (arrayLength (prices historicalData) - 1) endDiff in
        priceRangeLoop historicalData
          (Z.to_nat (actualEnd - actualStart + 1)) actualStart []
    | _, _ => Ok []
    end.

(** *** js/business/timeWindows.js *)

Definition getStartOfWeek (date : Date) : Date :=
  let startOfWeek := date in
  let day := Date_getDay startOfWeek in
  let diff :=
    match Date_getDate startOfWeek, day with
    | Some dt, Some dy => Some (dt - dy + (if dy =? 0 then -6 else 1))
    | _, _ => None
    end in
  Date_setHours0 (Date_setDate startOfWeek diff).

Definition getStartOfMonth (date : Date) : Date :=
  Date_setHours0 (Date_ofLocalYM (Date_getFullYear date) (Date_getMonth date)).

Definition getStartOfYear (date : Date) : Date :=
  Date_setHours0 (Date_ofLocalYM (Date_getFullYear date) (Some 0)).

Definition getStartOfYesterday (date : Date) : Date :=
  let yesterday := date in
  let yesterday' :=
    Date_setDate yesterday (optZ_sub (Date_getDate yesterday) 1) in
  Date_setHours0 yesterday'.

Definition getCalendarStartDate (timeWindow : string) (referenceDate : Date)
    : result Date :=
  if String.eqb timeWindow "1d" then Ok (getStartOfYesterday referenceDate)
  else if String.eqb timeWindow "wtd" then Ok (getStartOfWeek referenceDate)
  else if String.eqb timeWindow "mtd" then Ok (getStartOfMonth referenceDate)
  else if String.eqb timeWindow "ytd" then Ok (getStartOfYear referenceDate)
  else Throw (InvalidCalendarTimeWindow timeWindow).

(** *** js/business/portfolio.js *)

Definition calculateTotalValue (btcAmount currentPrice : JSValue)
    : result number :=
  match btcAmount, currentPrice with
  | JNumber a, JNumber c =>
      if num_lt a (Fin 0) || num_lt c (Fin 0)
      then Throw TotalValue_MustBeNonNegative
      else Ok (num_mul a c)
  | _, _ => Throw TotalValue_MustBeNumbers
  end.

Definition calculateAbsoluteGain (btcAmount currentPrice purchasePrice : JSValue)
    : result number :=
  match btcAmount, currentPrice, purchasePrice with
  | JNumber a, JNumber c, JNumber p =>
      if num_lt a (Fin 0) || num_lt c (Fin 0) || num_lt p (Fin 0)
      then Throw AbsoluteGain_MustBeNonNegative
      else
        let currentValue := num_mul a c in
        let purchaseValue := num_mul a p in
        Ok (num_sub currentValue purchaseValue)
  | _, _, _ => Throw AbsoluteGain_MustBeNumbers
  end.

Definition calculatePercentageGain (currentPrice purchasePrice : JSValue)
    : result number :=
  match currentPrice, purchasePrice with
  | JNumber c, JNumber p =>
      if num_lt c (Fin 0) || num_le p (Fin 0)
      then Throw PercentageGain_MustBePositive
      else Ok (num_div (num_sub c p) p)
  | _, _ => Throw PercentageGain_MustBeNumbers
  end.

Definition calculateCAGR (currentPrice purchasePrice years : JSValue)
    : result number :=
  match currentPrice, purchasePrice, years with
  | JNumber c, JNumber p, JNumber y =>
      if num_le c (Fin 0) || num_le p (Fin 0) || num_le y (Fin 0)
      then Throw CAGR_MustBePositive
      else Ok (num_sub (Math_pow (num_div c p) (num_div (Fin 1) y)) (Fin 1))
  | _, _, _ => Throw CAGR_MustBeNumbers
  end.

(** 365.25 *)
Definition daysPerYear : number := Fin (1461 # 4).

Definition calculateYearsBetweenDates (startDate endDate : JSValue)
    : result number :=
  match startDate, endDate with
  | JDate s, JDate e =>
      if Date_ge s e then Throw Years_StartMustBeBeforeEnd
      else
        let millisecondsDiff := Date_minus e s in
        let daysDiff := num_div millisecondsDiff (num_of_Z msPerDay) in
        Ok (num_div daysDiff daysPerYear)
  | _, _ => Throw Years_MustBeDates
  end.

Definition MIN_DAYS_FOR_CAGR : number := Fin 30.

(** [MIN_DAYS_FOR_CAGR / 365.25] as the binary64 division returns it.  The
    quotient 40/487 is not a binary64 number; the nearest one, which the
    comparison in [calculateDisplayCAGR] uses, is
    5918488216667592 * 2^-56 = 0.08213552361396304, just below it. *)
Definition minYearsForCAGR : number :=
  Fin (739811027083449 # 9007199254740992).

Definition calculateDisplayCAGR (currentPrice purchasePrice years : JSValue)
    : result JSValue :=
  if num_lt (ToNumber years) minYearsForCAGR then Ok JNull
  else
    do c <- calculateCAGR currentPrice purchasePrice years;
    Ok (JNumber c).

(** [clock] is what [new Date()] returns when the default of [currentDate]
    is evaluated (the argument is [undefined]). *)
Definition calculatePortfolioMetrics (clock : Date)
    (btcAmount currentPrice purchasePrice purchaseDate currentDate : JSValue)
    : result Metrics :=
  let currentDate' :=
    match currentDate with JUndefined => JDate clock | _ => currentDate end in
  do totalValue <- calculateTotalValue btcAmount currentPrice;
  do absoluteGain <- calculateAbsoluteGain btcAmount currentPrice purchasePrice;
  do percentageGain <- calculatePercentageGain currentPrice purchasePrice;
  do years <- calculateYearsBetweenDates purchaseDate currentDate';
  do cagr <- calculateCAGR currentPrice purchasePrice (JNumber years);
  do displayCAGR <-
     calculateDisplayCAGR currentPrice purchasePrice (JNumber years);
  Ok (mkMetrics totalValue absoluteGain percentageGain cagr displayCAGR years
                (num_mul (ToNumber btcAmount) (ToNumber purchasePrice))).

(** *** js/app.js: metrics of the selected time window

    The module-level variables [globalHistoricalData], [globalBtcAmount]
    and [globalCurrentPrice] are arguments; [clock] is the value of every
    [new Date()] of one call. *)

Definition isCalendarOrDaily (c : WindowConfig) : bool :=
  match type c with Calendar | Daily => true | Fixed => false end.

Definition metricsForTimeWindow (globalHistoricalData : HistoricalData)
    (globalBtcAmount globalCurrentPrice : JSValue) (clock : Date)
    (timeWindow : string) : result MetricsDisplay :=
  if String.eqb timeWindow "all" then
    let purchaseDate := Date_ofString (start globalHistoricalData) in
    do earliestPriceData <-
       getPriceForDate globalHistoricalData (JDate purchaseDate);
    match earliestPriceData with
    | Some e =>
        do metrics <-
           calculatePortfolioMetrics clock globalBtcAmount globalCurrentPrice
             (price e) (JDate purchaseDate) JUndefined;
        Ok (ShowMetrics metrics)
    | None => Ok ShowLoading
    end
  else
    match TIME_WINDOWS timeWindow with
    | None => Throw (InvalidTimeWindow timeWindow)
    | Some windowConfig =>
        let currentDate := clock in
        do startDate <-
           (if isCalendarOrDaily windowConfig
            then getCalendarStartDate timeWindow currentDate
            else
              Ok (Date_setDate currentDate
                    (match days windowConfig with
                     | Some n => optZ_sub (Date_getDate currentDate) n
                     | None => None
                     end)));
        do startPriceData <-
           getPriceForDate globalHistoricalData (JDate startDate);
        do stale <-
           match startPriceData with
           | Some sp =>
               if String.eqb timeWindow "1d" then
                 do latestHistorical <- getLatestPrice globalHistoricalData;
                 if String.eqb (date sp) (date latestHistorical) then
                   do timeHeld <-
                      calculateYearsBetweenDates
                        (JDate (Date_ofString (date sp))) (JDate clock);
                   Ok (Some (ShowStaleNA timeHeld
                               (num_mul (ToNumber globalBtcAmount)
                                        (ToNumber (price sp)))
                               (price sp)))
                 else Ok None
               else Ok None
           | None => Ok None
           end;
        match stale with
        | Some display => Ok display
        | None =>
            match startPriceData with
            | Some sp =>
                let actualStartDate := Date_ofString (date sp) in
                do metrics <-
                   calculatePortfolioMetrics clock globalBtcAmount
                     globalCurrentPrice (price sp) (JDate actualStartDate)
                     JUndefined;
                Ok (ShowMetrics metrics)
            | None => Ok ShowError
            end
        end
    end.

Definition updatePortfolioMetricsForTimeWindow
    (globalHistoricalData : option HistoricalData)
    (globalBtcAmount globalCurrentPrice : JSValue) (clock : Date)
    (timeWindow : string) : MetricsDisplay :=
  match globalHistoricalData with
  | None => ShowError
  | Some h =>
      match metricsForTimeWindow h globalBtcAmount globalCurrentPrice clock
              timeWindow with
      | Ok display => display
      | Throw _ => ShowError
      end
  end.

(** *** js/business/timeWindows.js: days ago, filtering, availability *)

(** The abstract relational comparison [x < y] of two values: by time value
    on two dates, [None] (undefined) when one of them is invalid. *)
Definition IsLessThan (x y : JSValue) : option bool :=
  match x, y with
  | JDate (ValidDate a), JDate (ValidDate b) => Some (a <? b)
  | JDate _, JDate _ => None
  | _, _ => IsLessThan_other x y
  end.

(** [x < y], [x > y], [x <= y]. *)
Definition js_lt (x y : JSValue) : bool :=
  match IsLessThan x y with Some b => b | None => false end.

Definition js_gt (x y : JSValue) : bool :=
  match IsLessThan y x with Some b => b | None => false end.

Definition js_le (x y : JSValue) : bool :=
  match IsLessThan y x with Some b => negb b | None => false end.

(** [getDate()] as a number. *)
Definition Date_getDate_number (d : Date) : number :=
  match Date_getDate d with
  | Some n => num_of_Z n
  | None => NaN
  end.

(** [setDate(dt)] on a number: [MakeDay] truncates a finite [dt] and has no
    day for [NaN] and the infinities. *)
Definition Date_setDate_number (d : Date) (dt : number) : Date :=
  Date_setDate d (match dt with Fin q => Some (Qtrunc q) | _ => None end).

Definition getDateDaysAgo (clock : Date) (referenceDate daysAgo : JSValue)
    : wresult Date :=
  match orNow clock referenceDate with
  | JDate reference =>
      match daysAgo with
      | JNumber n =>
          if num_lt n (Fin 0) then WThrow DaysAgoMustBeNonNegative
          else
            let targetDate := reference in
            WOk (Date_setDate_number targetDate
                   (num_sub (Date_getDate_number targetDate) n))
      | _ => WThrow DaysAgoMustBeNonNegative
      end
  | _ => WThrow ReferenceDateMustBeADate
  end.

(** The callback of the [filter] in [filterByTimeWindow]. *)
Definition onOrAfterCutoff (cutoffDate : Date) (dataPoint : JSValue)
    : wresult bool :=
  doW d <- dataPointDate dataPoint;
  match d with
  | JDate dt => WOk (Date_ge dt cutoffDate)
  | _ => WThrow DataPointMustHaveADate
  end.

(** [windowConfig] in [filterByTimeWindow] is an entry of the table or, for
    a key of [objectPrototypeKeys], an inherited member without [type] and
    [days]. *)
Definition filterByTimeWindow (clock : Date)
    (priceData timeWindow referenceDate : JSValue) : wresult (list JSValue) :=
  match priceData with
  | JArray points =>
      match timeWindow with
      | JString key =>
          match orNow clock referenceDate with
          | JDate reference =>
              match TIME_WINDOWS key with
              | Some windowConfig =>
                  if String.eqb key "all" then WOk points
                  else
                    doW cutoffDate <-
                       (if isCalendarOrDaily windowConfig
                        then liftCalendar (getCalendarStartDate key reference)
                        else getDateDaysAgo clock (JDate reference)
                               (windowDays key windowConfig));
                    Array_filter (onOrAfterCutoff cutoffDate) points
              | None =>
                  if inheritedKey key then
                    doW cutoffDate <-
                       getDateDaysAgo clock (JDate reference) JUndefined;
                    Array_filter (onOrAfterCutoff cutoffDate) points
                  else WThrow (InvalidTimeWindowOption key)
              end
          | _ => WThrow ReferenceDateMustBeADate
          end
      | _ => WThrow TimeWindowMustBeAString
      end
  | _ => WThrow PriceDataMustBeAnArray
  end.

(** The callbacks of the two [reduce] calls. *)
Definition earlierDate (earliest dataPoint : JSValue) : wresult JSValue :=
  doW d <- dataPointDate dataPoint;
  WOk (if js_lt d earliest then d else earliest).

Definition laterDate (latest dataPoint : JSValue) : wresult JSValue :=
  doW d <- dataPointDate dataPoint;
  WOk (if js_gt d latest then d else latest).

Definition getEarliestDateForWindow (clock : Date)
    (priceData timeWindow referenceDate : JSValue) : wresult JSValue :=
  doW filteredData <-
     filterByTimeWindow clock priceData timeWindow referenceDate;
  match filteredData with
  | [] => WOk JNull
  | first :: _ =>
      doW init <- dataPointDate first;
      Array_reduce earlierDate filteredData init
  end.

Definition getLatestDateForWindow (clock : Date)
    (priceData timeWindow referenceDate : JSValue) : wresult JSValue :=
  doW filteredData <-
     filterByTimeWindow clock priceData timeWindow referenceDate;
  match filteredData with
  | [] => WOk JNull
  | first :: _ =>
      doW init <- dataPointDate first;
      Array_reduce laterDate filteredData init
  end.

(** The callback of the [filter] over the keys in
    [getAvailableTimeWindows]. *)
Definition windowAvailable (referenceDate : Date) (earliestDate : JSValue)
    (daysSinceEarliest : number) (window : string) : wresult bool :=
  match TIME_WINDOWS window with
  | Some windowConfig =>
      if String.eqb window "all" then WOk true
      else if isCalendarOrDaily windowConfig then
        match getCalendarStartDate window referenceDate with
        | Ok startDate => WOk (js_le earliestDate (JDate startDate))
        | Throw _ => WOk false
        end
      else
        WOk (num_le (ToNumber (windowDays window windowConfig))
                    daysSinceEarliest)
  | None => WThrow TypeError_PropertyOfNullish
  end.

(** The reference date is a [Date] object: the one passed, or [new Date()]
    when the caller passes none, as [app.js] does. *)
Definition getAvailableTimeWindows (priceData : JSValue) (referenceDate : Date)
    : wresult (list string) :=
  match priceData with
  | JArray (first :: _ as points) =>
      doW init <- dataPointDate first;
      doW earliestDate <- Array_reduce earlierDate points init;
      let daysSinceEarliest :=
        Math_floor (num_div (num_sub (ToNumber (JDate referenceDate))
                                     (ToNumber earliestDate))
                            (num_of_Z msPerDay)) in
      Array_filter (windowAvailable referenceDate earliestDate
                      daysSinceEarliest) timeWindowKeys
  | _ => WOk []
  end.

Definition isValidTimeWindow (timeWindow : JSValue) : bool :=
  match timeWindow with
  | JString key =>
      match TIME_WINDOWS key with
      | Some _ => true
      | None => inheritedKey key
      end
  | _ => false
  end.

(** *** js/app.js: the series as data points

    The loop of [updateDisplay] and of [updateChartForTimeWindow] that
    converts the series; [n] iterations from index [i]. *)

Fixpoint priceDataLoop (historicalData : HistoricalData) (n : nat) (i : Z)
    (priceData : list JSValue) : list JSValue :=
  match n with
  | O => priceData
  | S n' =>
      let date := Date_ofString (start historicalData) in
      let date' := Date_setDate date (optZ_add (Date_getDate date) i) in
      priceDataLoop historicalData n' (i + 1)
        (priceData ++ [dataPoint date' (arrayGet (prices historicalData) i)])
  end.

Definition priceDataOf (historicalData : HistoricalData) : list JSValue :=
  priceDataLoop historicalData (List.length (prices historicalData)) 0 [].


(** *** js/weekmove.js *)

Definition getWeekStart (date : Date) : result string :=
  let weekStart :=
    Date_ofUTC (Date_getUTCFullYear date) (Date_getUTCMonth date)
               (Date_getUTCDate date) in
  let day := Date_getUTCDay weekStart in
  let diff :=
    match day with
    | Some dy => Some (if dy =? 0 then -6 else 1 - dy)
    | None => None
    end in
  let weekStart' :=
    Date_setUTCDate weekStart
      (match Date_getUTCDate weekStart, diff with
       | Some dt, Some df => Some (dt + df)
       | _, _ => None
       end) in
  formatDate weekStart'.

(** The week key of the day at index [i] of a series that starts on
    [startDate], as [computeWeeklyAverages] derives it. *)
Definition weekKeyOfIndex (startDate : string) (i : Z) : result string :=
  do s <- calculateDate startDate i;
  do date <- parseDate s;
  getWeekStart date.

(* ================================================================== *)
(** ** What the statements are about *)

(** A price the filter of the parser keeps. *)
Definition acceptedPrice (p : JSValue) : Prop :=
  exists n, p = JNumber n /\ num_isNaN n = false /\ num_le (Fin 0) n = true.

(** What holds of a series that the parser returned: [t0] is the time
    value of its start date. *)
Record parsedSeries (data : JSValue) (h : HistoricalData) (t0 : Z) : Prop := {
  ps_start : getProp data "start" = JString (start h);
  ps_prices : getProp data "prices" = JArray (prices h);
  ps_nonempty : 1 <= arrayLength (prices h);
  ps_parse : parseDate (start h) = Ok (ValidDate t0);
  ps_startDate : startDate h = ValidDate t0;
  ps_range0 : inTimeRange t0;
  ps_rangeN : inTimeRange (t0 + (arrayLength (prices h) - 1) * msPerDay);
  ps_endDate :
    endDate h = ValidDate (MakeDate (Day t0 + arrayLength (prices h) - 1) 0);
  ps_totalDays : totalDays h = arrayLength (prices h);
  ps_accepted : Forall acceptedPrice (prices h)
}.

(** What a caller passes as [targetDate] for the instant [t]: a [Date]
    object, or a string that [parseDate] reads as [t]. *)
Definition targetFor (v : JSValue) (t : Z) : Prop :=
  v = JDate (ValidDate t)
  \/ exists s, v = JString s /\ parseDate s = Ok (ValidDate t).

(** The entry of the series for index [i], when its start is [t0]. *)
Definition entryAt (h : HistoricalData) (t0 i : Z) : PriceInfo :=
  mkPriceInfo (isoDateOfDay (Day t0 + i)) (nth (Z.to_nat i) (prices h) JUndefined).

(** The [n] consecutive integers from [a] on. *)
Fixpoint indexRange (a : Z) (n : nat) : list Z :=
  match n with
  | O => []
  | S n' => a :: indexRange (a + 1) n'
  end.

(** A price the specification of [parse] allows: numeric, not [NaN], not
    negative. *)
Definition spec_priceOk (p : JSValue) : bool :=
  match p with
  | JNumber n => negb (num_isNaN n) && negb (num_lt n (Fin 0))
  | _ => false
  end.

(** The inputs on which the specification of [parse] lets it succeed: an
    object whose [start] is present and a parseable date string and whose
    [prices] is a non-empty list of allowed prices. *)
Definition spec_validRaw (data : JSValue) : bool :=
  (ToBoolean data && isObjectType data)
  && match getProp data "start" with
     | JString s => negb (String.eqb s EmptyString) && isOk (parseDate s)
     | _ => false
     end
  && match getProp data "prices" with
     | JArray ps => negb (arrayLength ps =? 0) && forallb spec_priceOk ps
     | _ => false
     end.

(** The last day of the series, [start + (length - 1)] days, is a time value
    of the range of [Date]. *)
Definition endDateRepresentable (data : JSValue) : bool :=
  match getProp data "start", getProp data "prices" with
  | JString s, JArray ps =>
      match parseDate s with
      | Ok (ValidDate t0) =>
          Z.abs (t0 + (arrayLength ps - 1) * msPerDay) <=? maxTime
      | _ => false
      end
  | _, _ => false
  end.

(** A calendar date as the stored format writes it: [YYYY-MM-DD] with a
    month 01 .. 12 and a day the month has. *)
Definition isCalendarDateString (s : string) : bool :=
  match parseDigits 4 0 s with
  | Some (y, String "-"%char r1) =>
      match parseDigits 2 0 r1 with
      | Some (m, String "-"%char r2) =>
          match parseDigits 2 0 r2 with
          | Some (d, EmptyString) =>
              (1 <=? m) && (m <=? 12) && (1 <=? d)
              && (d <=? DaysInMonth (InLeapYear y) (m - 1))
          | _ => false
          end
      | _ => false
      end
  | _ => false
  end.

(** The stored format, re-derived from a series: the start date written by
    [formatDate], and the prices. *)
Definition rawOfSeries (h : HistoricalData) : result JSValue :=
  do s <- formatDate (startDate h);
  Ok (JObject [("start"%string, JString s); ("prices"%string, JArray (prices h))]).

(** The instant of 00:00 local time of the local day [d]. *)
Definition localMidnight (d : Z) : Z := UTC (MakeDate d 0).

(** The day of an instant on the local calendar. *)
Definition localDay (t : Z) : Z := Day (LocalTime t).

(** What the specification gives for the one-day window: 00:00 UTC of the
    UTC day before the day of [now]. *)
Definition spec_startOfYesterdayUTC (now : Z) : Z := MakeDate (Day now - 1) 0.

(** The years between two dates, as [calculateYearsBetweenDates] computes
    them once the order check has passed. *)
Definition yearsBetween (s n : Date) : number :=
  num_div (num_div (Date_minus n s) (num_of_Z msPerDay)) daysPerYear.

Definition cagrOf (c p y : number) : number :=
  num_sub (Math_pow (num_div c p) (num_div (Fin 1) y)) (Fin 1).

(** The metrics object for numeric inputs that pass every check. *)
Definition metricsOf (a c p : number) (s n : Date) : Metrics :=
  let y := yearsBetween s n in
  mkMetrics (num_mul a c)
            (num_sub (num_mul a c) (num_mul a p))
            (num_div (num_sub c p) p)
            (cagrOf c p y)
            (if num_lt y minYearsForCAGR then JNull else JNumber (cagrOf c p y))
            y
            (num_mul a p).

(** The page shows "N/A*" in the gain boxes instead of metrics. *)
Definition staleSignal (d : MetricsDisplay) : bool :=
  match d with ShowStaleNA _ _ _ => true | _ => false end.

(** The flag of the specification: the resolved start date is the latest
    date of the series and the caller says that the current price was taken
    from that latest point. *)
Definition spec_isStaleWindow (resolvedStart latestDate : string)
    (currentFromLatest : bool) : bool :=
  String.eqb resolvedStart latestDate && currentFromLatest.

(** When the code takes its stale branch. *)
Definition staleCondition (h : HistoricalData) (clock : Date)
    (timeWindow : string) : Prop :=
  timeWindow = "1d"%string
  /\ exists d sp latest timeHeld,
       getCalendarStartDate timeWindow clock = Ok d
       /\ getPriceForDate h (JDate d) = Ok (Some sp)
       /\ getLatestPrice h = Ok latest
       /\ date sp = date latest
       /\ calculateYearsBetweenDates (JDate (Date_ofString (date sp)))
            (JDate clock) = Ok timeHeld.

(** The time value of the [date] of a data point, when that is a valid
    [Date] object. *)
Definition pointTime (p : JSValue) : option Z :=
  match getProp p "date" with
  | JDate (ValidDate t) => Some t
  | _ => None
  end.

(** The [date] of a data point is a [Date] object. *)
Definition hasDateObject (p : JSValue) : bool :=
  match getProp p "date" with
  | JDate _ => true
  | _ => false
  end.

(** The data point is dated at or after the instant [c]. *)
Definition datedSince (c : Z) (p : JSValue) : bool :=
  match pointTime p with
  | Some t => c <=? t
  | None => false
  end.

(** The cutoff of a window for the reference instant [t] is the valid date
    [c]: what [getDateDaysAgo] returns for the [n] days of a fixed window,
    what [getCalendarStartDate] returns for the others. *)
Definition cutoffOfWindow (clock : Date) (key : string) (t c : Z) : Prop :=
  (exists n, TIME_WINDOWS key = Some (mkWindowConfig (Some n) Fixed)
             /\ getDateDaysAgo clock (JDate (ValidDate t))
                  (JNumber (num_of_Z n)) = WOk (ValidDate c))
  \/ getCalendarStartDate key (ValidDate t) = Ok (ValidDate c).

(** The criterion of [getAvailableTimeWindows] for the reference instant
    [now] and a series whose earliest point is dated [tmin]: enough whole
    days since [tmin] for a fixed window, a calendar start not before
    [tmin] for the others; "all" (the fixed window without a number of
    days) is always offered. *)
Definition windowOffered (now tmin : Z) (key : string) : bool :=
  match TIME_WINDOWS key with
  | Some (mkWindowConfig (Some n) Fixed) => n <=? (now - tmin) / msPerDay
  | Some (mkWindowConfig None Fixed) => true
  | Some _ =>
      match getCalendarStartDate key (ValidDate now) with
      | Ok (ValidDate c) => tmin <=? c
      | _ => false
      end
  | None => false
  end.

(** The data point that [app.js] builds for index [i] of a series that
    starts at the instant [t0]. *)
Definition pointAt (h : HistoricalData) (t0 i : Z) : JSValue :=
  dataPoint (ValidDate (t0 + i * msPerDay))
            (nth (Z.to_nat i) (prices h) JUndefined).

(* ================================================================== *)
(** ** Tactics *)

Ltac zdiv := Z.div_mod_to_equations; lia.

(** Forget the parameters of the host that a statement does not mention. *)
Ltac forget_host :=
  repeat match goal with
         | X : Z |- _ => clear X
         | X : string -> option Z |- _ => clear X
         | X : number -> number -> number |- _ => clear X
         | X : JSValue -> number |- _ => clear X
         | X : JSValue -> JSValue -> option bool |- _ => clear X
         end.

(** Evaluate the lookups in the table of windows and the comparisons of
    keys that are closed terms. *)
Ltac eval_keys :=
  repeat match goal with
         | |- context [TIME_WINDOWS ?k] =>
             let v := eval vm_compute in (TIME_WINDOWS k) in
             change (TIME_WINDOWS k) with v
         | |- context [String.eqb ?a ?b] =>
             let v := eval vm_compute in (String.eqb a b) in
             change (String.eqb a b) with v
         end.

(* ================================================================== *)
(** ** The calendar *)

Lemma DayFromYear_succ (y : Z) :
  DayFromYear (y + 1) = DayFromYear y + (if InLeapYear y then 366 else 365).
Proof.
  unfold DayFromYear, InLeapYear.
  destruct (y mod 4 =? 0) eqn:E4; destruct (y mod 100 =? 0) eqn:E100;
    destruct (y mod 400 =? 0) eqn:E400; cbn [andb orb negb];
    rewrite ?Z.eqb_eq, ?Z.eqb_neq in *; zdiv.
Qed.

Lemma DayFromYear_mono (y y' : Z) :
  y <= y' -> DayFromYear y + 365 * (y' - y) <= DayFromYear y'.
Proof. unfold DayFromYear. intros H. zdiv. Qed.

Lemma YearFromDay_spec (z : Z) :
  DayFromYear (YearFromDay z) <= z < DayFromYear (YearFromDay z + 1).
Proof.
  unfold YearFromDay.
  set (y := 400 * (z + 719528) / 146097).
  assert (Hlo : DayFromYear (y - 1) <= z).
  { unfold DayFromYear. subst y. zdiv. }
  assert (Hhi : z < DayFromYear (y + 2)).
  { unfold DayFromYear. subst y. zdiv. }
  destruct (DayFromYear (y + 1) <=? z) eqn:E1.
  - apply Z.leb_le in E1. replace (y + 1 + 1) with (y + 2) by lia. lia.
  - apply Z.leb_gt in E1.
    destruct (DayFromYear y <=? z) eqn:E0.
    + apply Z.leb_le in E0. lia.
    + apply Z.leb_gt in E0. replace (y - 1 + 1) with y by lia. lia.
Qed.

Lemma YearFromDay_unique (z y : Z) :
  DayFromYear y <= z < DayFromYear (y + 1) -> YearFromDay z = y.
Proof.
  intros H. pose proof (YearFromDay_spec z) as S.
  destruct (Z.lt_trichotomy (YearFromDay z) y) as [Hlt|[Heq|Hgt]]; [|exact Heq|].
  - pose proof (DayFromYear_mono (YearFromDay z + 1) y ltac:(lia)). lia.
  - pose proof (DayFromYear_mono (y + 1) (YearFromDay z) ltac:(lia)). lia.
Qed.

Lemma DayWithinYear_range (z : Z) :
  0 <= DayWithinYear z < (if InLeapYear (YearFromDay z) then 366 else 365).
Proof.
  unfold DayWithinYear. pose proof (YearFromDay_spec z) as S.
  rewrite DayFromYear_succ in S. lia.
Qed.

Lemma MonthOfDayInYear_range (leap : bool) (d : Z) :
  0 <= MonthOfDayInYear leap d <= 11.
Proof.
  unfold MonthOfDayInYear.
  repeat match goal with
         | |- context [if ?a <? ?b then _ else _] => destruct (a <? b)
         end; lia.
Qed.

Lemma MonthFromDay_range (z : Z) : 0 <= MonthFromDay z <= 11.
Proof. apply MonthOfDayInYear_range. Qed.

(** The day of the year lies in the month the table gives. *)
Lemma MonthOfDayInYear_spec (leap : bool) (d : Z) :
  0 <= d < (if leap then 366 else 365) ->
  let m := MonthOfDayInYear leap d in
  DaysBeforeMonth leap m <= d < DaysBeforeMonth leap m + DaysInMonth leap m.
Proof.
  intros H. unfold MonthOfDayInYear.
  destruct leap; cbn [DaysBeforeMonth DaysInMonth];
    repeat match goal with
           | |- context [if ?a <? ?b then _ else _] =>
               let E := fresh "E" in
               destruct (a <? b) eqn:E;
               [apply Z.ltb_lt in E | apply Z.ltb_ge in E]
           end; cbn; lia.
Qed.

Lemma DateFromDay_range (z : Z) :
  1 <= DateFromDay z
    <= DaysInMonth (InLeapYear (YearFromDay z)) (MonthFromDay z).
Proof.
  unfold DateFromDay, MonthFromDay.
  pose proof (MonthOfDayInYear_spec _ _ (DayWithinYear_range z)) as H.
  cbv zeta in H. lia.
Qed.

(** A day is the day of its own date. *)
Lemma MakeDay_civil_of_day (z : Z) :
  MakeDay (YearFromDay z) (MonthFromDay z) (DateFromDay z) = z.
Proof.
  pose proof (MonthFromDay_range z) as Hm.
  unfold MakeDay.
  rewrite (Z.div_small (MonthFromDay z) 12) by lia.
  rewrite (Z.mod_small (MonthFromDay z) 12) by lia.
  rewrite Z.add_0_r. unfold DateFromDay, DayWithinYear. lia.
Qed.

Lemma MonthOfDayInYear_unique (leap : bool) (m d : Z) :
  0 <= m <= 11 ->
  DaysBeforeMonth leap m <= d < DaysBeforeMonth leap m + DaysInMonth leap m ->
  MonthOfDayInYear leap d = m.
Proof.
  intros Hm Hd.
  assert (Hc : m = 0 \/ m = 1 \/ m = 2 \/ m = 3 \/ m = 4 \/ m = 5 \/ m = 6
               \/ m = 7 \/ m = 8 \/ m = 9 \/ m = 10 \/ m = 11) by lia.
  unfold MonthOfDayInYear.
  destruct leap;
    repeat (destruct Hc as [->|Hc]; [cbn in Hd |]); try subst m; try cbn in Hd;
    repeat match goal with
           | |- context [if ?a <? ?b then _ else _] =>
               let E := fresh "E" in
               destruct (a <? b) eqn:E;
               [apply Z.ltb_lt in E | apply Z.ltb_ge in E]
           end; lia.
Qed.

Lemma DaysBeforeMonth_bound (leap : bool) (m : Z) :
  0 <= m <= 11 ->
  0 <= DaysBeforeMonth leap m /\
  DaysBeforeMonth leap m + DaysInMonth leap m
    <= (if leap then 366 else 365).
Proof.
  intros Hm.
  assert (Hc : m = 0 \/ m = 1 \/ m = 2 \/ m = 3 \/ m = 4 \/ m = 5 \/ m = 6
               \/ m = 7 \/ m = 8 \/ m = 9 \/ m = 10 \/ m = 11) by lia.
  destruct leap;
    repeat (destruct Hc as [->|Hc]; [cbn; lia |]); subst m; cbn; lia.
Qed.

(** The date of the day of a date of the calendar is that date. *)
Lemma civil_of_day_MakeDay (y m d : Z) :
  0 <= m <= 11 -> 1 <= d <= DaysInMonth (InLeapYear y) m ->
  civil_of_day (MakeDay y m d) = (y, m, d).
Proof.
  intros Hm Hd.
  pose proof (DaysBeforeMonth_bound (InLeapYear y) m Hm) as [B0 B1].
  assert (Hz : MakeDay y m d
               = DayFromYear y + DaysBeforeMonth (InLeapYear y) m + d - 1).
  { unfold MakeDay. rewrite (Z.div_small m 12), (Z.mod_small m 12) by lia.
    rewrite Z.add_0_r. reflexivity. }
  assert (Hy : YearFromDay (MakeDay y m d) = y).
  { apply YearFromDay_unique. rewrite DayFromYear_succ, Hz.
    destruct (InLeapYear y); lia. }
  assert (Hw : DayWithinYear (MakeDay y m d)
               = DaysBeforeMonth (InLeapYear y) m + d - 1).
  { unfold DayWithinYear. rewrite Hy, Hz. lia. }
  assert (Hmo : MonthFromDay (MakeDay y m d) = m).
  { unfold MonthFromDay. rewrite Hy, Hw.
    apply MonthOfDayInYear_unique; [exact Hm | lia]. }
  unfold civil_of_day, DateFromDay. rewrite Hmo, Hy, Hw.
  f_equal. lia.
Qed.

Lemma MakeDay_add_date (y m d n : Z) : MakeDay y m (d + n) = MakeDay y m d + n.
Proof. unfold MakeDay. lia. Qed.

Lemma MakeDay_of_time (t : Z) :
  MakeDay (YearFromTime t) (MonthFromTime t) (DateFromTime t) = Day t.
Proof. apply MakeDay_civil_of_day. Qed.

Lemma MakeDate_Day (t : Z) : MakeDate (Day t) (TimeWithinDay t) = t.
Proof. unfold MakeDate, Day, TimeWithinDay, msPerDay. zdiv. Qed.

Lemma Day_add_days (t n : Z) : Day (t + n * msPerDay) = Day t + n.
Proof. unfold Day, msPerDay. zdiv. Qed.

Lemma Day_MakeDate0 (z : Z) : Day (MakeDate z 0) = z.
Proof. unfold Day, MakeDate, msPerDay. zdiv. Qed.

Lemma TimeWithinDay_add_days (t n : Z) :
  TimeWithinDay (t + n * msPerDay) = TimeWithinDay t.
Proof. unfold TimeWithinDay, msPerDay. zdiv. Qed.

Lemma TimeClip_valid (t : Z) : inTimeRange t -> TimeClip t = ValidDate t.
Proof.
  unfold inTimeRange, TimeClip. intros H.
  destruct (Z.abs t <=? maxTime) eqn:E; [reflexivity|].
  apply Z.leb_gt in E. lia.
Qed.

Lemma TimeClip_inv (t u : Z) :
  TimeClip t = ValidDate u -> u = t /\ inTimeRange t.
Proof.
  unfold TimeClip, inTimeRange.
  destruct (Z.abs t <=? maxTime) eqn:E; [|discriminate].
  intros [= <-]. apply Z.leb_le in E. lia.
Qed.

(** Midnight of the day of a time of the range is in the range. *)
Lemma inTimeRange_midnight (t : Z) :
  inTimeRange t -> inTimeRange (MakeDate (Day t) 0).
Proof. unfold inTimeRange, MakeDate, Day, maxTime, msPerDay. intros H. zdiv. Qed.

(** [setUTCDate(getUTCDate() + n)] moves a date by [n] days. *)
Lemma setUTCDate_add_days (t n : Z) :
  Date_setUTCDate (ValidDate t) (optZ_add (Date_getUTCDate (ValidDate t)) n)
  = TimeClip (t + n * msPerDay).
Proof.
  cbn [Date_setUTCDate Date_getUTCDate optZ_add].
  rewrite MakeDay_add_date, MakeDay_of_time. f_equal.
  rewrite <- (MakeDate_Day t) at 3. unfold MakeDate. lia.
Qed.

Lemma YearFromDay_bounds (z : Z) :
  -100000000 <= z <= 100000000 -> -271821 <= YearFromDay z <= 275760.
Proof.
  intros H. pose proof (YearFromDay_spec z) as S. split.
  - destruct (Z_lt_le_dec (YearFromDay z) (-271821)) as [Hlt|]; [|lia].
    pose proof (DayFromYear_mono (YearFromDay z + 1) (-271821) ltac:(lia)) as M.
    change (DayFromYear (-271821)) with (-100000109) in M. lia.
  - destruct (Z_lt_le_dec 275760 (YearFromDay z)) as [Hlt|]; [|lia].
    pose proof (DayFromYear_mono 275761 (YearFromDay z) ltac:(lia)) as M.
    change (DayFromYear 275761) with 100000110 in M. lia.
Qed.

Lemma Day_bounds (t : Z) :
  inTimeRange t -> -100000000 <= Day t <= 100000000.
Proof. unfold inTimeRange, Day, maxTime, msPerDay. intros H. zdiv. Qed.

(** *** Digits *)

Lemma digitVal_digitChar (k : Z) :
  0 <= k <= 9 -> digitVal (digitChar k) = Some k.
Proof.
  intros H.
  assert (Hc : k = 0 \/ k = 1 \/ k = 2 \/ k = 3 \/ k = 4 \/ k = 5 \/ k = 6
               \/ k = 7 \/ k = 8 \/ k = 9) by lia.
  repeat (destruct Hc as [->|Hc]; [reflexivity|]). subst k. reflexivity.
Qed.

Lemma digitChar_digitVal (c : ascii) (v : Z) :
  digitVal c = Some v -> digitChar v = c /\ 0 <= v <= 9.
Proof.
  unfold digitVal, digitChar.
  destruct ((48 <=? Z.of_nat (nat_of_ascii c))
            && (Z.of_nat (nat_of_ascii c) <=? 57)) eqn:E; [|discriminate].
  intros [= <-]. apply andb_true_iff in E as [E1 E2].
  apply Z.leb_le in E1, E2. split; [|lia].
  replace (48 + Z.to_nat (Z.of_nat (nat_of_ascii c) - 48))%nat
    with (nat_of_ascii c) by lia.
  apply ascii_nat_embedding.
Qed.

Lemma digitChar_not_sign (k : Z) :
  0 <= k <= 9 -> digitChar k <> "+"%char /\ digitChar k <> "-"%char.
Proof.
  intros H.
  assert (Hc : k = 0 \/ k = 1 \/ k = 2 \/ k = 3 \/ k = 4 \/ k = 5 \/ k = 6
               \/ k = 7 \/ k = 8 \/ k = 9) by lia.
  repeat (destruct Hc as [->|Hc]; [split; discriminate|]).
  subst k. split; discriminate.
Qed.

Lemma parseDigits_padDigits (k : nat) :
  forall (acc n : Z) (rest : string), 0 <= n ->
  parseDigits k acc (padDigits k n ++ rest)
  = Some (acc * 10 ^ Z.of_nat k + n mod 10 ^ Z.of_nat k, rest).
Proof.
  induction k as [|k IH]; intros acc n rest Hn.
  - cbn. rewrite Z.mod_1_r. do 2 f_equal. lia.
  - cbn [padDigits parseDigits append].
    assert (Hp : 0 < 10 ^ Z.of_nat k) by (apply Z.pow_pos_nonneg; lia).
    rewrite digitVal_digitChar
      by (pose proof (Z.mod_pos_bound (n / 10 ^ Z.of_nat k) 10); lia).
    rewrite IH by exact Hn. do 2 f_equal.
    rewrite Nat2Z.inj_succ, Z.pow_succ_r by lia.
    rewrite (Z.mul_comm 10 (10 ^ Z.of_nat k)).
    rewrite (Z.rem_mul_r n (10 ^ Z.of_nat k) 10) by lia. lia.
Qed.

Lemma append_assoc (a b c : string) : ((a ++ b) ++ c = a ++ (b ++ c))%string.
Proof. induction a as [|x a IH]; cbn; [reflexivity | now rewrite IH]. Qed.

Lemma parseYear_digit_head (k : Z) (tail : string) :
  0 <= k <= 9 ->
  parseYear (String (digitChar k) tail)
  = parseDigits 4 0 (String (digitChar k) tail).
Proof.
  intros H.
  assert (Hc : k = 0 \/ k = 1 \/ k = 2 \/ k = 3 \/ k = 4 \/ k = 5 \/ k = 6
               \/ k = 7 \/ k = 8 \/ k = 9) by lia.
  repeat (destruct Hc as [->|Hc]; [reflexivity|]). subst k. reflexivity.
Qed.

Lemma parseYear_isoYear (y : Z) (rest : string) :
  -999999 <= y <= 999999 ->
  parseYear (isoYear y ++ rest) = Some (y, rest).
Proof.
  intros Hy. unfold isoYear.
  destruct ((0 <=? y) && (y <=? 9999)) eqn:E.
  - apply andb_true_iff in E as [E1 E2]. apply Z.leb_le in E1, E2.
    change (padDigits 4 y)
      with (String (digitChar (y / 10 ^ 3 mod 10)) (padDigits 3 y)).
    cbn [append]. rewrite parseYear_digit_head
      by (pose proof (Z.mod_pos_bound (y / 10 ^ 3) 10); lia).
    change (String (digitChar (y / 10 ^ 3 mod 10)) (padDigits 3 y ++ rest))
      with (padDigits 4 y ++ rest)%string.
    rewrite parseDigits_padDigits by lia.
    rewrite Z.mod_small by (cbn; lia). reflexivity.
  - destruct (y <? 0) eqn:N.
    + apply Z.ltb_lt in N. cbn [append parseYear].
      rewrite parseDigits_padDigits by lia.
      rewrite Z.mod_small by (cbn; lia). cbn [Z.mul Z.add].
      destruct (Z.abs y =? 0) eqn:Z0; [apply Z.eqb_eq in Z0; lia|].
      do 2 f_equal. lia.
    + apply Z.ltb_ge in N. cbn [append parseYear].
      rewrite parseDigits_padDigits by lia.
      rewrite Z.mod_small by (cbn; lia). do 2 f_equal. lia.
Qed.

(** Parsing the date part of [toISOString] gives the day back. *)
Lemma parseDateOnly_isoDateOfDay (z : Z) (rest : string) :
  -100000000 <= z <= 100000000 ->
  parseDateOnly (isoDateOfDay z ++ rest) = Some (z, rest).
Proof.
  intros Hz. pose proof (YearFromDay_bounds z Hz) as Hy.
  pose proof (MonthFromDay_range z) as Hm.
  pose proof (DateFromDay_range z) as Hd.
  assert (Hd31 : DateFromDay z <= 31).
  { destruct (InLeapYear (YearFromDay z)); 
      destruct (MonthFromDay z) as [|p|p]; cbn in Hd; try lia;
      repeat (destruct p as [p|p|]; cbn in Hd; try lia). }
  unfold isoDateOfDay, civil_of_day, parseDateOnly.
  rewrite !append_assoc. rewrite parseYear_isoYear by lia.
  cbn [append].
  rewrite parseDigits_padDigits by lia.
  rewrite Z.mod_small by (cbn; lia). cbn [Z.mul Z.add].
  replace ((1 <=? MonthFromDay z + 1) && (MonthFromDay z + 1 <=? 12)) with true
    by (symmetry; apply andb_true_iff; split; apply Z.leb_le; lia).
  rewrite parseDigits_padDigits by lia.
  rewrite Z.mod_small by (cbn; lia). cbn [Z.mul Z.add].
  replace (MonthFromDay z + 1 - 1) with (MonthFromDay z) by lia.
  replace ((1 <=? DateFromDay z)
           && (DateFromDay z
               <=? DaysInMonth (InLeapYear (YearFromDay z)) (MonthFromDay z)))
    with true
    by (symmetry; apply andb_true_iff; split; apply Z.leb_le; lia).
  rewrite MakeDay_civil_of_day. reflexivity.
Qed.

(** *** [parseDate], [formatDate], [calculateDate] *)

Lemma parseDate_inv (s : string) (d : Date) :
  parseDate s = Ok d ->
  exists t, d = ValidDate t /\ inTimeRange t
            /\ Date_parse (s ++ utcMidnightSuffix) = Some t.
Proof.
  unfold parseDate, Date_ofString.
  destruct (Date_parse (s ++ utcMidnightSuffix)) as [t|] eqn:P; [|discriminate].
  destruct (TimeClip t) as [u|] eqn:C; [|discriminate].
  intros [= <-]. apply TimeClip_inv in C as [-> R]. eauto.
Qed.

(** [parseDate] reads back what [formatDate] writes: the UTC midnight of
    the day. *)
Lemma parseDate_isoDateOfDay (t : Z) :
  inTimeRange t ->
  parseDate (isoDateOfDay (Day t)) = Ok (ValidDate (MakeDate (Day t) 0)).
Proof.
  intros R. unfold parseDate, Date_ofString, Date_parse.
  rewrite parseDateOnly_isoDateOfDay by (apply Day_bounds; exact R).
  change (String.eqb utcMidnightSuffix EmptyString
          || String.eqb utcMidnightSuffix utcMidnightSuffix) with true.
  cbv iota. rewrite TimeClip_valid by (apply inTimeRange_midnight; exact R).
  reflexivity.
Qed.

Lemma calculateDate_eq (s : string) (t0 n : Z) :
  parseDate s = Ok (ValidDate t0) ->
  calculateDate s n = formatDate (TimeClip (t0 + n * msPerDay)).
Proof.
  intros P. unfold calculateDate. rewrite P. cbn [bind].
  rewrite setUTCDate_add_days. reflexivity.
Qed.

Lemma calculateDate_ok (s : string) (t0 n : Z) :
  parseDate s = Ok (ValidDate t0) -> inTimeRange (t0 + n * msPerDay) ->
  calculateDate s n = Ok (isoDateOfDay (Day t0 + n)).
Proof.
  intros P R. rewrite (calculateDate_eq s t0 n P), TimeClip_valid by exact R.
  cbn [formatDate isoDatePart]. rewrite Day_add_days. reflexivity.
Qed.

Lemma calculateDate_ok_inv (s : string) (t0 n : Z) (r : string) :
  parseDate s = Ok (ValidDate t0) -> calculateDate s n = Ok r ->
  inTimeRange (t0 + n * msPerDay) /\ r = isoDateOfDay (Day t0 + n).
Proof.
  intros P C. rewrite (calculateDate_eq s t0 n P) in C.
  destruct (TimeClip (t0 + n * msPerDay)) as [u|] eqn:T; [|discriminate].
  apply TimeClip_inv in T as [-> R]. split; [exact R|].
  cbn [formatDate isoDatePart] in C. rewrite Day_add_days in C.
  now inversion C.
Qed.

(** *** The series returned by [parseHistoricalData] *)

Lemma num_not_lt_zero (n : number) :
  num_isNaN n = false -> num_lt n (Fin 0) = false -> num_le (Fin 0) n = true.
Proof.
  destruct n as [| | |q]; cbn; try congruence.
  unfold Qltb. intros _ H. now apply negb_false_iff in H.
Qed.

Lemma invalidPrice_false (p : JSValue) :
  invalidPrice p = false -> acceptedPrice p.
Proof.
  destruct p as [| | |n| | | |]; cbn; try discriminate.
  intros H. apply orb_false_iff in H as [H1 H2].
  exists n. auto using num_not_lt_zero.
Qed.

Lemma filter_nil_Forall {A : Type} (f : A -> bool) (l : list A) :
  filter f l = [] -> Forall (fun x => f x = false) l.
Proof.
  induction l as [|x l IH]; cbn; [constructor|].
  destruct (f x) eqn:E; [discriminate|]. intros H. constructor; auto.
Qed.

Lemma parseHistoricalData_ok (data : JSValue) (h : HistoricalData) :
  parseHistoricalData data = Ok h -> exists t0, parsedSeries data h t0.
Proof.
  unfold parseHistoricalData.
  destruct (negb (ToBoolean data) || negb (isObjectType data)); [discriminate|].
  destruct (getProp data "start") as [| | | |s| | |] eqn:Es;
    cbn [ToBoolean isStringType typeof negb orb];
    try discriminate;
    try (destruct (negb _); discriminate).
  destruct (negb (negb (String.eqb s EmptyString)) || false); [discriminate|].
  destruct (getProp data "prices") as [| | | | |ps| |] eqn:Ep; try discriminate.
  destruct (arrayLength ps =? 0) eqn:E0; [discriminate|].
  apply Z.eqb_neq in E0. cbn [stringOf].
  destruct (parseDate s) as [d|] eqn:P; [|discriminate]. cbn [bind].
  destruct (parseDate_inv _ _ P) as (t0 & -> & R0 & _).
  destruct (0 <? arrayLength (filter invalidPrice ps)) eqn:F; [discriminate|].
  apply Z.ltb_ge in F.
  destruct (calculateDate s (arrayLength ps - 1)) as [e|] eqn:C; [|discriminate].
  cbn [bind]. destruct (calculateDate_ok_inv _ _ _ _ P C) as [RN ->].
  replace (Day t0 + (arrayLength ps - 1))
    with (Day (t0 + (arrayLength ps - 1) * msPerDay))
    by apply Day_add_days.
  rewrite parseDate_isoDateOfDay by exact RN. cbn [bind].
  intros [= <-]. exists t0.
  assert (L : 0 <= arrayLength ps) by (unfold arrayLength; lia).
  constructor; cbn [start prices startDate endDate totalDays]; auto.
  - lia.
  - rewrite Day_add_days. do 2 f_equal. lia.
  - assert (N : filter invalidPrice ps = []).
    { destruct (filter invalidPrice ps); [reflexivity|].
      unfold arrayLength in F. cbn [List.length] in F. lia. }
    apply filter_nil_Forall in N.
    eapply Forall_impl; [|exact N]. apply invalidPrice_false.
Qed.

(* ================================================================== *)
(** ** Lookups in a parsed series *)

Lemma arrayGet_nth (a : list JSValue) (i : Z) :
  0 <= i -> arrayGet a i = nth (Z.to_nat i) a JUndefined.
Proof.
  intros H. unfold arrayGet.
  destruct (i <? 0) eqn:E; [apply Z.ltb_lt in E; lia | reflexivity].
Qed.

Lemma getPriceForDate_target (h : HistoricalData) (v : JSValue) (t0 t : Z) :
  startDate h = ValidDate t0 -> targetFor v t ->
  getPriceForDate h v
  = if ((t - t0) / msPerDay <? 0)
       || (arrayLength (prices h) <=? (t - t0) / msPerDay)
    then Ok None
    else Ok (Some (mkPriceInfo (isoDateOfDay (Day t))
                               (arrayGet (prices h) ((t - t0) / msPerDay)))).
Proof.
  intros S [->|(s & -> & P)]; unfold getPriceForDate; rewrite ?P, S;
    cbn [bind floorDaysBetween];
    destruct (((t - t0) / msPerDay <? 0)
              || (arrayLength (prices h) <=? (t - t0) / msPerDay));
    reflexivity.
Qed.

Lemma aligned_days_between (t0 t : Z) :
  TimeWithinDay t0 = 0 -> (t - t0) / msPerDay = Day t - Day t0.
Proof. unfold TimeWithinDay, Day, msPerDay. intros H. zdiv. Qed.

Lemma inTimeRange_between (a b c : Z) :
  inTimeRange a -> inTimeRange c -> a <= b <= c -> inTimeRange b.
Proof. unfold inTimeRange. lia. Qed.

Lemma parsedSeries_calculateDate (data : JSValue) (h : HistoricalData)
    (t0 i : Z) :
  parsedSeries data h t0 -> 0 <= i < arrayLength (prices h) ->
  calculateDate (start h) i = Ok (isoDateOfDay (Day t0 + i)).
Proof.
  intros W Hi. apply calculateDate_ok; [apply (ps_parse _ _ _ W)|].
  apply (inTimeRange_between t0 _ _ (ps_range0 _ _ _ W) (ps_rangeN _ _ _ W)).
  unfold msPerDay. lia.
Qed.

Lemma indexRange_In (n : nat) :
  forall a i, In i (indexRange a n) <-> a <= i < a + Z.of_nat n.
Proof.
  induction n as [|n IH]; intros a i.
  - cbn. lia.
  - cbn [indexRange In]. rewrite IH. lia.
Qed.

Lemma priceRangeLoop_ok (data : JSValue) (h : HistoricalData) (t0 : Z) :
  parsedSeries data h t0 ->
  forall n i acc,
    (forall k, i <= k < i + Z.of_nat n -> 0 <= k < arrayLength (prices h)) ->
    priceRangeLoop h n i acc
    = Ok (acc ++ map (entryAt h t0) (indexRange i n)).
Proof.
  intros W. induction n as [|n IH]; intros i acc H.
  - cbn. now rewrite app_nil_r.
  - cbn [priceRangeLoop indexRange map].
    assert (Hi : 0 <= i < arrayLength (prices h)) by (apply H; lia).
    rewrite (parsedSeries_calculateDate data h t0 i W) by exact Hi.
    cbn [bind]. rewrite IH by (intros k Hk; apply H; lia).
    rewrite <- app_assoc, arrayGet_nth by lia. reflexivity.
Qed.


(* ================================================================== *)
(** ** The parser: what it accepts, and the round trip *)

Lemma invalidPrices_forallb (ps : list JSValue) :
  (0 <? arrayLength (filter invalidPrice ps)) = negb (forallb spec_priceOk ps).
Proof.
  induction ps as [|p ps IH]; [reflexivity|].
  cbn [filter forallb].
  assert (E : invalidPrice p = negb (spec_priceOk p)).
  { destruct p as [| | |n| | | |]; cbn; try reflexivity.
    now rewrite negb_andb, !negb_involutive. }
  rewrite E. destruct (spec_priceOk p); cbn [negb andb].
  - exact IH.
  - unfold arrayLength. cbn [List.length]. apply Z.ltb_lt. lia.
Qed.

Lemma parseDate_ok_valid (s : string) (d : Date) :
  parseDate s = Ok d -> exists t, d = ValidDate t /\ inTimeRange t.
Proof. intros P. destruct (parseDate_inv _ _ P) as (t & -> & R & _). eauto. Qed.

(** C6 (as the code has it).  [parseHistoricalData] returns a series
    exactly on the inputs the specification accepts whose last day is
    moreover a representable date; and every price of a returned series is a
    number that is not [NaN] and not below zero (it may be [Infinity]). *)
Theorem parseHistoricalData_accepts (data : JSValue) :
  isOk (parseHistoricalData data)
    = spec_validRaw data && endDateRepresentable data
  /\ forall h, parseHistoricalData data = Ok h ->
       Forall acceptedPrice (prices h).
Proof.
  split.
  - unfold parseHistoricalData, spec_validRaw, endDateRepresentable.
    destruct (ToBoolean data); cbn [negb orb andb]; [|reflexivity].
    destruct (isObjectType data); cbn [negb orb andb]; [|reflexivity].
    destruct (getProp data "start") as [| | | |s| | |];
      cbn [ToBoolean isStringType typeof negb orb andb];
      try reflexivity; try (destruct (negb _); reflexivity).
    destruct (String.eqb s EmptyString); cbn [negb orb andb]; [reflexivity|].
    destruct (getProp data "prices") as [| | | | |ps| |];
      try (now rewrite andb_false_r).
    cbn [stringOf].
    destruct (arrayLength ps =? 0); cbn [negb andb];
      [now rewrite andb_false_r|].
    destruct (parseDate s) as [d|e] eqn:P; cbn [bind isOk andb]; [|reflexivity].
    destruct (parseDate_ok_valid _ _ P) as (t0 & -> & R0).
    rewrite invalidPrices_forallb.
    destruct (forallb spec_priceOk ps); cbn [negb andb]; [|reflexivity].
    rewrite (calculateDate_eq s t0 _ P). unfold TimeClip.
    destruct (Z.abs (t0 + (arrayLength ps - 1) * msPerDay) <=? maxTime) eqn:E;
      cbn [formatDate isoDatePart bind]; [|reflexivity].
    rewrite parseDate_isoDateOfDay; [reflexivity|].
    apply Z.leb_le in E. unfold inTimeRange. lia.
  - intros h P. destruct (parseHistoricalData_ok _ _ P) as [t0 W].
    apply (ps_accepted _ _ _ W).
Qed.

Lemma padDigits_shift (k : nat) :
  forall n a, padDigits k (n + a * 10 ^ Z.of_nat k) = padDigits k n.
Proof.
  induction k as [|k IH]; intros n a; [reflexivity|].
  cbn [padDigits].
  assert (Hp : 0 < 10 ^ Z.of_nat k) by (apply Z.pow_pos_nonneg; lia).
  replace (a * 10 ^ Z.of_nat (S k)) with ((a * 10) * 10 ^ Z.of_nat k)
    by (rewrite Nat2Z.inj_succ, Z.pow_succ_r by lia; ring).
  rewrite IH. f_equal.
  rewrite Z.div_add by lia. rewrite Z.mod_add by lia. reflexivity.
Qed.

Lemma parseDigits_inv (k : nat) :
  forall acc s v r, parseDigits k acc s = Some (v, r) ->
  exists n, 0 <= n < 10 ^ Z.of_nat k
            /\ v = acc * 10 ^ Z.of_nat k + n
            /\ s = (padDigits k n ++ r)%string.
Proof.
  induction k as [|k IH]; intros acc s v r H.
  - cbn in H. injection H as <- <-. exists 0. cbn. repeat split; lia.
  - cbn [parseDigits] in H. destruct s as [|c s']; [discriminate|].
    destruct (digitVal c) as [d0|] eqn:D; [|discriminate].
    destruct (digitChar_digitVal _ _ D) as [Hc Hd0].
    destruct (IH _ _ _ _ H) as (n' & Hn' & -> & ->).
    assert (Hp : 0 < 10 ^ Z.of_nat k) by (apply Z.pow_pos_nonneg; lia).
    exists (n' + d0 * 10 ^ Z.of_nat k).
    rewrite Nat2Z.inj_succ, Z.pow_succ_r by lia.
    split; [nia|]. split; [ring|].
    cbn [padDigits append]. rewrite padDigits_shift. f_equal.
    rewrite Z.div_add by lia. rewrite (Z.div_small n') by lia.
    rewrite Z.add_0_l, Z.mod_small by lia. symmetry. exact Hc.
Qed.

Lemma DayFromYear_4digit (y : Z) :
  0 <= y <= 9999 -> -719528 <= DayFromYear y /\ DayFromYear (y + 1) <= 2932897.
Proof. unfold DayFromYear. intros H. zdiv. Qed.

(** A calendar date string is what [toISOString] writes for its own day,
    and [parseDate] reads it as the UTC midnight of that day. *)
Lemma isCalendarDateString_day (s : string) :
  isCalendarDateString s = true ->
  exists z, -100000000 <= z <= 100000000 /\ s = isoDateOfDay z.
Proof.
  unfold isCalendarDateString.
  destruct (parseDigits 4 0 s) as [[y r0]|] eqn:PY; [|discriminate].
  destruct r0 as [|c0 r1]; [discriminate|].
  destruct (Ascii.eqb c0 "-"%char) eqn:C0;
    [apply Ascii.eqb_eq in C0; subst c0
    |destruct c0 as [[] [] [] [] [] [] [] []]; try discriminate C0; discriminate].
  destruct (parseDigits 2 0 r1) as [[m r2]|] eqn:PM; [|discriminate].
  destruct r2 as [|c1 r3]; [discriminate|].
  destruct (Ascii.eqb c1 "-"%char) eqn:C1;
    [apply Ascii.eqb_eq in C1; subst c1
    |destruct c1 as [[] [] [] [] [] [] [] []]; try discriminate C1; discriminate].
  destruct (parseDigits 2 0 r3) as [[d r4]|] eqn:PD; [|discriminate].
  destruct r4; [|discriminate].
  intros H. apply andb_true_iff in H as [H Hd2].
  apply andb_true_iff in H as [H Hd1]. apply andb_true_iff in H as [Hm1 Hm2].
  apply Z.leb_le in Hm1, Hm2, Hd1, Hd2.
  destruct (parseDigits_inv _ _ _ _ _ PY) as (ny & Hy & -> & ->).
  destruct (parseDigits_inv _ _ _ _ _ PM) as (nm & Hnm & -> & ->).
  destruct (parseDigits_inv _ _ _ _ _ PD) as (nd & Hnd & -> & ->).
  cbn [Z.mul Z.add] in *. change (10 ^ Z.of_nat 4) with 10000 in Hy.
  pose proof (DaysBeforeMonth_bound (InLeapYear ny) (nm - 1) ltac:(lia)) as [B0 B1].
  pose proof (DayFromYear_4digit ny ltac:(lia)) as [Y0 Y1].
  rewrite DayFromYear_succ in Y1.
  exists (MakeDay ny (nm - 1) nd). split.
  - unfold MakeDay.
    rewrite (Z.div_small (nm - 1) 12), (Z.mod_small (nm - 1) 12) by lia.
    rewrite Z.add_0_r. destruct (InLeapYear ny); lia.
  - unfold isoDateOfDay. rewrite civil_of_day_MakeDay by lia.
    unfold isoYear.
    replace ((0 <=? ny) && (ny <=? 9999)) with true
      by (symmetry; apply andb_true_iff; split; apply Z.leb_le; lia).
    replace (nm - 1 + 1) with nm by lia.
    reflexivity.
Qed.

Lemma parseDate_calendarDateString (s : string) :
  isCalendarDateString s = true ->
  exists z, s = isoDateOfDay z
            /\ parseDate s = Ok (ValidDate (MakeDate z 0)).
Proof.
  intros H. destruct (isCalendarDateString_day s H) as (z & Hz & ->).
  exists z. split; [reflexivity|].
  assert (R : inTimeRange (MakeDate z 0))
    by (unfold inTimeRange, MakeDate, maxTime, msPerDay; lia).
  pose proof (parseDate_isoDateOfDay (MakeDate z 0) R) as P.
  now rewrite Day_MakeDate0 in P.
Qed.

(** C9.  For a raw input [{start, prices}] that the parser accepts, the
    series keeps the [start] string and the price list of the input as they
    are; and when [start] is a calendar date string, the stored format
    re-derived from the series, with the start date written back by
    [formatDate], is the input exactly. *)
Theorem parse_roundtrip (s : string) (ps : list JSValue) (h : HistoricalData) :
  parseHistoricalData
    (JObject [("start"%string, JString s); ("prices"%string, JArray ps)]) = Ok h ->
  start h = s /\ prices h = ps
  /\ (isCalendarDateString s = true ->
      rawOfSeries h
      = Ok (JObject [("start"%string, JString s);
                     ("prices"%string, JArray ps)])).
Proof.
  intros P. destruct (parseHistoricalData_ok _ _ P) as [t0 W].
  pose proof (ps_start _ _ _ W) as Hs. pose proof (ps_prices _ _ _ W) as Hp.
  cbn in Hs, Hp. injection Hs as Hs. injection Hp as Hp.
  split; [auto|]. split; [auto|]. intros C.
  destruct (parseDate_calendarDateString s C) as (z & Ez & Pz).
  pose proof (ps_parse _ _ _ W) as P0. rewrite <- Hs, Pz in P0.
  injection P0 as <-.
  unfold rawOfSeries. rewrite (ps_startDate _ _ _ W).
  cbn [formatDate isoDatePart bind]. rewrite Day_MakeDate0, <- Ez, <- Hp.
  reflexivity.
Qed.

(* ================================================================== *)
(** ** The one-day window *)

(** [setDate(getDate() - n)] moves a date back by [n] days. *)
Lemma setDate_sub_days (t n : Z) :
  Date_setDate (ValidDate t) (optZ_sub (Date_getDate (ValidDate t)) n)
  = TimeClip (t - n * msPerDay).
Proof.
  cbn [Date_setDate Date_getDate optZ_sub].
  replace (DateFromTime (LocalTime t) - n)
    with (DateFromTime (LocalTime t) + - n) by lia.
  rewrite MakeDay_add_date, MakeDay_of_time. f_equal.
  pose proof (MakeDate_Day (LocalTime t)) as E.
  unfold UTC, MakeDate, LocalTime in *. lia.
Qed.

Lemma getStartOfYesterday_eq (now : Z) :
  inTimeRange (now - msPerDay) ->
  getStartOfYesterday (ValidDate now)
  = TimeClip (localMidnight (localDay now - 1)).
Proof.
  intros R. unfold getStartOfYesterday.
  rewrite setDate_sub_days. replace (now - 1 * msPerDay) with (now - msPerDay) by lia.
  rewrite TimeClip_valid by exact R. cbn [Date_setHours0].
  unfold localMidnight, localDay, LocalTime. do 3 f_equal.
  replace (now - msPerDay + LocalTZA) with (now + LocalTZA + (-1) * msPerDay) by lia.
  rewrite Day_add_days. lia.
Qed.

Lemma localMidnight_range (now : Z) :
  - maxTime + 2 * msPerDay <= now <= maxTime ->
  inTimeRange (now - msPerDay)
  /\ inTimeRange (localMidnight (localDay now - 1)).
Proof.
  unfold inTimeRange, localMidnight, localDay, UTC, LocalTime, MakeDate, Day,
    maxTime, msPerDay.
  intros H. split; [lia | zdiv].
Qed.

(** What the code computes for the one-day window, on a host with a fixed
    offset.  For a reference instant at least two days above the lower end
    of the range of [Date], the one-day window starts at
    00:00 local time of the local calendar day before the local day of the
    reference instant; two instants of one local day give the same start;
    and on a host whose local time is UTC this is 00:00 UTC of the UTC day
    before the day of the reference instant. *)
Theorem oneDay_start_is_local_midnight (now : Z) :
  - maxTime + 2 * msPerDay <= now <= maxTime ->
  getCalendarStartDate "1d" (ValidDate now)
    = Ok (ValidDate (localMidnight (localDay now - 1)))
  /\ (forall now', - maxTime + 2 * msPerDay <= now' <= maxTime ->
        localDay now' = localDay now ->
        getCalendarStartDate "1d" (ValidDate now')
        = getCalendarStartDate "1d" (ValidDate now))
  /\ (LocalTZA = 0 ->
        getCalendarStartDate "1d" (ValidDate now)
        = Ok (ValidDate (spec_startOfYesterdayUTC now))).
Proof.
  intros H.
  assert (E : forall x, - maxTime + 2 * msPerDay <= x <= maxTime ->
    getCalendarStartDate "1d" (ValidDate x)
    = Ok (ValidDate (localMidnight (localDay x - 1)))).
  { intros x Hx. destruct (localMidnight_range x Hx) as [R1 R2].
    unfold getCalendarStartDate. cbn [String.eqb Ascii.eqb Bool.eqb].
    rewrite getStartOfYesterday_eq by exact R1.
    now rewrite TimeClip_valid by exact R2. }
  split; [apply E; exact H|]. split.
  - intros now' H' D. rewrite (E now' H'), (E now H), D. reflexivity.
  - intros Z0. rewrite (E now H).
    unfold localMidnight, localDay, spec_startOfYesterdayUTC, UTC, LocalTime.
    rewrite Z0, Z.add_0_r, Z.sub_0_r. reflexivity.
Qed.

(* ================================================================== *)
(** ** The metrics *)

Lemma Qltb_true (a b : Q) : Qltb a b = true <-> (a < b)%Q.
Proof.
  unfold Qltb. rewrite negb_true_iff. split.
  - intros H. destruct (Qlt_le_dec a b) as [L|L]; [exact L|].
    apply Qle_bool_iff in L. congruence.
  - intros H. destruct (Qle_bool b a) eqn:E; [|reflexivity].
    apply Qle_bool_iff in E. exfalso. exact (Qlt_not_le _ _ H E).
Qed.

Lemma num_lt_le (x y : number) : num_lt x y = true -> num_le x y = true.
Proof.
  destruct x as [| | |a], y as [| | |b]; cbn; try congruence.
  intros H. apply Qltb_true in H. apply Qle_bool_iff.
  apply Qlt_le_weak. exact H.
Qed.

Lemma num_le_not_lt (x y : number) : num_le y x = true -> num_lt x y = false.
Proof.
  destruct x as [| | |a], y as [| | |b]; cbn; try congruence.
  intros H. apply Qle_bool_iff in H.
  destruct (Qltb a b) eqn:E; [|reflexivity].
  apply Qltb_true in E. exfalso. exact (Qlt_not_le _ _ E H).
Qed.

Lemma Qdiv_pos (a b : Q) : (0 < a)%Q -> (0 < b)%Q -> (0 < a / b)%Q.
Proof.
  intros Ha Hb. apply Qlt_shift_div_l; [exact Hb|].
  now rewrite Qmult_0_l.
Qed.

(** The years between two valid dates in order are a positive number. *)
Lemma years_positive (ts tn : Z) :
  ts < tn ->
  exists q, num_div (num_div (Date_minus (ValidDate tn) (ValidDate ts))
                             (num_of_Z msPerDay)) daysPerYear = Fin q
            /\ (0 < q)%Q.
Proof.
  intros H. cbn [Date_minus num_of_Z num_div daysPerYear].
  change (Qeq_bool (inject_Z msPerDay) 0) with false. cbv iota.
  set (q1 := Qred (inject_Z (tn - ts) / inject_Z msPerDay)).
  change (Qeq_bool (1461 # 4) 0) with false. cbv iota.
  exists (Qred (q1 / (1461 # 4))). split; [reflexivity|].
  rewrite Qred_correct. subst q1. rewrite Qred_correct.
  apply Qdiv_pos; [apply Qdiv_pos|]; try reflexivity.
  change 0%Q with (inject_Z 0). rewrite <- Zlt_Qlt. lia.
Qed.

Lemma calculateYearsBetweenDates_eq (s n : Date) :
  calculateYearsBetweenDates (JDate s) (JDate n)
  = if Date_ge s n then Throw Years_StartMustBeBeforeEnd
    else Ok (num_div (num_div (Date_minus n s) (num_of_Z msPerDay)) daysPerYear).
Proof. reflexivity. Qed.

(** The years that pass the order check are never [<= 0]. *)
Lemma years_not_le_zero (s n : Date) :
  Date_ge s n = false ->
  num_le (num_div (num_div (Date_minus n s) (num_of_Z msPerDay)) daysPerYear)
         (Fin 0) = false.
Proof.
  destruct s as [ts|], n as [tn|]; try reflexivity.
  cbn [Date_ge]. intros H. apply Z.leb_gt in H.
  destruct (years_positive ts tn H) as (q & -> & Hq). cbn [num_le].
  destruct (Qle_bool q 0) eqn:E; [|reflexivity].
  apply Qle_bool_iff in E. exfalso. exact (Qlt_not_le _ _ Hq E).
Qed.

(** The checks of [calculatePortfolioMetrics] on numbers and dates, in the
    order in which they are made. *)
Lemma calculatePortfolioMetrics_chain (clock : Date) (a c p : number)
    (s n : Date) :
  calculatePortfolioMetrics clock (JNumber a) (JNumber c) (JNumber p)
    (JDate s) (JDate n)
  = if num_lt a (Fin 0) || num_lt c (Fin 0)
    then Throw TotalValue_MustBeNonNegative
    else if num_lt p (Fin 0) then Throw AbsoluteGain_MustBeNonNegative
    else if num_le p (Fin 0) then Throw PercentageGain_MustBePositive
    else if Date_ge s n then Throw Years_StartMustBeBeforeEnd
    else if num_le c (Fin 0) then Throw CAGR_MustBePositive
    else Ok (metricsOf a c p s n).
Proof.
  unfold calculatePortfolioMetrics, calculateTotalValue,
    calculateAbsoluteGain, calculatePercentageGain.
  destruct (num_lt a (Fin 0)) eqn:Ea; [reflexivity|].
  destruct (num_lt c (Fin 0)) eqn:Ec; [reflexivity|].
  cbn [orb bind].
  destruct (num_lt p (Fin 0)) eqn:Ep; [reflexivity|].
  destruct (num_le p (Fin 0)) eqn:Ep'; [reflexivity|].
  cbn [bind]. rewrite calculateYearsBetweenDates_eq.
  destruct (Date_ge s n) eqn:Ed; [reflexivity|]. cbn [bind].
  unfold calculateDisplayCAGR, calculateCAGR. cbn [ToNumber].
  rewrite Ep', (years_not_le_zero s n Ed).
  destruct (num_le c (Fin 0)) eqn:Ec'; [reflexivity|]. cbn [orb bind].
  unfold metricsOf, yearsBetween, cagrOf.
  destruct (num_lt _ minYearsForCAGR); reflexivity.
Qed.

(** C3 (as the code has it).  On numbers and dates,
    [calculatePortfolioMetrics] throws exactly when the amount is below
    zero, or the current price is zero or below, or the start price is zero
    or below, or the start date is not before the current date; the error is
    that of the first check that fails, the amount and a negative current
    price sharing one; otherwise it returns the metrics. *)
Theorem calculatePortfolioMetrics_failures (clock : Date) (a c p : number)
    (s n : Date) :
  let r := calculatePortfolioMetrics clock (JNumber a) (JNumber c) (JNumber p)
             (JDate s) (JDate n) in
  (throws r <->
     num_lt a (Fin 0) = true \/ num_le c (Fin 0) = true
     \/ num_le p (Fin 0) = true \/ Date_ge s n = true)
  /\ (num_lt a (Fin 0) = true \/ num_lt c (Fin 0) = true ->
      r = Throw TotalValue_MustBeNonNegative)
  /\ (num_lt a (Fin 0) = false -> num_lt c (Fin 0) = false ->
      (num_lt p (Fin 0) = true -> r = Throw AbsoluteGain_MustBeNonNegative)
      /\ (num_lt p (Fin 0) = false -> num_le p (Fin 0) = true ->
          r = Throw PercentageGain_MustBePositive)
      /\ (num_le p (Fin 0) = false -> Date_ge s n = true ->
          r = Throw Years_StartMustBeBeforeEnd)
      /\ (num_le p (Fin 0) = false -> Date_ge s n = false ->
          num_le c (Fin 0) = true -> r = Throw CAGR_MustBePositive)
      /\ (num_le p (Fin 0) = false -> Date_ge s n = false ->
          num_le c (Fin 0) = false -> r = Ok (metricsOf a c p s n))).
Proof.
  cbv zeta. rewrite calculatePortfolioMetrics_chain.
  pose proof (num_lt_le a (Fin 0)) as La.
  pose proof (num_lt_le c (Fin 0)) as Lc.
  pose proof (num_lt_le p (Fin 0)) as Lp.
  unfold throws.
  destruct (num_lt a (Fin 0)) eqn:Ea, (num_lt c (Fin 0)) eqn:Ec,
    (num_lt p (Fin 0)) eqn:Ep, (num_le p (Fin 0)) eqn:Ep',
    (Date_ge s n) eqn:Ed, (num_le c (Fin 0)) eqn:Ec';
    cbn [orb];
    try (specialize (La eq_refl)); try (specialize (Lc eq_refl));
    try (specialize (Lp eq_refl)); try discriminate;
    (split; [split; [intros [e He]; try discriminate He; auto
                    | intros Hd; first [now eexists
                                       | exfalso; decompose [or] Hd;
                                         discriminate]]
            | repeat split; intros; try reflexivity; try discriminate;
              try (match goal with H : _ \/ _ |- _ => destruct H end;
                   discriminate) ]).
Qed.

Lemma bind_ok_inv {A B : Type} (r : result A) (k : A -> result B) (b : B) :
  bind r k = Ok b -> exists a, r = Ok a /\ k a = Ok b.
Proof. destruct r as [a|e]; cbn; [eauto | discriminate]. Qed.

Lemma calculateTotalValue_ok_inv (btcAmount currentPrice : JSValue) (v : number) :
  calculateTotalValue btcAmount currentPrice = Ok v ->
  exists a c, btcAmount = JNumber a /\ currentPrice = JNumber c.
Proof.
  destruct btcAmount as [| | |a| | | |]; try discriminate.
  destruct currentPrice as [| | |c| | | |]; try discriminate. eauto.
Qed.

Lemma calculateAbsoluteGain_ok_inv (a c : number) (purchasePrice : JSValue)
    (v : number) :
  calculateAbsoluteGain (JNumber a) (JNumber c) purchasePrice = Ok v ->
  exists p, purchasePrice = JNumber p.
Proof. destruct purchasePrice as [| | |p| | | |]; try discriminate. eauto. Qed.

Lemma calculateYearsBetweenDates_ok_inv (startDate endDate : JSValue)
    (v : number) :
  calculateYearsBetweenDates startDate endDate = Ok v ->
  exists s n, startDate = JDate s /\ endDate = JDate n.
Proof.
  destruct startDate as [| | | | | | |s]; try discriminate.
  destruct endDate as [| | | | | | |n]; try discriminate. eauto.
Qed.

Lemma calculatePortfolioMetrics_default (clock : Date)
    (btcAmount currentPrice purchasePrice purchaseDate : JSValue) :
  calculatePortfolioMetrics clock btcAmount currentPrice purchasePrice
    purchaseDate JUndefined
  = calculatePortfolioMetrics clock btcAmount currentPrice purchasePrice
      purchaseDate (JDate clock).
Proof. reflexivity. Qed.

(** Metrics are only ever returned for numbers and dates, and they are
    then [metricsOf]. *)
Lemma calculatePortfolioMetrics_ok_inv (clock : Date)
    (btcAmount currentPrice purchasePrice purchaseDate currentDate : JSValue)
    (m : Metrics) :
  calculatePortfolioMetrics clock btcAmount currentPrice purchasePrice
    purchaseDate currentDate = Ok m ->
  exists a c p s n,
    btcAmount = JNumber a /\ currentPrice = JNumber c
    /\ purchasePrice = JNumber p /\ purchaseDate = JDate s
    /\ (currentDate = JDate n \/ currentDate = JUndefined /\ n = clock)
    /\ m = metricsOf a c p s n.
Proof.
  intros H. pose proof H as H0. unfold calculatePortfolioMetrics in H.
  apply bind_ok_inv in H as (tv & H1 & H).
  apply bind_ok_inv in H as (ag & H2 & H).
  apply bind_ok_inv in H as (pg & _ & H).
  apply bind_ok_inv in H as (ys & H4 & _).
  destruct (calculateTotalValue_ok_inv _ _ _ H1) as (a & c & -> & ->).
  destruct (calculateAbsoluteGain_ok_inv _ _ _ _ H2) as (p & ->).
  destruct (calculateYearsBetweenDates_ok_inv _ _ _ H4) as (s & n & -> & Hn).
  assert (Hc : currentDate = JDate n \/ currentDate = JUndefined /\ n = clock).
  { destruct currentDate; try discriminate Hn.
    - right. split; [reflexivity|]. now injection Hn.
    - left. exact Hn. }
  exists a, c, p, s, n. repeat split; try reflexivity; [exact Hc|].
  assert (Hm : calculatePortfolioMetrics clock (JNumber a) (JNumber c)
                 (JNumber p) (JDate s) (JDate n) = Ok m).
  { destruct Hc as [->|[-> ->]]; [exact H0|].
    rewrite <- calculatePortfolioMetrics_default. exact H0. }
  rewrite calculatePortfolioMetrics_chain in Hm.
  destruct (num_lt a (Fin 0) || num_lt c (Fin 0)); [discriminate|].
  destruct (num_lt p (Fin 0)); [discriminate|].
  destruct (num_le p (Fin 0)); [discriminate|].
  destruct (Date_ge s n); [discriminate|].
  destruct (num_le c (Fin 0)); [discriminate|].
  now injection Hm.
Qed.

(** C4.  Whenever [calculatePortfolioMetrics] returns, [displayCAGR] is
    [null] exactly when [years < 30 / 365.25], and otherwise, in particular
    when [years >= 30 / 365.25], it is the very number of the [cagr]
    field. *)
Theorem displayCAGR_gate (clock : Date)
    (btcAmount currentPrice purchasePrice purchaseDate currentDate : JSValue)
    (m : Metrics) :
  calculatePortfolioMetrics clock btcAmount currentPrice purchasePrice
    purchaseDate currentDate = Ok m ->
  (displayCAGR m = JNull <-> num_lt (years m) minYearsForCAGR = true)
  /\ (num_lt (years m) minYearsForCAGR = false ->
      displayCAGR m = JNumber (cagr m))
  /\ (num_ge (years m) minYearsForCAGR = true ->
      displayCAGR m = JNumber (cagr m)).
Proof.
  intros H.
  destruct (calculatePortfolioMetrics_ok_inv _ _ _ _ _ _ _ H)
    as (a & c & p & s & n & _ & _ & _ & _ & _ & ->).
  unfold metricsOf. cbn [displayCAGR years cagr].
  assert (G : num_lt (yearsBetween s n) minYearsForCAGR = false ->
              (if num_lt (yearsBetween s n) minYearsForCAGR
               then JNull else JNumber (cagrOf c p (yearsBetween s n)))
              = JNumber (cagrOf c p (yearsBetween s n))).
  { intros E. now rewrite E. }
  split; [|split].
  - destruct (num_lt (yearsBetween s n) minYearsForCAGR);
      split; intros E; try reflexivity; discriminate E.
  - exact G.
  - intros E. apply G. apply num_le_not_lt. exact E.
Qed.

(** C10.  Below the threshold [calculateDisplayCAGR] returns [null] for
    all prices, numbers or not: the gate comes before every check of the
    prices, also those [calculateCAGR] rejects. *)
Theorem calculateDisplayCAGR_short_period (currentPrice purchasePrice : JSValue)
    (y : number) :
  num_lt y minYearsForCAGR = true ->
  calculateDisplayCAGR currentPrice purchasePrice (JNumber y) = Ok JNull
  /\ forall c p, num_le c (Fin 0) = true \/ num_le p (Fin 0) = true ->
       calculateCAGR (JNumber c) (JNumber p) (JNumber y)
         = Throw CAGR_MustBePositive
       /\ calculateDisplayCAGR (JNumber c) (JNumber p) (JNumber y) = Ok JNull.
Proof.
  intros H.
  assert (G : forall u v, calculateDisplayCAGR u v (JNumber y) = Ok JNull).
  { intros u v. unfold calculateDisplayCAGR. cbn [ToNumber]. now rewrite H. }
  split; [apply G|]. intros c p Hcp. split; [|apply G].
  unfold calculateCAGR.
  destruct Hcp as [E|E]; rewrite E; [reflexivity|].
  now rewrite orb_true_r.
Qed.

(* ================================================================== *)
(** ** Scenario A *)

Lemma getCalendarStartDate_1d (now : Z) :
  - maxTime + 2 * msPerDay <= now <= maxTime ->
  getCalendarStartDate "1d" (ValidDate now)
  = Ok (ValidDate (localMidnight (localDay now - 1))).
Proof.
  intros Hx. destruct (localMidnight_range now Hx) as [R1 R2].
  unfold getCalendarStartDate. cbn [String.eqb Ascii.eqb Bool.eqb].
  rewrite getStartOfYesterday_eq by exact R1.
  now rewrite TimeClip_valid by exact R2.
Qed.

(** Scenario A where the code meets it.  On a host whose local time is UTC
    or up to twelve hours behind it, for the series of scenario A and the
    reference instant 2024-12-16T12:00Z: the one-day window starts on
    2024-12-15 with
    the price 50000, the metrics for an amount of 1 and a current price of
    45000 have an absolute gain of -5000 and a percentage gain of -1/10, and
    these are the metrics the page shows for the window. *)
Theorem scenarioA_oneDay :
  -43200000 <= LocalTZA <= 0 ->
  exists h d m,
    parseHistoricalData scenarioA_raw = Ok h
    /\ getCalendarStartDate "1d" (ValidDate scenarioA_now) = Ok d
    /\ getPriceForDate h (JDate d)
       = Ok (Some (mkPriceInfo "2024-12-15" (JNumber (Fin 50000))))
    /\ calculatePortfolioMetrics (ValidDate scenarioA_now)
         (JNumber (Fin 1)) (JNumber (Fin 45000)) (JNumber (Fin 50000))
         (JDate (Date_ofString "2024-12-15")) (JDate (ValidDate scenarioA_now))
       = Ok m
    /\ absoluteGain m = Fin (-5000)
    /\ percentageGain m = Fin (-1 # 10)
    /\ updatePortfolioMetricsForTimeWindow (Some h) (JNumber (Fin 1))
         (JNumber (Fin 45000)) (ValidDate scenarioA_now) "1d"
       = ShowMetrics m.
Proof.
  intros Htz.
  assert (Hday : localDay scenarioA_now = 20073).
  { unfold localDay, LocalTime, Day, scenarioA_now, msPerDay. zdiv. }
  assert (Hstart : getCalendarStartDate "1d" (ValidDate scenarioA_now)
                   = Ok (ValidDate (1734220800000 - LocalTZA))).
  { rewrite getCalendarStartDate_1d
      by (unfold maxTime, msPerDay, scenarioA_now; lia).
    rewrite Hday. reflexivity. }
  eexists. exists (ValidDate (1734220800000 - LocalTZA)). eexists.
  split; [vm_compute; reflexivity|].
  split; [exact Hstart|].
  match goal with
  | |- getPriceForDate ?h _ = _ /\ _ =>
      assert (Hprice : getPriceForDate h
                         (JDate (ValidDate (1734220800000 - LocalTZA)))
                       = Ok (Some (mkPriceInfo "2024-12-15"
                                               (JNumber (Fin 50000)))))
  end.
  { rewrite (getPriceForDate_target _ _ 1734134400000
               (1734220800000 - LocalTZA))
      by (reflexivity || (left; reflexivity)).
    replace ((1734220800000 - LocalTZA - 1734134400000) / msPerDay) with 1
      by (unfold msPerDay; zdiv).
    replace (Day (1734220800000 - LocalTZA)) with 20072
      by (unfold Day, msPerDay; zdiv).
    vm_compute. reflexivity. }
  split; [exact Hprice|].
  split; [vm_compute; reflexivity|].
  split; [reflexivity|]. split; [reflexivity|].
  unfold updatePortfolioMetricsForTimeWindow, metricsForTimeWindow.
  change (String.eqb "1d" "all") with false. cbv iota.
  change (TIME_WINDOWS "1d") with (Some (mkWindowConfig (Some 1) Daily)).
  cbv iota. cbn [isCalendarOrDaily type].
  rewrite Hstart. cbn [bind]. rewrite Hprice. cbn [bind].
  change (String.eqb "1d" "1d") with true. cbv iota.
  vm_compute. reflexivity.
Qed.

(* ================================================================== *)
(** ** The stale one-day window *)

Lemma staleSignal_iff (h : HistoricalData) (amt cur : JSValue) (clock : Date)
    (w : string) :
  staleSignal
    (updatePortfolioMetricsForTimeWindow (Some h) amt cur clock w) = true
  <-> staleCondition h clock w.
Proof.
  unfold updatePortfolioMetricsForTimeWindow, metricsForTimeWindow,
    staleCondition.
  destruct (String.eqb w "all") eqn:Eall.
  - apply String.eqb_eq in Eall. subst w. split.
    + intros H. exfalso.
      destruct (getPriceForDate h (JDate (Date_ofString (start h))))
        as [[e|]|]; cbn [bind] in H; try discriminate H.
      destruct (calculatePortfolioMetrics clock amt cur (price e)
                  (JDate (Date_ofString (start h))) JUndefined);
        discriminate H.
    + intros [H _]. discriminate H.
  - destruct (String.eqb w "1d") eqn:E1.
    + apply String.eqb_eq in E1. subst w.
      change (TIME_WINDOWS "1d") with (Some (mkWindowConfig (Some 1) Daily)).
      cbv iota. cbn [isCalendarOrDaily type].
      destruct (getCalendarStartDate "1d" clock) as [d|] eqn:Ed;
        cbn [bind staleSignal];
        [|split; [discriminate | intros (_ & ? & ? & ? & ? & D & _); discriminate D]].
      destruct (getPriceForDate h (JDate d)) as [[sp|]|] eqn:Ep;
        cbn [bind staleSignal];
        try (split; [discriminate
                    | intros (_ & ? & ? & ? & ? & D & P & _);
                      injection D as <-; rewrite Ep in P; discriminate P]).
      destruct (getLatestPrice h) as [latest|] eqn:El; cbn [bind staleSignal];
        [|split; [discriminate
                 | intros (_ & ? & ? & ? & ? & _ & _ & L & _); discriminate L]].
      destruct (String.eqb (date sp) (date latest)) eqn:Eq.
      * destruct (calculateYearsBetweenDates
                    (JDate (Date_ofString (date sp))) (JDate clock))
          as [th|] eqn:Ey; cbn [bind staleSignal].
        -- split; [intros _|reflexivity]. split; [reflexivity|].
           apply String.eqb_eq in Eq. exists d, sp, latest, th. auto.
        -- split; [discriminate|].
           intros (_ & d' & sp' & l' & th' & D & P & L & _ & Y).
           injection D as <-. rewrite Ep in P. injection P as <-.
           rewrite Ey in Y. discriminate Y.
      * cbn [bind]. split.
        -- intros H. exfalso.
           destruct (calculatePortfolioMetrics clock amt cur (price sp)
                       (JDate (Date_ofString (date sp))) JUndefined);
             discriminate H.
        -- intros (_ & d' & sp' & l' & th' & D & P & L & Q & _).
           injection D as <-. rewrite Ep in P. injection P as <-.
           injection L as <-. apply String.eqb_neq in Eq. contradiction.
    + split.
      * intros H. exfalso.
        destruct (TIME_WINDOWS w) as [cfg|]; [|discriminate H].
        destruct (if isCalendarOrDaily cfg
                  then getCalendarStartDate w clock
                  else Ok (Date_setDate clock
                             match days cfg with
                             | Some n => optZ_sub (Date_getDate clock) n
                             | None => None
                             end)) as [d|]; cbn [bind] in H;
          [|discriminate H].
        destruct (getPriceForDate h (JDate d)) as [[sp|]|]; cbn [bind] in H;
          try discriminate H.
        destruct (calculatePortfolioMetrics clock amt cur (price sp)
                    (JDate (Date_ofString (date sp))) JUndefined);
          discriminate H.
      * intros [H _]. subst w. discriminate E1.
Qed.

(** C7 (as the code has it).  The metrics object carries no staleness
    flag.  The display glue shows "N/A*" instead of metrics exactly when the
    window is the one-day window, the start price is found, its date is the
    latest date of the series and the time held can be computed; this does
    not depend on the current price; and when it happens the boxes show the
    time held, the initial value and the start price. *)
Theorem stale_window_is_date_equality (h : HistoricalData)
    (amt cur : JSValue) (clock : Date) (w : string) :
  (staleSignal
     (updatePortfolioMetricsForTimeWindow (Some h) amt cur clock w) = true
   <-> staleCondition h clock w)
  /\ (forall cur',
        staleSignal
          (updatePortfolioMetricsForTimeWindow (Some h) amt cur' clock w)
        = staleSignal
            (updatePortfolioMetricsForTimeWindow (Some h) amt cur clock w))
  /\ (forall m,
        updatePortfolioMetricsForTimeWindow (Some h) amt cur clock w
          = ShowMetrics m ->
        ~ staleCondition h clock w).
Proof.
  split; [apply staleSignal_iff|]. split.
  - intros cur'.
    pose proof (staleSignal_iff h amt cur clock w) as H1.
    pose proof (staleSignal_iff h amt cur' clock w) as H2.
    destruct (staleSignal
                (updatePortfolioMetricsForTimeWindow (Some h) amt cur clock w)),
      (staleSignal
         (updatePortfolioMetricsForTimeWindow (Some h) amt cur' clock w));
      try reflexivity.
    + apply H2, H1. reflexivity.
    + symmetry. apply H1, H2. reflexivity.
  - intros m Hm C. apply (staleSignal_iff h amt cur clock w) in C.
    rewrite Hm in C. discriminate C.
Qed.

(* ================================================================== *)
(** ** The date helpers: round trips and day arithmetic *)

Lemma MakeDate_Day0 (t : Z) : MakeDate (Day t) 0 = t - TimeWithinDay t.
Proof. unfold MakeDate, Day, TimeWithinDay, msPerDay. zdiv. Qed.

Lemma bind_ok_inv_date (s : string) (n : Z) (r : string) :
  calculateDate s n = Ok r -> exists t0, parseDate s = Ok (ValidDate t0).
Proof.
  unfold calculateDate. intros H.
  destruct (bind_ok_inv _ _ _ H) as (d & Pd & _).
  destruct (parseDate_inv _ _ Pd) as (t & -> & _). now exists t.
Qed.

(** X1.  Formatting a date and parsing the string back gives 00:00 UTC of
    the same day: the date itself when it is a UTC midnight, and formatting
    that again gives the same string. *)
Theorem formatDate_parseDate (t : Z) :
  inTimeRange t ->
  exists s,
    formatDate (ValidDate t) = Ok s
    /\ parseDate s = Ok (ValidDate (t - TimeWithinDay t))
    /\ (TimeWithinDay t = 0 -> parseDate s = Ok (ValidDate t))
    /\ (forall d, parseDate s = Ok d -> formatDate d = Ok s).
Proof.
  intros R. exists (isoDateOfDay (Day t)).
  pose proof (parseDate_isoDateOfDay t R) as P.
  rewrite MakeDate_Day0 in P.
  split; [reflexivity|]. split; [exact P|]. split.
  - intros A. rewrite P, A. do 2 f_equal. lia.
  - intros d Pd. rewrite P in Pd. injection Pd as <-.
    rewrite <- MakeDate_Day0. unfold formatDate, isoDatePart.
    now rewrite Day_MakeDate0.
Qed.

(** X2.  Whatever [parseDate] accepts it turns into a date that
    [formatDate] writes without error; a [YYYY-MM-DD] calendar date is
    read as a UTC midnight and written back unchanged. *)
Theorem parseDate_formatDate (s : string) (d : Date) :
  parseDate s = Ok d ->
  exists t s',
    d = ValidDate t /\ inTimeRange t /\ formatDate d = Ok s'
    /\ (isCalendarDateString s = true -> s' = s /\ TimeWithinDay t = 0).
Proof.
  intros P. destruct (parseDate_inv _ _ P) as (t & -> & R & _).
  exists t, (isoDateOfDay (Day t)).
  split; [reflexivity|]. split; [exact R|]. split; [reflexivity|].
  intros C. destruct (parseDate_calendarDateString s C) as (z & -> & Pz).
  rewrite Pz in P. injection P as <-.
  rewrite Day_MakeDate0. split; [reflexivity|].
  unfold TimeWithinDay, MakeDate, msPerDay. zdiv.
Qed.

(** X3.  Day offsets add up: if [calculateDate] gives [s1] for [a] days and
    [s2] for [a + b] days from the same start, then [b] days from [s1] is
    [s2], [-b] days from [s2] is [s1], and 0 days from [s1] is [s1]. *)
Theorem calculateDate_add (s s1 s2 : string) (a b : Z) :
  calculateDate s a = Ok s1 -> calculateDate s (a + b) = Ok s2 ->
  calculateDate s1 b = Ok s2
  /\ calculateDate s2 (- b) = Ok s1
  /\ calculateDate s1 0 = Ok s1.
Proof.
  intros C1 C2. destruct (bind_ok_inv_date _ _ _ C1) as (t0 & P).
  destruct (calculateDate_ok_inv _ _ _ _ P C1) as (R1 & ->).
  destruct (calculateDate_ok_inv _ _ _ _ P C2) as (R2 & ->).
  assert (K : forall x y, inTimeRange (t0 + x * msPerDay) ->
              inTimeRange (t0 + y * msPerDay) ->
              calculateDate (isoDateOfDay (Day t0 + x)) (y - x)
              = Ok (isoDateOfDay (Day t0 + y))).
  { intros x y Rx Ry.
    pose proof (parseDate_isoDateOfDay _ Rx) as Px.
    rewrite Day_add_days in Px.
    rewrite (calculateDate_ok _ _ (y - x) Px).
    - rewrite Day_MakeDate0. f_equal. f_equal. lia.
    - pose proof (inTimeRange_midnight _ Ry) as M.
      rewrite Day_add_days in M.
      replace (MakeDate (Day t0 + x) 0 + (y - x) * msPerDay)
        with (MakeDate (Day t0 + y) 0) by (unfold MakeDate; lia).
      exact M. }
  split; [|split].
  - pose proof (K a (a + b) R1 R2) as E.
    now replace (a + b - a) with b in E by lia.
  - pose proof (K (a + b) a R2 R1) as E.
    now replace (a - (a + b)) with (- b) in E by lia.
  - pose proof (K a a R1 R1) as E.
    now replace (a - a) with 0 in E by lia.
Qed.

(* ================================================================== *)
(** ** The latest price and ranges, against the point lookup *)

Lemma nth_last {A : Type} (l : list A) (d : A) :
  nth (List.length l - 1) l d = last l d.
Proof.
  induction l as [|x [|y l'] IH]; [reflexivity|reflexivity|].
  cbn [List.length last] in *.
  replace (S (S (List.length l')) - 1)%nat with (S (List.length l')) by lia.
  replace (S (List.length l') - 1)%nat with (List.length l') in IH by lia.
  exact IH.
Qed.

Lemma Date_ofString_isoDateOfDay (z : Z) :
  -100000000 <= z <= 100000000 ->
  Date_ofString (isoDateOfDay z) = ValidDate (MakeDate z 0).
Proof.
  intros Hz. unfold Date_ofString, Date_parse.
  pose proof (parseDateOnly_isoDateOfDay z EmptyString Hz) as P.
  replace (isoDateOfDay z ++ "")%string with (isoDateOfDay z) in P.
  - rewrite P. cbn [String.eqb orb]. apply TimeClip_valid.
    unfold inTimeRange, MakeDate, maxTime, msPerDay. lia.
  - generalize (isoDateOfDay z). intros s.
    induction s as [|c s IH]; [reflexivity|]. cbn. now rewrite <- IH.
Qed.

(** The start of a series whose start string is a calendar date is a UTC
    midnight, and [new Date(start)] is that instant too. *)
Lemma parsedSeries_calendar (data : JSValue) (h : HistoricalData) (t0 : Z) :
  parsedSeries data h t0 -> isCalendarDateString (start h) = true ->
  TimeWithinDay t0 = 0 /\ Date_ofString (start h) = ValidDate t0.
Proof.
  forget_host.
  intros W C. destruct (isCalendarDateString_day _ C) as (z & Hz & E).
  destruct (parseDate_calendarDateString _ C) as (z' & E' & P).
  rewrite (ps_parse _ _ _ W) in P. injection P as ->.
  split.
  - unfold TimeWithinDay, MakeDate, msPerDay. zdiv.
  - rewrite E. rewrite Date_ofString_isoDateOfDay by exact Hz.
    do 2 f_equal.
    assert (P1 : parseDate (start h) = Ok (ValidDate (MakeDate z 0))).
    { rewrite E. pose proof (parseDate_isoDateOfDay (MakeDate z 0)) as Q.
      rewrite Day_MakeDate0 in Q. apply Q.
      unfold inTimeRange, MakeDate, maxTime, msPerDay. lia. }
    rewrite (ps_parse _ _ _ W) in P1. injection P1 as P1.
    unfold MakeDate in *. unfold msPerDay in *. lia.
Qed.

(** C2 (as the code has it).  For a series returned by the parser, with
    start instant [t0]: the lookup at [t0 + i] days, for an index [i] of
    the price list, returns the date string of that day (the one
    [calculateDate] computes for [i]) with [prices[i]]; a target before the
    start returns [null].  When the start is a UTC midnight, as it is for
    every start string in the form [YYYY-MM-DD], the time of day of the
    target is ignored: a target on a day after the end date returns [null]
    and a target on day [i] of the series returns the entry of that day.
    No case throws. *)
Theorem getPriceForDate_lookup (data : JSValue) (h : HistoricalData) :
  parseHistoricalData data = Ok h ->
  exists t0,
    startDate h = ValidDate t0 /\
    (forall i, 0 <= i < arrayLength (prices h) ->
       getPriceForDate h (JDate (ValidDate (t0 + i * msPerDay)))
         = Ok (Some (entryAt h t0 i))
       /\ calculateDate (start h) i = Ok (date (entryAt h t0 i))) /\
    (forall v t, targetFor v t -> t < t0 -> getPriceForDate h v = Ok None) /\
    (isCalendarDateString (start h) = true -> TimeWithinDay t0 = 0) /\
    (TimeWithinDay t0 = 0 ->
     forall v t te, targetFor v t -> endDate h = ValidDate te ->
       (Day te < Day t -> getPriceForDate h v = Ok None) /\
       (forall i, 0 <= i < arrayLength (prices h) -> Day t = Day t0 + i ->
          getPriceForDate h v = Ok (Some (entryAt h t0 i)))).
Proof.
  forget_host.
  intros P. destruct (parseHistoricalData_ok _ _ P) as [t0 W].
  pose proof (ps_startDate _ _ _ W) as S.
  exists t0. split; [exact S|]. split; [|split; [|split]].
  - intros i Hi. split.
    + rewrite (getPriceForDate_target h _ t0 (t0 + i * msPerDay) S)
        by (left; reflexivity).
      replace ((t0 + i * msPerDay - t0) / msPerDay) with i
        by (unfold msPerDay; zdiv).
      replace ((i <? 0) || (arrayLength (prices h) <=? i)) with false
        by (symmetry; apply orb_false_iff; split;
            [apply Z.ltb_ge | apply Z.leb_gt]; lia).
      rewrite Day_add_days, arrayGet_nth by lia. reflexivity.
    + apply (parsedSeries_calculateDate data); assumption.
  - intros v t T Hlt. rewrite (getPriceForDate_target h v t0 t S T).
    replace ((t - t0) / msPerDay <? 0) with true
      by (symmetry; apply Z.ltb_lt; unfold msPerDay; zdiv).
    reflexivity.
  - intros C. exact (proj1 (parsedSeries_calendar _ _ _ W C)).
  - intros A v t te T E. rewrite (getPriceForDate_target h v t0 t S T).
    rewrite (aligned_days_between t0 t A).
    rewrite (ps_endDate _ _ _ W) in E. injection E as <-.
    rewrite Day_MakeDate0. split.
    + intros Hafter.
      replace (arrayLength (prices h) <=? Day t - Day t0) with true
        by (symmetry; apply Z.leb_le; lia).
      now rewrite orb_true_r.
    + intros i Hi Hd. rewrite Hd.
      replace (Day t0 + i - Day t0) with i by lia.
      replace ((i <? 0) || (arrayLength (prices h) <=? i)) with false
        by (symmetry; apply orb_false_iff; split;
            [apply Z.ltb_ge | apply Z.leb_gt]; lia).
      rewrite arrayGet_nth by lia. reflexivity.
Qed.

(** The lookup of the day of index [i] by its date string. *)
Lemma getPriceForDate_entry (data : JSValue) (h : HistoricalData) (t0 i : Z) :
  parsedSeries data h t0 -> TimeWithinDay t0 = 0 ->
  0 <= i < arrayLength (prices h) ->
  parseDate (date (entryAt h t0 i)) = Ok (ValidDate (t0 + i * msPerDay))
  /\ getPriceForDate h (JString (date (entryAt h t0 i)))
     = Ok (Some (entryAt h t0 i))
  /\ getPriceForDate h (JDate (ValidDate (t0 + i * msPerDay)))
     = Ok (Some (entryAt h t0 i)).
Proof.
  forget_host.
  intros W A Hi.
  assert (R : inTimeRange (t0 + i * msPerDay)).
  { apply (inTimeRange_between t0 _ _ (ps_range0 _ _ _ W) (ps_rangeN _ _ _ W)).
    unfold msPerDay. lia. }
  assert (P : parseDate (isoDateOfDay (Day t0 + i))
              = Ok (ValidDate (t0 + i * msPerDay))).
  { pose proof (parseDate_isoDateOfDay _ R) as P.
    rewrite Day_add_days in P. rewrite P. do 2 f_equal.
    unfold MakeDate, Day, TimeWithinDay, msPerDay in *. zdiv. }
  assert (L : forall v, targetFor v (t0 + i * msPerDay) ->
              getPriceForDate h v = Ok (Some (entryAt h t0 i))).
  { intros v T.
    rewrite (getPriceForDate_target h v t0 _ (ps_startDate _ _ _ W) T).
    replace ((t0 + i * msPerDay - t0) / msPerDay) with i
      by (unfold msPerDay; zdiv).
    replace ((i <? 0) || (arrayLength (prices h) <=? i)) with false
      by (symmetry; apply orb_false_iff; split;
          [apply Z.ltb_ge | apply Z.leb_gt]; lia).
    rewrite Day_add_days, arrayGet_nth by lia. reflexivity. }
  split; [exact P|]. split; apply L.
  - right. eexists. split; [reflexivity|exact P].
  - left. reflexivity.
Qed.

(** X4.  The latest price of a parsed series is the last element of its
    price list, dated with the string of [endDate]; for a calendar-date
    start, looking that date up (as a string or as [endDate]) returns the
    same entry. *)
Theorem getLatestPrice_is_last_entry (data : JSValue) (h : HistoricalData) :
  parseHistoricalData data = Ok h ->
  exists latest,
    getLatestPrice h = Ok latest
    /\ price latest = last (prices h) JUndefined
    /\ formatDate (endDate h) = Ok (date latest)
    /\ parseDate (date latest) = Ok (endDate h)
    /\ (isCalendarDateString (start h) = true ->
        getPriceForDate h (JString (date latest)) = Ok (Some latest)
        /\ getPriceForDate h (JDate (endDate h)) = Ok (Some latest)).
Proof.
  forget_host.
  intros P. destruct (parseHistoricalData_ok _ _ P) as [t0 W].
  pose proof (ps_nonempty _ _ _ W) as L.
  set (n := arrayLength (prices h) - 1).
  assert (Hn : 0 <= n < arrayLength (prices h)) by (subst n; lia).
  exists (entryAt h t0 n).
  assert (E : endDate h = ValidDate (MakeDate (Day t0 + n) 0)).
  { rewrite (ps_endDate _ _ _ W). subst n. do 2 f_equal. lia. }
  split; [|split; [|split; [|split]]].
  - unfold getLatestPrice. fold n.
    rewrite (parsedSeries_calculateDate data h t0 n W Hn). cbn [bind].
    rewrite arrayGet_nth by lia. reflexivity.
  - cbn [price entryAt]. rewrite <- nth_last. f_equal.
    subst n. unfold arrayLength. lia.
  - rewrite E. unfold formatDate, isoDatePart. now rewrite Day_MakeDate0.
  - rewrite E. cbn [date entryAt].
    pose proof (parseDate_isoDateOfDay (t0 + n * msPerDay)) as Q.
    rewrite Day_add_days in Q. apply Q.
    apply (inTimeRange_between t0 _ _ (ps_range0 _ _ _ W) (ps_rangeN _ _ _ W)).
    fold n. unfold msPerDay. lia.
  - intros C. destruct (parsedSeries_calendar _ _ _ W C) as (A & _).
    destruct (getPriceForDate_entry data h t0 n W A Hn) as (_ & G1 & G2).
    split; [exact G1|]. rewrite E.
    replace (MakeDate (Day t0 + n) 0) with (t0 + n * msPerDay); [exact G2|].
    unfold MakeDate, Day, TimeWithinDay, msPerDay in *. zdiv.
Qed.

Lemma getPriceRange_ok_inv (data : JSValue) (h : HistoricalData) (t0 : Z)
    (fromDate toDate : string) (l : list PriceInfo) :
  parsedSeries data h t0 ->
  getPriceRange h fromDate toDate = Ok l ->
  exists lo n,
    l = map (entryAt h t0) (indexRange lo n)
    /\ forall k, lo <= k < lo + Z.of_nat n -> 0 <= k < arrayLength (prices h).
Proof.
  forget_host.
  intros W G. unfold getPriceRange in G.
  destruct (bind_ok_inv _ _ _ G) as (df & Pf & G1).
  destruct (bind_ok_inv _ _ _ G1) as (dt & Pt & G2).
  destruct (parseDate_inv _ _ Pf) as (f & -> & _).
  destruct (parseDate_inv _ _ Pt) as (t & -> & _).
  destruct (Date_gt (ValidDate f) (ValidDate t)); [discriminate|].
  rewrite (ps_startDate _ _ _ W) in G2.
  cbn [floorDaysBetween] in G2. cbv zeta in G2.
  set (lo := Z.max 0 ((f - t0) / msPerDay)) in G2.
  set (hi := Z.min (arrayLength (prices h) - 1) ((t - t0) / msPerDay)) in G2.
  assert (B : forall k, lo <= k < lo + Z.of_nat (Z.to_nat (hi - lo + 1)) ->
              0 <= k < arrayLength (prices h)).
  { intros k Hk. subst lo hi. lia. }
  rewrite (priceRangeLoop_ok data h t0 W _ _ _ B) in G2.
  injection G2 as <-. exists lo, (Z.to_nat (hi - lo + 1)).
  split; [reflexivity|exact B].
Qed.

(** X5.  Every entry that [getPriceRange] returns for a parsed series with
    a calendar-date start is the entry that [getPriceForDate] returns for
    that entry's date string, and its date string is a day of the series
    between the two bounds' lookups. *)
Theorem getPriceRange_entries_are_lookups (data : JSValue) (h : HistoricalData)
    (fromDate toDate : string) (l : list PriceInfo) :
  parseHistoricalData data = Ok h ->
  isCalendarDateString (start h) = true ->
  getPriceRange h fromDate toDate = Ok l ->
  forall e, In e l ->
    getPriceForDate h (JString (date e)) = Ok (Some e)
    /\ In (price e) (prices h).
Proof.
  intros P C G e He. destruct (parseHistoricalData_ok _ _ P) as [t0 W].
  destruct (parsedSeries_calendar _ _ _ W C) as (A & _).
  destruct (getPriceRange_ok_inv data h t0 _ _ _ W G) as (lo & n & -> & B).
  apply in_map_iff in He. destruct He as (i & <- & Hi).
  apply indexRange_In in Hi. specialize (B i Hi).
  destruct (getPriceForDate_entry data h t0 i W A B) as (_ & G1 & _).
  split; [exact G1|]. cbn [price entryAt]. apply nth_In.
  unfold arrayLength in B. lia.
Qed.

Lemma indexRange_length (n : nat) : forall a, List.length (indexRange a n) = n.
Proof. induction n as [|n IH]; intros a; cbn; [reflexivity|now rewrite IH]. Qed.

Lemma nth_indexRange (n : nat) :
  forall a k d, (k < n)%nat -> nth k (indexRange a n) d = a + Z.of_nat k.
Proof.
  induction n as [|n IH]; intros a k d Hk; [lia|].
  destruct k as [|k]; cbn [indexRange nth]; [lia|].
  rewrite IH by lia. lia.
Qed.

(** X6.  For a parsed series with a calendar-date start, the range from the
    start string to the date of the latest price is the whole series: one
    entry per price, in order, the [i]-th dated [i] days after the start. *)
Theorem getPriceRange_whole_series (data : JSValue) (h : HistoricalData)
    (latest : PriceInfo) :
  parseHistoricalData data = Ok h ->
  isCalendarDateString (start h) = true ->
  getLatestPrice h = Ok latest ->
  exists l,
    getPriceRange h (start h) (date latest) = Ok l
    /\ map price l = prices h
    /\ forall i, 0 <= i < arrayLength (prices h) ->
         calculateDate (start h) i
         = Ok (date (nth (Z.to_nat i) l latest)).
Proof.
  forget_host.
  intros P C G. destruct (parseHistoricalData_ok _ _ P) as [t0 W].
  destruct (parsedSeries_calendar _ _ _ W C) as (A & _).
  pose proof (ps_nonempty _ _ _ W) as L.
  set (len := arrayLength (prices h)) in *.
  assert (Hn : 0 <= len - 1 < len) by lia.
  assert (E : latest = entryAt h t0 (len - 1)).
  { unfold getLatestPrice in G. fold len in G.
    rewrite (parsedSeries_calculateDate data h t0 (len - 1) W Hn) in G.
    cbn [bind] in G. rewrite arrayGet_nth in G by lia.
    injection G as <-. reflexivity. }
  destruct (getPriceForDate_entry data h t0 (len - 1) W A Hn) as (Pl & _).
  rewrite <- E in Pl.
  exists (map (entryAt h t0) (indexRange 0 (Z.to_nat len))).
  split; [|split].
  - unfold getPriceRange.
    rewrite (ps_parse _ _ _ W), Pl. cbn [bind Date_gt].
    replace (t0 + (len - 1) * msPerDay <? t0) with false
      by (symmetry; apply Z.ltb_ge; unfold msPerDay; lia).
    rewrite (ps_startDate _ _ _ W). cbn [floorDaysBetween]. cbv zeta.
    replace ((t0 - t0) / msPerDay) with 0 by (unfold msPerDay; zdiv).
    replace ((t0 + (len - 1) * msPerDay - t0) / msPerDay) with (len - 1)
      by (unfold msPerDay; zdiv).
    fold len.
    replace (Z.min (len - 1) (len - 1) - Z.max 0 0 + 1) with len by lia.
    replace (Z.max 0 0) with 0 by lia.
    rewrite (priceRangeLoop_ok data h t0 W); [reflexivity|].
    intros k Hk. fold len. lia.
  - apply (nth_ext _ _ JUndefined JUndefined).
    + rewrite !length_map, indexRange_length. subst len.
      unfold arrayLength. lia.
    + intros k Hk. rewrite !length_map, indexRange_length in Hk.
      rewrite map_map.
      rewrite (nth_indep _ JUndefined
                 (price (entryAt h t0 0)))
        by (rewrite length_map, indexRange_length; exact Hk).
      rewrite (map_nth (fun i => price (entryAt h t0 i))).
      rewrite nth_indexRange by exact Hk. cbn [price entryAt].
      f_equal. lia.
  - intros i Hi.
    rewrite (parsedSeries_calculateDate data h t0 i W Hi).
    rewrite (nth_indep _ latest (entryAt h t0 0))
      by (rewrite length_map, indexRange_length; lia).
    rewrite map_nth, nth_indexRange by lia.
    rewrite Z2Nat.id by lia. reflexivity.
Qed.

(* ================================================================== *)
(** ** The calendar starts of the week, the month and the year *)

Lemma setDate_to (t n : Z) :
  Date_setDate (ValidDate t) (Some (DateFromTime (LocalTime t) + n))
  = TimeClip (t + n * msPerDay).
Proof.
  cbn [Date_setDate].
  rewrite MakeDay_add_date, MakeDay_of_time. f_equal.
  pose proof (MakeDate_Day (LocalTime t)) as E.
  unfold UTC, MakeDate, LocalTime in *. lia.
Qed.

Lemma localDay_localMidnight (d : Z) : localDay (localMidnight d) = d.
Proof.
  unfold localDay, localMidnight, LocalTime, UTC.
  replace (MakeDate d 0 - LocalTZA + LocalTZA) with (MakeDate d 0) by lia.
  apply Day_MakeDate0.
Qed.

Lemma setHours0_localMidnight (d : Z) :
  inTimeRange (localMidnight d) ->
  Date_setHours0 (ValidDate (localMidnight d)) = ValidDate (localMidnight d).
Proof.
  intros R. cbn [Date_setHours0]. fold (localDay (localMidnight d)).
  rewrite localDay_localMidnight. now apply TimeClip_valid.
Qed.

Lemma localMidnight_le (t k : Z) :
  0 <= k ->
  t - (k + 1) * msPerDay < localMidnight (localDay t - k) <= t - k * msPerDay.
Proof.
  unfold localMidnight, localDay, UTC, LocalTime, MakeDate, Day, msPerDay.
  intros Hk. zdiv.
Qed.

Lemma WeekDay_range (t : Z) : 0 <= WeekDay t <= 6.
Proof. unfold WeekDay. zdiv. Qed.

Lemma getStartOfWeek_eq (now : Z) :
  - maxTime + 7 * msPerDay <= now <= maxTime ->
  getStartOfWeek (ValidDate now)
  = ValidDate (localMidnight
                 (localDay now - (WeekDay (LocalTime now) + 6) mod 7)).
Proof.
  intros R. unfold getStartOfWeek. cbn [Date_getDay Date_getDate].
  pose proof (WeekDay_range (LocalTime now)) as Hw.
  set (dy := WeekDay (LocalTime now)) in *.
  set (k := (dy + 6) mod 7).
  assert (Hk : 0 <= k <= 6) by (subst k; zdiv).
  replace (DateFromTime (LocalTime now) - dy + (if dy =? 0 then -6 else 1))
    with (DateFromTime (LocalTime now) + - k).
  2:{ subst k. destruct (Z.eqb_spec dy 0) as [E|E].
      - rewrite E. replace ((0 + 6) mod 7) with 6 by reflexivity. lia.
      - replace ((dy + 6) mod 7) with (dy - 1) by zdiv. lia. }
  rewrite setDate_to.
  assert (R1 : inTimeRange (now + - k * msPerDay))
    by (unfold inTimeRange, maxTime, msPerDay in *; lia).
  rewrite (TimeClip_valid _ R1). cbn [Date_setHours0].
  fold (localDay (now + - k * msPerDay)).
  unfold localDay at 1. unfold LocalTime at 1.
  replace (now + - k * msPerDay + LocalTZA)
    with (LocalTime now + - k * msPerDay) by (unfold LocalTime; lia).
  rewrite Day_add_days. fold (localDay now).
  replace (localDay now + - k) with (localDay now - k) by lia.
  apply TimeClip_valid.
  pose proof (localMidnight_le now k (proj1 Hk)) as B.
  unfold inTimeRange, maxTime, msPerDay in *. lia.
Qed.

(** X7.  The start of the week is 00:00 local time of the Monday on or
    before the local day of the reference date: it is a Monday, at most six
    days back, not after the reference date, and the same for every
    reference date of that Monday-to-Sunday week. *)
Theorem getStartOfWeek_is_local_monday (now : Z) :
  - maxTime + 7 * msPerDay <= now <= maxTime ->
  exists m,
    getStartOfWeek (ValidDate now) = ValidDate (localMidnight m)
    /\ Date_getDay (getStartOfWeek (ValidDate now)) = Some 1
    /\ localDay now - 6 <= m <= localDay now
    /\ localMidnight m <= now < localMidnight (m + 7)
    /\ (forall now', - maxTime + 7 * msPerDay <= now' <= maxTime ->
          m <= localDay now' <= m + 6 ->
          getStartOfWeek (ValidDate now') = getStartOfWeek (ValidDate now)).
Proof.
  intros R. rewrite (getStartOfWeek_eq now R).
  set (m := localDay now - (WeekDay (LocalTime now) + 6) mod 7).
  exists m. split; [reflexivity|].
  assert (Hm : (m + 4) mod 7 = 1 /\ localDay now - 6 <= m <= localDay now).
  { subst m. unfold WeekDay. fold (localDay now). zdiv. }
  split; [|split; [exact (proj2 Hm)|split]].
  - cbn [Date_getDay]. f_equal. unfold WeekDay.
    fold (localDay (localMidnight m)). rewrite localDay_localMidnight.
    exact (proj1 Hm).
  - unfold localMidnight, UTC, MakeDate. destruct Hm as (_ & Hm).
    unfold localDay, LocalTime, Day, msPerDay in *. zdiv.
  - intros now' R' Hd. rewrite (getStartOfWeek_eq now' R'). do 2 f_equal.
    destruct Hm as (Hm & _). unfold WeekDay. fold (localDay now').
    zdiv.
Qed.

Lemma DaysInMonth_range (leap : bool) (m : Z) : 28 <= DaysInMonth leap m <= 31.
Proof.
  unfold DaysInMonth.
  destruct m as [|[[[|[]|]|[[]|[]|]|]|[[|[]|]|[[]|[]|]|]|]|]; destruct leap; lia.
Qed.

Lemma Date_ofLocalYM_eq (y m : Z) :
  ~ 0 <= y <= 99 ->
  Date_ofLocalYM (Some y) (Some m) = TimeClip (localMidnight (MakeDay y m 1)).
Proof.
  intros Hy. unfold Date_ofLocalYM.
  replace ((0 <=? y) && (y <=? 99)) with false; [reflexivity|].
  symmetry. apply andb_false_iff.
  destruct (Z.leb_spec 0 y); [right; apply Z.leb_gt; lia | now left].
Qed.

(** X8.  On a host with a fixed offset from UTC and outside the local years
    0 .. 99, the start of the month is 00:00 local time of the first day of
    the local month of the reference date: same local year and month, day
    1, not after the reference date and less than 31 days before it. *)
Theorem getStartOfMonth_is_first_of_month (now : Z) :
  - maxTime + 31 * msPerDay <= now <= maxTime ->
  ~ 0 <= YearFromTime (LocalTime now) <= 99 ->
  exists d1,
    getStartOfMonth (ValidDate now) = ValidDate (localMidnight d1)
    /\ civil_of_day d1
       = (YearFromTime (LocalTime now), MonthFromTime (LocalTime now), 1)
    /\ d1 = localDay now - (DateFromTime (LocalTime now) - 1)
    /\ now - 31 * msPerDay < localMidnight d1 <= now.
Proof.
  intros R Hy.
  set (lt := LocalTime now) in *.
  exists (MakeDay (YearFromTime lt) (MonthFromTime lt) 1).
  pose proof (MonthFromDay_range (Day lt)) as Hm.
  pose proof (DateFromDay_range (Day lt)) as Hd.
  pose proof (DaysInMonth_range (InLeapYear (YearFromDay (Day lt)))
                (MonthFromDay (Day lt))) as Hdim.
  fold (MonthFromTime lt) in Hm, Hd, Hdim. fold (YearFromTime lt) in Hd, Hdim.
  fold (DateFromTime lt) in Hd.
  assert (E : MakeDay (YearFromTime lt) (MonthFromTime lt) 1
              = localDay now - (DateFromTime lt - 1)).
  { replace 1 with (DateFromTime lt + (1 - DateFromTime lt)) at 1 by lia.
    rewrite MakeDay_add_date, MakeDay_of_time. unfold localDay. fold lt. lia. }
  assert (B : now - 31 * msPerDay
              < localMidnight (MakeDay (YearFromTime lt) (MonthFromTime lt) 1)
              <= now).
  { rewrite E.
    pose proof (localMidnight_le now (DateFromTime lt - 1)) as B.
    unfold msPerDay in *. lia. }
  assert (RM : inTimeRange
                 (localMidnight (MakeDay (YearFromTime lt) (MonthFromTime lt) 1)))
    by (unfold inTimeRange, maxTime, msPerDay in *; lia).
  split; [|split; [|split; [exact E|exact B]]].
  - unfold getStartOfMonth. cbn [Date_getFullYear Date_getMonth]. fold lt.
    rewrite (Date_ofLocalYM_eq _ _ Hy), (TimeClip_valid _ RM).
    now apply setHours0_localMidnight.
  - apply civil_of_day_MakeDay; [exact Hm|lia].
Qed.

Lemma DayWithinYear_le (z : Z) : 0 <= DayWithinYear z <= 365.
Proof.
  pose proof (DayWithinYear_range z) as H.
  destruct (InLeapYear (YearFromDay z)); lia.
Qed.

(** X9.  On a host with a fixed offset from UTC and outside the local years
    0 .. 99, the start of the year is 00:00 local time of 1 January of the
    local year of the reference date, not after the reference date and
    less than 366 days before it. *)
Theorem getStartOfYear_is_first_of_january (now : Z) :
  - maxTime + 366 * msPerDay <= now <= maxTime ->
  ~ 0 <= YearFromTime (LocalTime now) <= 99 ->
  exists d1,
    getStartOfYear (ValidDate now) = ValidDate (localMidnight d1)
    /\ civil_of_day d1 = (YearFromTime (LocalTime now), 0, 1)
    /\ d1 = localDay now - DayWithinYear (localDay now)
    /\ now - 366 * msPerDay < localMidnight d1 <= now.
Proof.
  intros R Hy.
  set (lt := LocalTime now) in *.
  exists (MakeDay (YearFromTime lt) 0 1).
  pose proof (DayWithinYear_le (Day lt)) as Hw.
  assert (E : MakeDay (YearFromTime lt) 0 1
              = localDay now - DayWithinYear (localDay now)).
  { unfold MakeDay, DayWithinYear, localDay, YearFromTime. fold lt.
    cbn [DaysBeforeMonth]. replace (0 / 12) with 0 by reflexivity.
    replace (0 mod 12) with 0 by reflexivity. cbn [DaysBeforeMonth].
    replace (YearFromDay (Day lt) + 0) with (YearFromDay (Day lt)) by lia.
    lia. }
  assert (B : now - 366 * msPerDay
              < localMidnight (MakeDay (YearFromTime lt) 0 1) <= now).
  { rewrite E. change (Day lt) with (localDay now) in Hw.
    pose proof (localMidnight_le now (DayWithinYear (localDay now))) as B.
    unfold msPerDay in *. lia. }
  assert (RM : inTimeRange (localMidnight (MakeDay (YearFromTime lt) 0 1)))
    by (unfold inTimeRange, maxTime, msPerDay in *; lia).
  split; [|split; [|split; [exact E|exact B]]].
  - unfold getStartOfYear. cbn [Date_getFullYear]. fold lt.
    rewrite (Date_ofLocalYM_eq _ _ Hy), (TimeClip_valid _ RM).
    now apply setHours0_localMidnight.
  - apply civil_of_day_MakeDay; [lia|].
    pose proof (DaysInMonth_range (InLeapYear (YearFromTime lt)) 0). lia.
Qed.

Lemma Date_ofLocalYM_two_digit (y k : Z) :
  0 <= y <= 99 ->
  Date_ofLocalYM (Some y) (Some k)
  = TimeClip (localMidnight (MakeDay (1900 + y) k 1)).
Proof.
  intros Hy. unfold Date_ofLocalYM.
  destruct (Z.leb_spec 0 y); [|lia].
  destruct (Z.leb_spec y 99); [|lia].
  reflexivity.
Qed.

(** X10.  For a reference date in the local years 0 .. 99 the
    two-digit-year rule of the [Date] constructor applies: the starts of
    the month and of the year are the first of that month and 1 January of
    the year 1900 later, after the reference date. *)
Theorem calendar_start_of_two_digit_year (now : Z) :
  - msPerDay < LocalTZA < msPerDay ->
  0 <= YearFromTime (LocalTime now) <= 99 ->
  exists dm dy,
    getStartOfMonth (ValidDate now) = ValidDate (localMidnight dm)
    /\ civil_of_day dm
       = (1900 + YearFromTime (LocalTime now), MonthFromTime (LocalTime now), 1)
    /\ getStartOfYear (ValidDate now) = ValidDate (localMidnight dy)
    /\ civil_of_day dy = (1900 + YearFromTime (LocalTime now), 0, 1)
    /\ now < localMidnight dy <= localMidnight dm.
Proof.
  intros Hz Hy.
  set (lt := LocalTime now) in *.
  set (y := YearFromTime lt) in *.
  set (m := MonthFromTime lt).
  pose proof (MonthFromDay_range (Day lt)) as Hm. fold (MonthFromTime lt) in Hm.
  fold m in Hm.
  exists (MakeDay (1900 + y) m 1), (MakeDay (1900 + y) 0 1).
  assert (Q : forall k, 0 <= k <= 11 ->
            MakeDay (1900 + y) k 1
            = DayFromYear (1900 + y) + DaysBeforeMonth (InLeapYear (1900 + y)) k).
  { intros k Hk. unfold MakeDay.
    replace (k / 12) with 0 by zdiv. replace (k mod 12) with k by zdiv.
    replace (1900 + y + 0) with (1900 + y) by lia. lia. }
  pose proof (DaysBeforeMonth_bound (InLeapYear (1900 + y)) m Hm) as Bm.
  pose proof (DaysInMonth_range (InLeapYear (1900 + y)) m) as Dm.
  assert (By : -25567 <= DayFromYear (1900 + y) <= 10592)
    by (unfold DayFromYear; zdiv).
  assert (Bl : Day lt < -683003).
  { pose proof (YearFromDay_spec (Day lt)) as S. fold (YearFromTime lt) in S.
    fold y in S.
    pose proof (DayFromYear_mono (y + 1) 100 ltac:(lia)) as M.
    assert (DayFromYear 100 = -683003) by reflexivity. lia. }
  assert (Rm : inTimeRange (localMidnight (MakeDay (1900 + y) m 1))).
  { rewrite (Q m Hm).
    unfold inTimeRange, localMidnight, UTC, MakeDate, maxTime, msPerDay in *.
    destruct (InLeapYear (1900 + y)); lia. }
  assert (Ry : inTimeRange (localMidnight (MakeDay (1900 + y) 0 1))).
  { rewrite (Q 0 ltac:(lia)). cbn [DaysBeforeMonth].
    unfold inTimeRange, localMidnight, UTC, MakeDate, maxTime, msPerDay in *.
    lia. }
  pose proof (fun k => Date_ofLocalYM_two_digit y k Hy) as Q2.
  split; [|split; [|split; [|split]]].
  - unfold getStartOfMonth. cbn [Date_getFullYear Date_getMonth].
    fold lt. fold y. fold m.
    rewrite Q2, (TimeClip_valid _ Rm). now apply setHours0_localMidnight.
  - apply civil_of_day_MakeDay; [exact Hm|lia].
  - unfold getStartOfYear. cbn [Date_getFullYear]. fold lt. fold y.
    rewrite Q2, (TimeClip_valid _ Ry). now apply setHours0_localMidnight.
  - apply civil_of_day_MakeDay; [lia|].
    pose proof (DaysInMonth_range (InLeapYear (1900 + y)) 0). lia.
  - rewrite (Q m Hm), (Q 0 ltac:(lia)). cbn [DaysBeforeMonth].
    unfold localMidnight, UTC, MakeDate.
    assert (Hlt : lt < (Day lt + 1) * msPerDay)
      by (unfold Day, msPerDay; zdiv).
    unfold LocalTime in lt. unfold msPerDay in *. lia.
Qed.

(* ================================================================== *)
(** ** Days ago *)

Lemma Qnum_neg_iff (q : Q) : (Qnum q <? 0) = true <-> (q < 0)%Q.
Proof.
  rewrite Z.ltb_lt. unfold Qlt. cbn. lia.
Qed.

Lemma Qtrunc_comp (x y : Q) : (x == y)%Q -> Qtrunc x = Qtrunc y.
Proof.
  intros E. unfold Qtrunc.
  assert (N : (Qnum x <? 0) = (Qnum y <? 0)).
  { apply eq_true_iff_eq. rewrite !Qnum_neg_iff. now rewrite E. }
  now rewrite N, (Qceiling_comp _ _ E), (Qfloor_comp _ _ E).
Qed.

Lemma Qtrunc_Z (z : Z) : Qtrunc (inject_Z z) = z.
Proof. unfold Qtrunc. rewrite Qceiling_Z, Qfloor_Z. now destruct (_ <? _). Qed.

Lemma getDateDaysAgo_days (clock : Date) (t n : Z) :
  0 <= n ->
  getDateDaysAgo clock (JDate (ValidDate t)) (JNumber (num_of_Z n))
  = WOk (TimeClip (t - n * msPerDay)).
Proof.
  intros Hn. unfold getDateDaysAgo, num_of_Z. cbn [orNow num_lt].
  replace (Qltb (inject_Z n) 0) with false.
  2:{ symmetry. unfold Qltb. apply negb_false_iff. apply Qle_bool_iff.
      change 0%Q with (inject_Z 0). rewrite <- Zle_Qle. exact Hn. }
  f_equal. unfold Date_setDate_number, Date_getDate_number.
  cbn [Date_getDate num_of_Z num_sub].
  rewrite (Qtrunc_comp _ (inject_Z (DateFromTime (LocalTime t) + - n))).
  - rewrite Qtrunc_Z, setDate_to. f_equal. lia.
  - rewrite Qred_correct, inject_Z_plus, inject_Z_opp. reflexivity.
Qed.

(** X11.  On a host with a fixed offset from UTC, [getDateDaysAgo] with an
    integer [n >= 0] goes back exactly [n] days of 24 hours and keeps the
    time of day (the result is the invalid date when that instant is
    outside the range of [Date]).  A negative number is refused, [NaN] is
    not (the result is the invalid date), and an omitted reference date is
    the current time. *)
Theorem getDateDaysAgo_whole_days (clock : Date) (t : Z) :
  (forall n, 0 <= n ->
     getDateDaysAgo clock (JDate (ValidDate t)) (JNumber (num_of_Z n))
     = WOk (TimeClip (t - n * msPerDay)))
  /\ (forall ref x, num_lt x (Fin 0) = true ->
        getDateDaysAgo clock (JDate ref) (JNumber x)
        = WThrow DaysAgoMustBeNonNegative)
  /\ getDateDaysAgo clock (JDate (ValidDate t)) (JNumber NaN) = WOk InvalidDate
  /\ (forall daysAgo,
        getDateDaysAgo clock JUndefined daysAgo
        = getDateDaysAgo clock (JDate clock) daysAgo).
Proof.
  split; [exact (getDateDaysAgo_days clock t)|split; [|split]].
  - intros ref x Hx. unfold getDateDaysAgo. cbn [orNow]. now rewrite Hx.
  - reflexivity.
  - reflexivity.
Qed.

(* ================================================================== *)
(** ** Filtering by time window *)

Lemma wbind_ok_inv {A B : Type} (r : wresult A) (k : A -> wresult B) (b : B) :
  wbind r k = WOk b -> exists a, r = WOk a /\ k a = WOk b.
Proof. destruct r as [a|e]; [now exists a | discriminate]. Qed.

Lemma Array_filter_pure {A : Type} (f : A -> wresult bool) (g : A -> bool)
    (l : list A) :
  (forall x, In x l -> f x = WOk (g x)) ->
  Array_filter f l = WOk (filter g l).
Proof.
  induction l as [|x l IH]; intros H; [reflexivity|].
  cbn [Array_filter filter]. rewrite (H x (or_introl eq_refl)). cbn [wbind].
  rewrite IH by (intros y Hy; apply H; now right). cbn [wbind].
  now destruct (g x).
Qed.

Lemma Array_filter_ok_inv {A : Type} (f : A -> wresult bool) (l r : list A) :
  Array_filter f l = WOk r ->
  Array_filter f r = WOk r
  /\ (forall x, In x r <-> In x l /\ f x = WOk true)
  /\ (forall x, In x l -> exists b, f x = WOk b)
  /\ (List.length r <= List.length l)%nat.
Proof.
  revert r. induction l as [|x l IH]; intros r H.
  - injection H as <-. split; [reflexivity|]. split; [|split].
    + intros x. cbn [In]. tauto.
    + intros x [].
    + cbn [List.length]. lia.
  - cbn [Array_filter] in H.
    destruct (wbind_ok_inv _ _ _ H) as (keep & Fx & H1).
    destruct (wbind_ok_inv _ _ _ H1) as (rest & Fl & H2).
    injection H2 as <-.
    destruct (IH rest Fl) as (I1 & I2 & I3 & I4).
    split; [|split; [|split]].
    + destruct keep; [|exact I1].
      cbn [Array_filter]. rewrite Fx, I1. reflexivity.
    + intros y. destruct keep; cbn [In]; rewrite ?I2; split.
      * intros [<-|[Hy Fy]]; [split; [now left|exact Fx]|split; [now right|exact Fy]].
      * intros [[<-|Hy] Fy]; [now left|right; now split].
      * intros [Hy Fy]. split; [now right|exact Fy].
      * intros [[<-|Hy] Fy]; [rewrite Fx in Fy; discriminate|now split].
    + intros y [<-|Hy]; [now exists keep|now apply I3].
    + destruct keep; cbn [List.length]; lia.
Qed.

Lemma onOrAfterCutoff_dated (c : Z) (p : JSValue) :
  hasDateObject p = true ->
  onOrAfterCutoff (ValidDate c) p = WOk (datedSince c p).
Proof.
  unfold hasDateObject, onOrAfterCutoff, datedSince, pointTime, dataPointDate.
  destruct p; cbn [getProp]; try discriminate.
  destruct (lookupField "date" fields) as [| | | | | | |[t|]];
    try discriminate; reflexivity.
Qed.

Lemma onOrAfterCutoff_undated (c : Date) (p : JSValue) :
  hasDateObject p = false ->
  onOrAfterCutoff c p = WThrow DataPointMustHaveADate
  \/ onOrAfterCutoff c p = WThrow TypeError_PropertyOfNullish.
Proof.
  unfold hasDateObject, onOrAfterCutoff, dataPointDate.
  destruct p; cbn [getProp wbind]; try (now left); try (now right).
  destruct (lookupField "date" fields); try discriminate; now left.
Qed.

Lemma onOrAfterCutoff_true_inv (c : Date) (p : JSValue) :
  onOrAfterCutoff c p = WOk true ->
  exists t tc, c = ValidDate tc /\ pointTime p = Some t /\ tc <= t
               /\ dataPointDate p = WOk (JDate (ValidDate t)).
Proof.
  unfold onOrAfterCutoff, pointTime, dataPointDate.
  destruct p; cbn [getProp wbind]; try discriminate.
  destruct (lookupField "date" fields) as [| | | | | | |[t|]];
    try discriminate; destruct c as [tc|]; cbn [Date_ge]; try discriminate.
  intros H. injection H as H. apply Z.leb_le in H. now exists t, tc.
Qed.

Lemma Array_filter_undated (c : Date) (l : list JSValue) :
  forallb hasDateObject l = false ->
  Array_filter (onOrAfterCutoff c) l = WThrow DataPointMustHaveADate
  \/ Array_filter (onOrAfterCutoff c) l = WThrow TypeError_PropertyOfNullish.
Proof.
  induction l as [|x l IH]; [discriminate|].
  cbn [forallb Array_filter]. intros H.
  destruct (hasDateObject x) eqn:Hx.
  - destruct c as [tc|].
    + rewrite (onOrAfterCutoff_dated tc x Hx). cbn [wbind].
      destruct (IH H) as [-> | ->]; [now left|now right].
    + assert (E : onOrAfterCutoff InvalidDate x = WOk false).
      { unfold hasDateObject in Hx. unfold onOrAfterCutoff, dataPointDate.
        destruct x; cbn [getProp] in *; try discriminate.
        destruct (lookupField "date" fields) as [| | | | | | |[t|]];
          try discriminate; reflexivity. }
      rewrite E. cbn [wbind].
      destruct (IH H) as [-> | ->]; [now left|now right].
  - destruct (onOrAfterCutoff_undated c x Hx) as [-> | ->];
      [now left|now right].
Qed.

Lemma TIME_WINDOWS_calendar (key : string) (d : Date) (r : Date) :
  getCalendarStartDate key d = Ok r ->
  key <> "all"%string
  /\ exists c, TIME_WINDOWS key = Some c /\ isCalendarOrDaily c = true.
Proof.
  unfold getCalendarStartDate, TIME_WINDOWS.
  destruct (String.eqb_spec key "1d") as [->|];
    [intros _; split; [discriminate|eexists; split; reflexivity]|].
  destruct (String.eqb_spec key "wtd") as [->|];
    [intros _; split; [discriminate|eexists; split; reflexivity]|].
  destruct (String.eqb_spec key "mtd") as [->|];
    [intros _; split; [discriminate|eexists; split; reflexivity]|].
  destruct (String.eqb_spec key "ytd") as [->|];
    [intros _; split; [discriminate|eexists; split; reflexivity]|].
  discriminate.
Qed.

Lemma TIME_WINDOWS_fixed_not_all (key : string) (n : Z) :
  TIME_WINDOWS key = Some (mkWindowConfig (Some n) Fixed) ->
  key <> "all"%string.
Proof. intros H ->. discriminate. Qed.

(** The cutoff that [filterByTimeWindow] computes. *)
Lemma filterByTimeWindow_cutoff (clock : Date) (points : list JSValue)
    (key : string) (t c : Z) :
  cutoffOfWindow clock key t c ->
  filterByTimeWindow clock (JArray points) (JString key) (JDate (ValidDate t))
  = Array_filter (onOrAfterCutoff (ValidDate c)) points.
Proof.
  intros [(n & T & G)|G]; unfold filterByTimeWindow; cbn [orNow].
  - rewrite T.
    replace (String.eqb key "all") with false
      by (symmetry; apply String.eqb_neq; exact (TIME_WINDOWS_fixed_not_all _ _ T)).
    cbn [isCalendarOrDaily type windowDays days]. rewrite G. reflexivity.
  - destruct (TIME_WINDOWS_calendar _ _ _ G) as (Hk & cfg & T & K).
    rewrite T.
    replace (String.eqb key "all") with false
      by (symmetry; apply String.eqb_neq; exact Hk).
    rewrite K, G. reflexivity.
Qed.

(** X12.  For a window other than "all" whose cutoff for the reference date
    is the valid date [c] (what [getDateDaysAgo] returns for the days of a
    fixed window, what [getCalendarStartDate] returns for a calendar
    window), [filterByTimeWindow] returns, in their order, exactly the
    points dated at or after [c], provided every point carries a [Date]; if
    one does not, the call throws, also when that point would have been
    dropped. *)
Theorem filterByTimeWindow_keeps_since_cutoff (clock : Date)
    (points : list JSValue) (key : string) (t c : Z) :
  cutoffOfWindow clock key t c ->
  (forallb hasDateObject points = true ->
     filterByTimeWindow clock (JArray points) (JString key)
       (JDate (ValidDate t))
     = WOk (filter (datedSince c) points))
  /\ (forallb hasDateObject points = false ->
      exists e,
        filterByTimeWindow clock (JArray points) (JString key)
          (JDate (ValidDate t)) = WThrow e
        /\ (e = DataPointMustHaveADate \/ e = TypeError_PropertyOfNullish)).
Proof.
  intros K. rewrite (filterByTimeWindow_cutoff clock points key t c K). split.
  - intros H. apply Array_filter_pure. intros x Hx.
    apply onOrAfterCutoff_dated.
    rewrite forallb_forall in H. now apply H.
  - intros H. destruct (Array_filter_undated (ValidDate c) points H) as [E|E];
      rewrite E; eexists; split; try reflexivity; [now left|now right].
Qed.

(** What [filterByTimeWindow] returns is a result of a [filter] or, for
    "all", the input. *)
Lemma filterByTimeWindow_ok_inv (clock : Date)
    (priceData timeWindow referenceDate : JSValue) (r : list JSValue) :
  filterByTimeWindow clock priceData timeWindow referenceDate = WOk r ->
  exists points key,
    priceData = JArray points /\ timeWindow = JString key
    /\ (key = "all"%string /\ r = points
        \/ key <> "all"%string
           /\ exists c, Array_filter (onOrAfterCutoff c) points = WOk r).
Proof.
  unfold filterByTimeWindow.
  destruct priceData as [| | | | |points| |]; try discriminate.
  destruct timeWindow as [| | | |key| | |]; try discriminate.
  destruct (orNow clock referenceDate) as [| | | | | | |ref]; try discriminate.
  intros H. exists points, key. split; [reflexivity|]. split; [reflexivity|].
  destruct (TIME_WINDOWS key) as [cfg|].
  - destruct (String.eqb_spec key "all") as [->|Hk].
    + left. injection H as <-. now split.
    + right. split; [exact Hk|].
      destruct (wbind_ok_inv _ _ _ H) as (c & _ & F). now exists c.
  - destruct (inheritedKey key); [|discriminate].
    destruct (wbind_ok_inv _ _ _ H) as (c & C & _). discriminate.
Qed.

(** X13.  Filtering is idempotent and only drops points: filtering the
    result of [filterByTimeWindow] again with the same window and reference
    date returns it unchanged, and every point of the result is a point of
    the input. *)
Theorem filterByTimeWindow_idempotent (clock : Date)
    (priceData timeWindow referenceDate : JSValue) (r : list JSValue) :
  filterByTimeWindow clock priceData timeWindow referenceDate = WOk r ->
  filterByTimeWindow clock (JArray r) timeWindow referenceDate = WOk r
  /\ (exists points, priceData = JArray points
        /\ (forall p, In p r -> In p points)
        /\ (List.length r <= List.length points)%nat).
Proof.
  forget_host. intros H.
  destruct (filterByTimeWindow_ok_inv _ _ _ _ _ H)
    as (points & key & -> & -> & [(-> & ->)|(Hk & c & F)]).
  - split; [|exists points; split; [reflexivity|split; [tauto|lia]]].
    unfold filterByTimeWindow in *.
    destruct (orNow clock referenceDate); try discriminate. reflexivity.
  - destruct (Array_filter_ok_inv _ _ _ F) as (I1 & I2 & _ & I4).
    split.
    + unfold filterByTimeWindow in *.
      destruct (orNow clock referenceDate) as [| | | | | | |ref];
        try discriminate.
      destruct (TIME_WINDOWS key) as [cfg|].
      * replace (String.eqb key "all") with false in *
          by (symmetry; apply String.eqb_neq; exact Hk).
        destruct (wbind_ok_inv _ _ _ H) as (c' & C & F').
        rewrite C. cbn [wbind].
        now destruct (Array_filter_ok_inv _ _ _ F') as (I1' & _).
      * destruct (inheritedKey key); [|discriminate].
        destruct (wbind_ok_inv _ _ _ H) as (c' & C & _). discriminate.
    + exists points. split; [reflexivity|]. split; [|exact I4].
      intros p Hp. now apply I2 in Hp.
Qed.

(** X14.  A key outside the table makes [filterByTimeWindow] throw: the
    error that lists the valid options, except for the twelve names that
    the table inherits from [Object.prototype], which [isValidTimeWindow]
    accepts and on which [filterByTimeWindow] fails with the error of
    [getDateDaysAgo].  On the keys of the table [isValidTimeWindow] is
    true. *)
Theorem filterByTimeWindow_unknown_key (clock : Date) (points : list JSValue)
    (key : string) (ref : Date) :
  (TIME_WINDOWS key = None ->
     filterByTimeWindow clock (JArray points) (JString key) (JDate ref)
     = WThrow (if inheritedKey key then DaysAgoMustBeNonNegative
               else InvalidTimeWindowOption key)
     /\ isValidTimeWindow (JString key) = inheritedKey key)
  /\ (TIME_WINDOWS key <> None ->
        isValidTimeWindow (JString key) = true
        /\ forall k,
             filterByTimeWindow clock (JArray points) (JString key) (JDate ref)
             <> WThrow (InvalidTimeWindowOption k)).
Proof.
  split.
  - intros T. unfold filterByTimeWindow, isValidTimeWindow. cbn [orNow].
    rewrite T. split; [|reflexivity].
    now destruct (inheritedKey key).
  - intros T. unfold filterByTimeWindow, isValidTimeWindow. cbn [orNow].
    destruct (TIME_WINDOWS key) as [cfg|] eqn:E; [|contradiction].
    split; [reflexivity|]. intros k.
    destruct (String.eqb key "all"); [discriminate|].
    assert (A : forall (c : wresult Date),
              (forall j, c <> WThrow (InvalidTimeWindowOption j)) ->
              wbind c (fun cutoffDate =>
                         Array_filter (onOrAfterCutoff cutoffDate) points)
              <> WThrow (InvalidTimeWindowOption k)).
    { intros [c|e] Hc; cbn [wbind]; [|intros X; injection X as ->; now apply (Hc k)].
      clear. induction points as [|x l IH]; [discriminate|].
      cbn [Array_filter]. unfold onOrAfterCutoff at 1, dataPointDate.
      destruct x; cbn [wbind getProp]; try discriminate;
        try (destruct (Array_filter _ l); [discriminate|exact IH]).
      destruct (lookupField "date" fields); cbn [wbind]; try discriminate.
      destruct (Array_filter _ l); cbn [wbind]; [discriminate|exact IH]. }
    apply A. intros j.
    destruct (isCalendarOrDaily cfg).
    + destruct (getCalendarStartDate key ref); discriminate.
    + unfold getDateDaysAgo. cbn [orNow].
      destruct (windowDays key cfg); try discriminate.
      destruct (num_lt n (Fin 0)); discriminate.
Qed.

(* ================================================================== *)
(** ** Earliest and latest date, available windows *)

Lemma pointTime_dataPointDate (p : JSValue) (t : Z) :
  pointTime p = Some t -> dataPointDate p = WOk (JDate (ValidDate t)).
Proof.
  unfold pointTime, dataPointDate.
  destruct p; cbn [getProp]; try discriminate.
  destruct (lookupField "date" fields) as [| | | | | | |[u|]];
    try discriminate.
  now intros [= ->].
Qed.

Lemma reduce_earlier (l : list JSValue) :
  Forall (fun p => exists t, pointTime p = Some t) l ->
  forall a, exists m,
    Array_reduce earlierDate l (JDate (ValidDate a))
    = WOk (JDate (ValidDate m))
    /\ m <= a
    /\ (forall p t, In p l -> pointTime p = Some t -> m <= t)
    /\ (m = a \/ exists p, In p l /\ pointTime p = Some m).
Proof.
  induction 1 as [|p l (t & Hp) _ IH]; intros a.
  - exists a. split; [reflexivity|]. split; [lia|]. split; [intros ? ? []|now left].
  - cbn [Array_reduce]. unfold earlierDate at 1.
    rewrite (pointTime_dataPointDate p t Hp). cbn [wbind].
    unfold js_lt, IsLessThan.
    destruct (IH (if t <? a then t else a)) as (m & R & M1 & M2 & M3).
    exists m.
    replace (if t <? a then JDate (ValidDate t) else JDate (ValidDate a))
      with (JDate (ValidDate (if t <? a then t else a)))
      by (now destruct (t <? a)).
    split; [exact R|].
    assert (Hm : m <= a /\ m <= t)
      by (destruct (Z.ltb_spec t a); lia).
    split; [lia|]. split.
    + intros q u [<-|Hq] Hu.
      * rewrite Hp in Hu. injection Hu as <-. lia.
      * now apply (M2 q).
    + destruct M3 as [E|(q & Hq & Hu)].
      * destruct (Z.ltb_spec t a).
        -- right. exists p. split; [now left|]. now rewrite E.
        -- now left.
      * right. exists q. split; [now right|exact Hu].
Qed.

Lemma reduce_later (l : list JSValue) :
  Forall (fun p => exists t, pointTime p = Some t) l ->
  forall a, exists m,
    Array_reduce laterDate l (JDate (ValidDate a))
    = WOk (JDate (ValidDate m))
    /\ a <= m
    /\ (forall p t, In p l -> pointTime p = Some t -> t <= m)
    /\ (m = a \/ exists p, In p l /\ pointTime p = Some m).
Proof.
  induction 1 as [|p l (t & Hp) _ IH]; intros a.
  - exists a. split; [reflexivity|]. split; [lia|]. split; [intros ? ? []|now left].
  - cbn [Array_reduce]. unfold laterDate at 1.
    rewrite (pointTime_dataPointDate p t Hp). cbn [wbind].
    unfold js_gt, IsLessThan.
    destruct (IH (if a <? t then t else a)) as (m & R & M1 & M2 & M3).
    exists m.
    replace (if a <? t then JDate (ValidDate t) else JDate (ValidDate a))
      with (JDate (ValidDate (if a <? t then t else a)))
      by (now destruct (a <? t)).
    split; [exact R|].
    assert (Hm : a <= m /\ t <= m)
      by (destruct (Z.ltb_spec a t); lia).
    split; [lia|]. split.
    + intros q u [<-|Hq] Hu.
      * rewrite Hp in Hu. injection Hu as <-. lia.
      * now apply (M2 q).
    + destruct M3 as [E|(q & Hq & Hu)].
      * destruct (Z.ltb_spec a t).
        -- right. exists p. split; [now left|]. now rewrite E.
        -- now left.
      * right. exists q. split; [now right|exact Hu].
Qed.

(** X15.  For a window other than "all" on which the filter returns, the
    earliest and the latest date of the window are [null] when no point is
    kept, and otherwise the least and the greatest date among the kept
    points: both are dates of kept points and every kept point lies
    between them. *)
Theorem window_date_bounds (clock : Date) (points : list JSValue)
    (key : string) (ref : Date) (r : list JSValue) :
  filterByTimeWindow clock (JArray points) (JString key) (JDate ref) = WOk r ->
  key <> "all"%string ->
  exists e l,
    getEarliestDateForWindow clock (JArray points) (JString key) (JDate ref)
    = WOk e
    /\ getLatestDateForWindow clock (JArray points) (JString key) (JDate ref)
       = WOk l
    /\ (r = [] -> e = JNull /\ l = JNull)
    /\ (r <> [] ->
        exists te tl,
          e = JDate (ValidDate te) /\ l = JDate (ValidDate tl)
          /\ (exists p, In p r /\ pointTime p = Some te)
          /\ (exists p, In p r /\ pointTime p = Some tl)
          /\ forall p, In p r ->
               exists t, pointTime p = Some t /\ te <= t <= tl).
Proof.
  intros H Hk. unfold getEarliestDateForWindow, getLatestDateForWindow.
  rewrite H. cbn [wbind].
  destruct (filterByTimeWindow_ok_inv _ _ _ _ _ H)
    as (points' & key' & E1 & E2 & [(-> & _)|(_ & c & F)]).
  { injection E2 as ->. contradiction. }
  destruct (Array_filter_ok_inv _ _ _ F) as (_ & I2 & _ & _).
  assert (A : Forall (fun p => exists t, pointTime p = Some t) r).
  { apply Forall_forall. intros p Hp. apply I2 in Hp. destruct Hp as (_ & Hp).
    destruct (onOrAfterCutoff_true_inv _ _ Hp) as (t & _ & _ & T & _).
    now exists t. }
  destruct r as [|first rest].
  - exists JNull, JNull. repeat split; try reflexivity. intros X. now contradiction X.
  - pose proof (Forall_inv A) as (t1 & T1).
    rewrite (pointTime_dataPointDate _ _ T1). cbn [wbind].
    destruct (reduce_earlier _ A t1) as (te & Re & Le & Ae & Ie).
    destruct (reduce_later _ A t1) as (tl & Rl & Ll & Al & Il).
    exists (JDate (ValidDate te)), (JDate (ValidDate tl)).
    split; [exact Re|]. split; [exact Rl|]. split; [discriminate|].
    intros _. exists te, tl. split; [reflexivity|]. split; [reflexivity|].
    split; [|split].
    + destruct Ie as [->|Ie]; [|exact Ie]. exists first. split; [now left|exact T1].
    + destruct Il as [->|Il]; [|exact Il]. exists first. split; [now left|exact T1].
    + intros p Hp. pose proof (proj1 (Forall_forall _ _) A p Hp) as (t & T).
      exists t. split; [exact T|]. split; [now apply (Ae p)|now apply (Al p)].
Qed.

Lemma TIME_WINDOWS_In (key : string) (c : WindowConfig) :
  TIME_WINDOWS key = Some c -> In key timeWindowKeys.
Proof.
  unfold TIME_WINDOWS, timeWindowKeys.
  repeat match goal with
         | |- (if String.eqb key ?k then _ else _) = _ -> _ =>
             destruct (String.eqb_spec key k) as [->|];
             [intros _; cbn [In]; tauto|]
         end.
  discriminate.
Qed.

Lemma floor_days (a b : Z) :
  Math_floor (num_div (num_sub (num_of_Z a) (num_of_Z b)) (num_of_Z msPerDay))
  = num_of_Z ((a - b) / msPerDay).
Proof.
  unfold num_of_Z, num_sub, num_div, Math_floor.
  replace (Qeq_bool (inject_Z msPerDay) 0) with false by reflexivity.
  unfold num_of_Z. do 2 f_equal.
  rewrite Zdiv_Qdiv. apply Qfloor_comp.
  rewrite Qred_correct, Qred_correct. unfold Z.sub.
  rewrite inject_Z_plus, inject_Z_opp. reflexivity.
Qed.

Lemma windowAvailable_offered (now tmin : Z) (key : string) :
  In key timeWindowKeys ->
  windowAvailable (ValidDate now) (JDate (ValidDate tmin))
    (num_of_Z ((now - tmin) / msPerDay)) key
  = WOk (windowOffered now tmin key).
Proof.
  intros Hin. unfold timeWindowKeys in Hin. cbn [In] in Hin.
  assert (Le : forall n d,
            num_le (ToNumber (JNumber (num_of_Z n))) (num_of_Z d) = (n <=? d)).
  { intros n d. cbn [ToNumber num_of_Z num_le].
    apply eq_true_iff_eq. rewrite Qle_bool_iff, Z.leb_le, <- Zle_Qle.
    reflexivity. }
  assert (Lc : forall s,
            WOk (js_le (JDate (ValidDate tmin)) (JDate s))
            = WOk (match s with ValidDate c => tmin <=? c | _ => false end)).
  { intros [c|]; unfold js_le, IsLessThan; [|reflexivity].
    f_equal. rewrite Z.leb_antisym. reflexivity. }
  repeat (destruct Hin as [<-|Hin]);
    try contradiction;
    unfold windowAvailable, windowOffered; eval_keys;
    cbn [isCalendarOrDaily type windowDays days];
    try reflexivity;
    try (now rewrite Le);
    unfold getCalendarStartDate; eval_keys; apply Lc.
Qed.

(** The outcome of [getAvailableTimeWindows] on points that all carry a
    valid date. *)
Lemma getAvailableTimeWindows_spec (points : list JSValue) (now : Z) :
  points <> [] ->
  Forall (fun p => exists t, pointTime p = Some t) points ->
  exists tmin,
    getAvailableTimeWindows (JArray points) (ValidDate now)
    = WOk (filter (windowOffered now tmin) timeWindowKeys)
    /\ (exists p, In p points /\ pointTime p = Some tmin)
    /\ (forall p t, In p points -> pointTime p = Some t -> tmin <= t).
Proof.
  intros Hne A. destruct points as [|first rest]; [contradiction|].
  pose proof (Forall_inv A) as (t1 & T1).
  destruct (reduce_earlier _ A t1) as (tmin & R & L & Amin & Imin).
  exists tmin. split; [|split].
  - unfold getAvailableTimeWindows.
    rewrite (pointTime_dataPointDate _ _ T1).
    cbv beta iota delta [wbind].
    assert (R' : Array_reduce earlierDate rest (JDate (ValidDate t1))
                 = WOk (JDate (ValidDate tmin))).
    { rewrite <- R. cbn [Array_reduce]. unfold earlierDate at 2.
      rewrite (pointTime_dataPointDate _ _ T1). cbn [wbind].
      unfold js_lt, IsLessThan. now rewrite Z.ltb_irrefl. }
    rewrite R'.
    cbv beta iota delta [wbind ToNumber]. rewrite floor_days.
    apply Array_filter_pure. intros key Hk.
    now apply windowAvailable_offered.
  - destruct Imin as [->|I]; [|exact I]. exists first. split; [now left|exact T1].
  - exact Amin.
Qed.

Lemma windowOffered_fixed (now tmin : Z) (key : string) (n : Z) :
  TIME_WINDOWS key = Some (mkWindowConfig (Some n) Fixed) ->
  windowOffered now tmin key = (n <=? (now - tmin) / msPerDay).
Proof. intros T. unfold windowOffered. now rewrite T. Qed.

Lemma windowOffered_calendar (now tmin : Z) (key : string) (c : Z) :
  getCalendarStartDate key (ValidDate now) = Ok (ValidDate c) ->
  windowOffered now tmin key = (tmin <=? c).
Proof.
  intros G. destruct (TIME_WINDOWS_calendar _ _ _ G) as (_ & cfg & T & K).
  unfold windowOffered. rewrite T, G.
  destruct cfg as [[n|] []]; try discriminate; reflexivity.
Qed.

(** X16.  On a non-empty array of points that all carry a valid date,
    [getAvailableTimeWindows] offers "all" always, a fixed window of [n]
    days exactly when the earliest point is at least [n] whole days before
    the reference date (so with a window every shorter fixed window is
    offered too), and a calendar window exactly when the earliest point is
    not after its calendar start. *)
Theorem getAvailableTimeWindows_offers (points : list JSValue) (now : Z) :
  points <> [] ->
  Forall (fun p => exists t, pointTime p = Some t) points ->
  exists ws tmin,
    getAvailableTimeWindows (JArray points) (ValidDate now) = WOk ws
    /\ (exists p, In p points /\ pointTime p = Some tmin)
    /\ (forall p t, In p points -> pointTime p = Some t -> tmin <= t)
    /\ In "all"%string ws
    /\ (forall key n,
          TIME_WINDOWS key = Some (mkWindowConfig (Some n) Fixed) ->
          (In key ws <-> n <= (now - tmin) / msPerDay))
    /\ (forall key n key' n',
          TIME_WINDOWS key = Some (mkWindowConfig (Some n) Fixed) ->
          TIME_WINDOWS key' = Some (mkWindowConfig (Some n') Fixed) ->
          n' <= n -> In key ws -> In key' ws)
    /\ (forall key c,
          getCalendarStartDate key (ValidDate now) = Ok (ValidDate c) ->
          (In key ws <-> tmin <= c)).
Proof.
  forget_host. intros Hne A.
  destruct (getAvailableTimeWindows_spec points now Hne A)
    as (tmin & G & Hmin & Hle).
  exists (filter (windowOffered now tmin) timeWindowKeys), tmin.
  split; [exact G|]. split; [exact Hmin|]. split; [exact Hle|].
  assert (F : forall key n,
            TIME_WINDOWS key = Some (mkWindowConfig (Some n) Fixed) ->
            (In key (filter (windowOffered now tmin) timeWindowKeys)
             <-> n <= (now - tmin) / msPerDay)).
  { intros key n T. rewrite filter_In, (windowOffered_fixed _ _ _ _ T), Z.leb_le.
    pose proof (TIME_WINDOWS_In _ _ T). tauto. }
  split; [|split; [exact F|split]].
  - apply filter_In. split; [cbn; tauto|reflexivity].
  - intros key n key' n' T T' Hn Hin.
    apply (proj2 (F key' n' T')). pose proof (proj1 (F key n T) Hin). lia.
  - intros key c C. rewrite filter_In, (windowOffered_calendar _ _ _ _ C), Z.leb_le.
    destruct (TIME_WINDOWS_calendar _ _ _ C) as (_ & cfg & T & _).
    pose proof (TIME_WINDOWS_In _ _ T). tauto.
Qed.

(* ================================================================== *)
(** ** The series as data points, and the windows offered for it *)

Lemma setDate_add_days (t i : Z) :
  Date_setDate (ValidDate t) (optZ_add (Date_getDate (ValidDate t)) i)
  = TimeClip (t + i * msPerDay).
Proof. cbn [Date_getDate optZ_add]. apply setDate_to. Qed.

Lemma priceDataLoop_eq (data : JSValue) (h : HistoricalData) (t0 : Z) :
  parsedSeries data h t0 -> Date_ofString (start h) = ValidDate t0 ->
  forall n i acc,
    0 <= i -> i + Z.of_nat n <= arrayLength (prices h) ->
    priceDataLoop h n i acc = acc ++ map (pointAt h t0) (indexRange i n).
Proof.
  intros W S. induction n as [|n IH]; intros i acc Hi Hn.
  - cbn. now rewrite app_nil_r.
  - cbn [priceDataLoop indexRange map]. rewrite S, setDate_add_days.
    rewrite TimeClip_valid.
    + rewrite IH by lia. rewrite <- app_assoc. cbn [app].
      unfold pointAt at 2. now rewrite arrayGet_nth by lia.
    + apply (inTimeRange_between t0 _ _ (ps_range0 _ _ _ W) (ps_rangeN _ _ _ W)).
      unfold msPerDay. lia.
Qed.

Lemma priceDataOf_eq (data : JSValue) (h : HistoricalData) (t0 : Z) :
  parsedSeries data h t0 -> isCalendarDateString (start h) = true ->
  priceDataOf h
  = map (pointAt h t0) (indexRange 0 (List.length (prices h))).
Proof.
  intros W C. destruct (parsedSeries_calendar _ _ _ W C) as (_ & S).
  unfold priceDataOf.
  rewrite (priceDataLoop_eq data h t0 W S); [reflexivity|lia|].
  unfold arrayLength. lia.
Qed.

(** X17.  The data points that [app.js] derives from a parsed series with a
    calendar-date start (on a host with a fixed offset from UTC): one point
    per price, the [i]-th dated exactly [i] days of 24 hours after the
    start date of the series and carrying the [i]-th price. *)
Theorem priceData_of_series (data : JSValue) (h : HistoricalData) :
  parseHistoricalData data = Ok h ->
  isCalendarDateString (start h) = true ->
  exists t0,
    startDate h = ValidDate t0
    /\ List.length (priceDataOf h) = List.length (prices h)
    /\ forall i, 0 <= i < arrayLength (prices h) ->
         nth (Z.to_nat i) (priceDataOf h) JUndefined
         = dataPoint (ValidDate (t0 + i * msPerDay))
                     (nth (Z.to_nat i) (prices h) JUndefined).
Proof.
  intros P C. destruct (parseHistoricalData_ok _ _ P) as [t0 W].
  exists t0. split; [exact (ps_startDate _ _ _ W)|].
  rewrite (priceDataOf_eq data h t0 W C). split.
  - now rewrite length_map, indexRange_length.
  - intros i Hi. unfold arrayLength in Hi.
    rewrite (nth_indep _ JUndefined (pointAt h t0 0))
      by (rewrite length_map, indexRange_length; lia).
    rewrite map_nth, nth_indexRange by lia.
    rewrite Z2Nat.id by lia. reflexivity.
Qed.


(* ================================================================== *)
(** ** The metrics: time held, signs of the gains, metrics by window *)

(** [minYearsForCAGR] is the binary64 number nearest to 30 / 365.25: a
    multiple of 2^-56 with a 53-bit significand, within half a unit in the
    last place of the quotient. *)
Lemma minYearsForCAGR_binary64 :
  minYearsForCAGR = Fin (Qred (5918488216667592 # 72057594037927936))
  /\ 2 ^ 52 <= 5918488216667592 < 2 ^ 53
  /\ ((2 * 5918488216667592 - 1) # 144115188075855872 <= 30 / (1461 # 4))%Q
  /\ (30 / (1461 # 4) <= (2 * 5918488216667592 + 1) # 144115188075855872)%Q.
Proof.
  split; [vm_compute; reflexivity|]. split; [lia|].
  split; vm_compute; discriminate.
Qed.

Lemma years_lt_threshold (s n : Z) :
  num_lt (yearsBetween (ValidDate s) (ValidDate n)) minYearsForCAGR
  = (n - s <? 30 * msPerDay).
Proof.
  unfold minYearsForCAGR, yearsBetween, Date_minus, num_of_Z, num_div,
    daysPerYear.
  replace (Qeq_bool (inject_Z msPerDay) 0) with false by reflexivity.
  replace (Qeq_bool (1461 # 4) 0) with false by reflexivity.
  cbn [num_lt]. apply eq_true_iff_eq. rewrite Qltb_true, Z.ltb_lt.
  rewrite !Qred_correct.
  unfold Qlt, Qdiv, Qmult, Qinv, inject_Z, msPerDay. cbn. lia.
Qed.

Lemma metrics_ok_dates (clock : Date) (btcAmount currentPrice purchasePrice :
    JSValue) (s n : Date) (m : Metrics) :
  calculatePortfolioMetrics clock btcAmount currentPrice purchasePrice
    (JDate s) (JDate n) = Ok m ->
  exists a c p,
    btcAmount = JNumber a /\ currentPrice = JNumber c
    /\ purchasePrice = JNumber p
    /\ m = metricsOf a c p s n
    /\ num_le p (Fin 0) = false /\ Date_ge s n = false.
Proof.
  intros H.
  destruct (calculatePortfolioMetrics_ok_inv _ _ _ _ _ _ _ H)
    as (a & c & p & s' & n' & -> & -> & -> & Es & En & ->).
  injection Es as <-.
  destruct En as [En|(En & _)]; [injection En as <-|discriminate].
  exists a, c, p. repeat (split; [reflexivity|]).
  rewrite calculatePortfolioMetrics_chain in H.
  destruct (num_lt a (Fin 0) || num_lt c (Fin 0)); [discriminate|].
  destruct (num_lt p (Fin 0)); [discriminate|].
  destruct (num_le p (Fin 0)); [discriminate|].
  destruct (Date_ge s n); [discriminate|]. now split.
Qed.

Lemma displayCAGR_elapsed (clock : Date)
    (btcAmount currentPrice purchasePrice : JSValue) (s n : Z) (m : Metrics) :
  calculatePortfolioMetrics clock btcAmount currentPrice purchasePrice
    (JDate (ValidDate s)) (JDate (ValidDate n)) = Ok m ->
  displayCAGR m
  = if n - s <? 30 * msPerDay then JNull else JNumber (cagr m).
Proof.
  intros H.
  destruct (metrics_ok_dates _ _ _ _ _ _ _ H)
    as (a & c & p & _ & _ & _ & -> & _ & _).
  unfold metricsOf. cbn [displayCAGR cagr].
  now rewrite years_lt_threshold.
Qed.

(** X19.  In terms of the two dates: whenever the metrics are computed, the
    CAGR shown is [null] exactly when less than 30 days of 24 hours
    (2,592,000,000 ms) lie between the purchase date and the current date,
    and from exactly 30 days on it is the [cagr] field. *)
Theorem displayCAGR_by_elapsed_time (clock : Date)
    (btcAmount currentPrice purchasePrice : JSValue) (s n : Z) (m : Metrics) :
  calculatePortfolioMetrics clock btcAmount currentPrice purchasePrice
    (JDate (ValidDate s)) (JDate (ValidDate n)) = Ok m ->
  (displayCAGR m = JNull <-> n - s < 30 * msPerDay)
  /\ (30 * msPerDay <= n - s -> displayCAGR m = JNumber (cagr m))
  /\ 0 < n - s.
Proof.
  forget_host.
  intros H. rewrite (displayCAGR_elapsed _ _ _ _ _ _ _ H).
  destruct (metrics_ok_dates _ _ _ _ _ _ _ H)
    as (_ & _ & _ & _ & _ & _ & _ & _ & D).
  cbn [Date_ge] in D. apply Z.leb_gt in D.
  destruct (Z.ltb_spec (n - s) (30 * msPerDay)) as [L|L].
  - split; [tauto|]. split; [lia|lia].
  - split; [|split; [reflexivity|lia]].
    split; [discriminate|lia].
Qed.

(** X20.  On finite numbers, whenever the metrics are computed: the
    purchase price is positive, the percentage gain is not negative when
    the current price is at least the purchase price and not positive when
    it is at most the purchase price (so zero when they are equal), and the
    absolute gain is the difference of the total value and the initial
    value. *)
Theorem percentageGain_direction (clock : Date) (a c p : Q)
    (purchaseDate currentDate : JSValue) (m : Metrics) :
  calculatePortfolioMetrics clock (JNumber (Fin a)) (JNumber (Fin c))
    (JNumber (Fin p)) purchaseDate currentDate = Ok m ->
  (0 < p)%Q
  /\ ((p <= c)%Q -> num_le (Fin 0) (percentageGain m) = true)
  /\ ((c <= p)%Q -> num_le (percentageGain m) (Fin 0) = true)
  /\ absoluteGain m = num_sub (totalValue m) (initialValue m).
Proof.
  intros H.
  destruct (calculatePortfolioMetrics_ok_inv _ _ _ _ _ _ _ H)
    as (a' & c' & p' & s & n & Ea & Ec & Ep & -> & En & ->).
  injection Ea as <-. injection Ec as <-. injection Ep as <-.
  assert (Hd : calculatePortfolioMetrics clock (JNumber (Fin a))
                 (JNumber (Fin c)) (JNumber (Fin p)) (JDate s) (JDate n)
               = Ok (metricsOf (Fin a) (Fin c) (Fin p) s n)).
  { destruct En as [->|(-> & ->)]; [exact H|].
    now rewrite <- calculatePortfolioMetrics_default. }
  destruct (metrics_ok_dates _ _ _ _ _ _ _ Hd)
    as (a0 & c0 & p0 & _ & _ & Ep & _ & P & _).
  injection Ep as <-.
  assert (Hp : (0 < p)%Q).
  { cbn [num_le] in P. apply Qnot_le_lt. intros X.
    apply Qle_bool_iff in X. congruence. }
  unfold metricsOf.
  cbn [percentageGain absoluteGain totalValue initialValue].
  split; [exact Hp|]. split; [|split; [|reflexivity]].
  - intros L. cbn [num_sub num_div].
    replace (Qeq_bool p 0) with false.
    2:{ symmetry. apply not_true_iff_false. intros X.
        apply Qeq_bool_iff in X. rewrite X in Hp. exact (Qlt_irrefl _ Hp). }
    cbn [num_le]. apply Qle_bool_iff. rewrite !Qred_correct.
    apply Qle_shift_div_l; [exact Hp|]. rewrite Qmult_0_l.
    apply (Qplus_le_l _ _ p). ring_simplify. exact L.
  - intros L. cbn [num_sub num_div].
    replace (Qeq_bool p 0) with false.
    2:{ symmetry. apply not_true_iff_false. intros X.
        apply Qeq_bool_iff in X. rewrite X in Hp. exact (Qlt_irrefl _ Hp). }
    cbn [num_le]. apply Qle_bool_iff. rewrite !Qred_correct.
    apply Qle_shift_div_r; [exact Hp|]. rewrite Qmult_0_l.
    apply (Qplus_le_l _ _ p). ring_simplify. exact L.
Qed.

Lemma getPriceForDate_date (h : HistoricalData) (t : Z) (sp : PriceInfo) :
  getPriceForDate h (JDate (ValidDate t)) = Ok (Some sp) ->
  date sp = isoDateOfDay (Day t).
Proof.
  unfold getPriceForDate. cbn [bind].
  destruct (floorDaysBetween (ValidDate t) (startDate h)) as [d|].
  - destruct ((d <? 0) || (arrayLength (prices h) <=? d)); [discriminate|].
    cbn [formatDate isoDatePart bind]. now intros [= <-].
  - cbn [formatDate isoDatePart bind]. now intros [= <-].
Qed.

Lemma getPriceForDate_invalid (h : HistoricalData) :
  getPriceForDate h (JDate InvalidDate) = Throw RangeError_InvalidTimeValue.
Proof. reflexivity. Qed.

(** What the metrics of a fixed window are computed from. *)
Lemma fixed_window_metrics_inv (h : HistoricalData) (amt cur : JSValue)
    (clock : Date) (key : string) (n : Z) (m : Metrics) :
  TIME_WINDOWS key = Some (mkWindowConfig (Some n) Fixed) ->
  updatePortfolioMetricsForTimeWindow (Some h) amt cur clock key
    = ShowMetrics m ->
  exists now p,
    clock = ValidDate now
    /\ inTimeRange (now - n * msPerDay)
    /\ calculatePortfolioMetrics clock amt cur p
         (JDate (ValidDate (MakeDate (Day (now - n * msPerDay)) 0)))
         (JDate (ValidDate now)) = Ok m.
Proof.
  intros T. unfold updatePortfolioMetricsForTimeWindow, metricsForTimeWindow.
  replace (String.eqb key "all") with false
    by (symmetry; apply String.eqb_neq; exact (TIME_WINDOWS_fixed_not_all _ _ T)).
  rewrite T. cbn [isCalendarOrDaily type days bind].
  destruct clock as [now|]; [|cbn [Date_getDate optZ_sub Date_setDate];
    rewrite getPriceForDate_invalid; discriminate].
  rewrite setDate_sub_days. unfold TimeClip.
  destruct (Z.abs (now - n * msPerDay) <=? maxTime) eqn:R;
    [|rewrite getPriceForDate_invalid; discriminate].
  assert (R' : inTimeRange (now - n * msPerDay)).
  { apply Z.leb_le in R. unfold inTimeRange. lia. }
  destruct (getPriceForDate h (JDate (ValidDate (now - n * msPerDay))))
    as [[sp|]|e] eqn:G; cbn [bind]; try discriminate.
  replace (String.eqb key "1d") with false.
  2:{ symmetry. apply String.eqb_neq. intros ->. discriminate. }
  cbn [bind]. rewrite (getPriceForDate_date _ _ _ G).
  rewrite (Date_ofString_isoDateOfDay _ (Day_bounds _ R')).
  rewrite calculatePortfolioMetrics_default.
  destruct (calculatePortfolioMetrics _ _ _ _ _ _) as [m'|e] eqn:M;
    cbn [bind]; [|discriminate].
  intros [= <-]. exists now, (price sp). repeat split; try exact M; apply R'.
Qed.

(** X21.  The CAGR box of the fixed windows, on a host with a fixed offset
    from UTC: whenever metrics are shown for a fixed window of [n] days,
    the purchase date is 00:00 UTC of the day [n] days of 24 hours before
    now, so the CAGR shown is a number for every window of 30 days or more
    and [null] for every window of 28 days or less (the 7-day window). *)
Theorem fixed_window_displayCAGR (h : HistoricalData) (amt cur : JSValue)
    (clock : Date) (key : string) (n : Z) (m : Metrics) :
  TIME_WINDOWS key = Some (mkWindowConfig (Some n) Fixed) ->
  updatePortfolioMetricsForTimeWindow (Some h) amt cur clock key
    = ShowMetrics m ->
  (30 <= n -> displayCAGR m = JNumber (cagr m))
  /\ (n <= 28 -> displayCAGR m = JNull).
Proof.
  forget_host.
  intros T U.
  destruct (fixed_window_metrics_inv _ _ _ _ _ _ _ T U)
    as (now & p & -> & R & M).
  rewrite (displayCAGR_elapsed _ _ _ _ _ _ _ M).
  assert (B : n * msPerDay
              <= now - MakeDate (Day (now - n * msPerDay)) 0
              < (n + 1) * msPerDay)
    by (unfold MakeDate, Day, msPerDay; zdiv).
  split; intros Hn.
  - replace (_ <? _) with false; [reflexivity|].
    symmetry. apply Z.ltb_ge. unfold msPerDay in *. lia.
  - replace (_ <? _) with true; [reflexivity|].
    symmetry. apply Z.ltb_lt. unfold msPerDay in *. lia.
Qed.

(** X22.  The "all" window of a parsed series with a calendar-date start
    shows the metrics computed from the first price of the series, held
    since the start date of the series until now, and the error state when
    that computation throws; it never stays in the loading state and never
    shows the stale marker. *)
Theorem all_window_metrics (data : JSValue) (h : HistoricalData)
    (amt cur : JSValue) (clock : Date) :
  parseHistoricalData data = Ok h ->
  isCalendarDateString (start h) = true ->
  updatePortfolioMetricsForTimeWindow (Some h) amt cur clock "all"
  = match calculatePortfolioMetrics clock amt cur
            (nth 0 (prices h) JUndefined) (JDate (startDate h))
            (JDate clock) with
    | Ok m => ShowMetrics m
    | Throw _ => ShowError
    end.
Proof.
  intros P C. destruct (parseHistoricalData_ok _ _ P) as [t0 W].
  destruct (parsedSeries_calendar _ _ _ W C) as (A & S).
  pose proof (ps_nonempty _ _ _ W) as L.
  destruct (getPriceForDate_entry data h t0 0 W A ltac:(lia)) as (_ & _ & G).
  replace (t0 + 0 * msPerDay) with t0 in G by lia.
  unfold updatePortfolioMetricsForTimeWindow, metricsForTimeWindow.
  replace (String.eqb "all" "all") with true by reflexivity.
  rewrite S, G. cbn [bind price entryAt].
  rewrite calculatePortfolioMetrics_default, (ps_startDate _ _ _ W).
  replace (Z.to_nat 0) with 0%nat by reflexivity.
  now destruct (calculatePortfolioMetrics _ _ _ _ _ _).
Qed.

(* ================================================================== *)
(** ** js/weekmove.js: the week key *)

Lemma Date_ofUTC_of_time (t : Z) :
  ~ 0 <= YearFromTime t <= 99 ->
  Date_ofUTC (Date_getUTCFullYear (ValidDate t)) (Date_getUTCMonth (ValidDate t))
             (Date_getUTCDate (ValidDate t))
  = TimeClip (MakeDate (Day t) 0).
Proof.
  intros Hy. cbn [Date_getUTCFullYear Date_getUTCMonth Date_getUTCDate Date_ofUTC].
  destruct (Z.leb_spec 0 (YearFromTime t)); cbn [andb];
    [destruct (Z.leb_spec (YearFromTime t) 99); [lia|]|];
    now rewrite MakeDay_of_time.
Qed.

Lemma getWeekStart_eq (t : Z) :
  - maxTime + 7 * msPerDay <= t <= maxTime ->
  ~ 0 <= YearFromTime t <= 99 ->
  getWeekStart (ValidDate t)
  = Ok (isoDateOfDay (Day t - (WeekDay t + 6) mod 7)).
Proof.
  intros R Hy. unfold getWeekStart. rewrite (Date_ofUTC_of_time t Hy).
  assert (R0 : inTimeRange t) by (unfold inTimeRange, maxTime, msPerDay in *; lia).
  rewrite (TimeClip_valid _ (inTimeRange_midnight t R0)).
  cbn [Date_getUTCDay Date_getUTCDate].
  assert (Ew : WeekDay (MakeDate (Day t) 0) = WeekDay t)
    by (unfold WeekDay; now rewrite Day_MakeDate0).
  rewrite Ew. pose proof (WeekDay_range t) as Hw.
  set (dy := WeekDay t) in *. set (k := (dy + 6) mod 7).
  assert (Hk : 0 <= k <= 6) by (subst k; zdiv).
  replace (if dy =? 0 then -6 else 1 - dy) with (- k).
  2:{ subst k. destruct (Z.eqb_spec dy 0) as [E|E].
      - rewrite E. reflexivity.
      - replace ((dy + 6) mod 7) with (dy - 1) by zdiv. lia. }
  change (Some (DateFromTime (MakeDate (Day t) 0) + - k))
    with (optZ_add (Date_getUTCDate (ValidDate (MakeDate (Day t) 0))) (- k)).
  rewrite setUTCDate_add_days.
  rewrite TimeClip_valid.
  - unfold formatDate, isoDatePart. rewrite Day_add_days, Day_MakeDate0.
    replace (Day t + - k) with (Day t - k) by lia. reflexivity.
  - unfold inTimeRange, MakeDate, Day, maxTime, msPerDay in *. zdiv.
Qed.

(** X23.  Outside the years 0 .. 99, the week key of a date is the date
    string of the Monday (UTC) on or before its UTC day: a Monday, at most
    six days back, and the same key for every date of that
    Monday-to-Sunday week. *)
Theorem getWeekStart_is_utc_monday (t : Z) :
  - maxTime + 7 * msPerDay <= t <= maxTime ->
  ~ 0 <= YearFromTime t <= 99 ->
  exists m,
    getWeekStart (ValidDate t) = Ok (isoDateOfDay m)
    /\ WeekDay (MakeDate m 0) = 1
    /\ Day t - 6 <= m <= Day t
    /\ parseDate (isoDateOfDay m) = Ok (ValidDate (MakeDate m 0))
    /\ (forall t', - maxTime + 7 * msPerDay <= t' <= maxTime ->
          ~ 0 <= YearFromTime t' <= 99 ->
          m <= Day t' <= m + 6 ->
          getWeekStart (ValidDate t') = getWeekStart (ValidDate t)).
Proof.
  forget_host.
  intros R Hy. rewrite (getWeekStart_eq t R Hy).
  set (m := Day t - (WeekDay t + 6) mod 7).
  assert (Hm : (m + 4) mod 7 = 1 /\ Day t - 6 <= m <= Day t)
    by (subst m; unfold WeekDay; zdiv).
  exists m. split; [reflexivity|]. split; [|split; [exact (proj2 Hm)|split]].
  - unfold WeekDay. rewrite Day_MakeDate0. exact (proj1 Hm).
  - assert (Rm : inTimeRange (MakeDate m 0)).
    { destruct Hm as (_ & Hm).
      unfold inTimeRange, MakeDate, Day, maxTime, msPerDay in *. zdiv. }
    pose proof (parseDate_isoDateOfDay _ Rm) as P.
    now rewrite Day_MakeDate0 in P.
  - intros t' R' Hy' Hd. rewrite (getWeekStart_eq t' R' Hy').
    do 2 f_equal. destruct Hm as (Hm & _). unfold WeekDay. zdiv.
Qed.

Lemma YearFromDay_mono (z z' : Z) : z <= z' -> YearFromDay z <= YearFromDay z'.
Proof.
  intros H. pose proof (YearFromDay_spec z) as S.
  pose proof (YearFromDay_spec z') as S'.
  destruct (Z_le_gt_dec (YearFromDay z) (YearFromDay z')) as [|G]; [assumption|].
  pose proof (DayFromYear_mono (YearFromDay z' + 1) (YearFromDay z)
                ltac:(lia)).
  lia.
Qed.

(** X24.  The week key that [computeWeeklyAverages] derives for the day of
    index [i] of a parsed series that starts in the year 100 or later is
    the date string of the Monday on or before the [i]-th day of the
    series. *)
Theorem weekKeyOfIndex_of_series (data : JSValue) (h : HistoricalData)
    (i : Z) :
  parseHistoricalData data = Ok h ->
  0 <= i < arrayLength (prices h) ->
  exists t0,
    startDate h = ValidDate t0
    /\ (100 <= YearFromTime t0 ->
        exists m,
          weekKeyOfIndex (start h) i = Ok (isoDateOfDay m)
          /\ WeekDay (MakeDate m 0) = 1
          /\ Day t0 + i - 6 <= m <= Day t0 + i).
Proof.
  forget_host.
  intros P Hi. destruct (parseHistoricalData_ok _ _ P) as [t0 W].
  exists t0. split; [exact (ps_startDate _ _ _ W)|]. intros Hy.
  assert (R : inTimeRange (t0 + i * msPerDay)).
  { apply (inTimeRange_between t0 _ _ (ps_range0 _ _ _ W) (ps_rangeN _ _ _ W)).
    unfold msPerDay. lia. }
  pose proof (parseDate_isoDateOfDay _ R) as Pd. rewrite Day_add_days in Pd.
  set (z := Day t0 + i) in *.
  assert (Hy' : 100 <= YearFromDay z).
  { unfold YearFromTime in Hy.
    pose proof (YearFromDay_mono (Day t0) z ltac:(subst z; lia)). lia. }
  assert (RM : - maxTime + 7 * msPerDay <= MakeDate z 0 <= maxTime).
  { pose proof (YearFromDay_spec z) as S.
    pose proof (DayFromYear_mono 100 (YearFromDay z) Hy') as Mo.
    assert (E100 : DayFromYear 100 = -683003) by reflexivity.
    pose proof (inTimeRange_midnight _ R) as Rm. rewrite Day_add_days in Rm.
    fold z in Rm. clearbody z.
    unfold inTimeRange, MakeDate, maxTime, msPerDay in *. lia. }
  exists (z - (WeekDay (MakeDate z 0) + 6) mod 7).
  split; [|split].
  - unfold weekKeyOfIndex.
    rewrite (parsedSeries_calculateDate data h t0 i W Hi). cbn [bind].
    fold z. rewrite Pd. cbn [bind].
    rewrite (getWeekStart_eq _ RM).
    + now rewrite Day_MakeDate0.
    + unfold YearFromTime. rewrite Day_MakeDate0. lia.
  - unfold WeekDay. rewrite !Day_MakeDate0. clearbody z. zdiv.
  - unfold WeekDay. rewrite Day_MakeDate0. clearbody z. zdiv.
Qed.


End Host.

(* ================================================================== *)
(** ** Instances and counterexamples *)

(** The one-day window on a host in UTC at 2024-12-16T12:00Z: the start is
    2024-12-15T00:00Z. *)
Lemma oneDay_start_witness :
  - maxTime + 2 * msPerDay <= scenarioA_now <= maxTime
  /\ getCalendarStartDate 0 "1d" (ValidDate scenarioA_now)
     = Ok (ValidDate 1734220800000).
Proof.
  assert (H : - maxTime + 2 * msPerDay <= scenarioA_now <= maxTime)
    by (unfold maxTime, msPerDay, scenarioA_now; lia).
  split; [exact H|].
  exact (proj1 (oneDay_start_is_local_midnight 0 scenarioA_now H)).
Defined.

(** C1.  The code at the reference instant of the repository's own test of
    [getStartOfYesterday], 2024-12-16T12:00:00Z, on a host two hours east
    of UTC: it returns 2024-12-14T22:00:00Z, whose date string is
    2024-12-14, where the claim (and the test, which expects the date
    string 2024-12-15) has 00:00 UTC of 2024-12-15.  On UTC itself the code
    returns that instant. *)
Lemma oneDay_start_two_hours_east :
  getStartOfYesterday utcPlus2 (ValidDate scenarioA_now)
    = ValidDate 1734213600000
  /\ getCalendarStartDate utcPlus2 "1d" (ValidDate scenarioA_now)
     = Ok (ValidDate 1734213600000)
  /\ formatDate (ValidDate 1734213600000) = Ok "2024-12-14"%string
  /\ spec_startOfYesterdayUTC scenarioA_now = 1734220800000
  /\ formatDate (ValidDate 1734220800000) = Ok "2024-12-15"%string
  /\ getStartOfYesterday 0 (ValidDate scenarioA_now) = ValidDate 1734220800000.
Proof. repeat split; vm_compute; reflexivity. Qed.

(** Two hours east of UTC at 2024-12-16T23:00Z the window starts
    at 2024-12-15T22:00Z, not at 2024-12-15T00:00Z; and 00:05Z and 23:55Z of
    the UTC day 2024-12-16 give different starts. *)
Lemma oneDay_start_not_utc :
  getCalendarStartDate utcPlus2 "1d" (ValidDate 1734390000000)
    = Ok (ValidDate 1734300000000)
  /\ spec_startOfYesterdayUTC 1734390000000 = 1734220800000
  /\ Day 1734307500000 = Day 1734393300000
  /\ getCalendarStartDate utcPlus2 "1d" (ValidDate 1734307500000)
     = Ok (ValidDate 1734213600000)
  /\ getCalendarStartDate utcPlus2 "1d" (ValidDate 1734393300000)
     = Ok (ValidDate 1734300000000).
Proof. repeat split; vm_compute; reflexivity. Qed.

(** C2, on the series of scenario A: the lookup one day after the start,
    and a target at noon of the day after the end date. *)
Lemma getPriceForDate_lookup_witness :
  parseHistoricalData strictParse scenarioA_raw = Ok scenarioA_series
  /\ getPriceForDate strictParse scenarioA_series
       (JDate (ValidDate (1734134400000 + 1 * msPerDay)))
     = Ok (Some (mkPriceInfo "2024-12-15" (JNumber (Fin 50000))))
  /\ isCalendarDateString (start scenarioA_series) = true
  /\ getPriceForDate strictParse scenarioA_series
       (JDate (ValidDate 1734436800000))
     = Ok None.
Proof.
  assert (P : parseHistoricalData strictParse scenarioA_raw
              = Ok scenarioA_series) by (vm_compute; reflexivity).
  assert (C : isCalendarDateString (start scenarioA_series) = true)
    by reflexivity.
  split; [exact P|].
  destruct (getPriceForDate_lookup strictParse _ _ P)
    as (t0 & S & A & _ & M & D).
  injection S as <-.
  split; [exact (proj1 (A 1 ltac:(cbn; lia)))|]. split; [exact C|].
  refine (proj1 (D (M C) (JDate (ValidDate 1734436800000)) 1734436800000
                   1734307200000 (or_introl eq_refl) eq_refl) _).
  vm_compute. reflexivity.
Defined.

(** C2 fails for a parsed series whose start is not a UTC midnight.  On an
    engine that reads the start string below as 2024-01-01T10:00:00Z the
    parser accepts the series, with the end date 2024-01-01T00:00:00Z;
    then the target 2024-01-02T00:00:00Z, a day after the end date, gets
    the price of the series instead of [null], and on the UTC day of the
    start the target 09:00 returns [null] while the target 11:00 returns
    the price: the time of day is not ignored. *)
Lemma getPriceForDate_lookup_time_of_day :
  parseHistoricalData lenientParse wordsStart_raw = Ok wordsStart_series
  /\ endDate wordsStart_series = ValidDate 1704067200000
  /\ Day 1704067200000 < Day 1704153600000
  /\ getPriceForDate lenientParse wordsStart_series
       (JDate (ValidDate 1704153600000))
     = Ok (Some (mkPriceInfo "2024-01-02" (num 100)))
  /\ Day 1704099600000 = Day 1704106800000
  /\ getPriceForDate lenientParse wordsStart_series
       (JDate (ValidDate 1704099600000))
     = Ok None
  /\ getPriceForDate lenientParse wordsStart_series
       (JDate (ValidDate 1704106800000))
     = Ok (Some (mkPriceInfo "2024-01-01" (num 100))).
Proof. repeat split; vm_compute; reflexivity. Qed.

(** C3 fails at a current price of zero: the amount is not negative, the
    current price is not negative, the start price is positive, the start
    is before the current date, and the call throws. *)
Lemma metrics_throw_on_zero_price :
  num_le (Fin 0) (Fin 1) = true
  /\ num_le (Fin 0) (Fin 0) = true
  /\ num_lt (Fin 0) (Fin 50000) = true
  /\ Date_gt (ValidDate scenarioA_now) (ValidDate 1734220800000) = true
  /\ calculatePortfolioMetrics powExponentOne toNumberNaN InvalidDate
       (num 1) (num 0) (num 50000)
       (JDate (ValidDate 1734220800000)) (JDate (ValidDate scenarioA_now))
     = Throw CAGR_MustBePositive.
Proof. repeat split; vm_compute; reflexivity. Qed.

(** C4, one year (365.25 days) after the purchase, the price doubled. *)
Lemma displayCAGR_gate_witness :
  calculatePortfolioMetrics powExponentOne toNumberNaN InvalidDate
    (num 1) (num 100000) (num 50000)
    (JDate (ValidDate 0)) (JDate (ValidDate 31557600000))
  = Ok (metricsOf powExponentOne (Fin 1) (Fin 100000) (Fin 50000)
          (ValidDate 0) (ValidDate 31557600000))
  /\ displayCAGR (metricsOf powExponentOne (Fin 1) (Fin 100000) (Fin 50000)
                    (ValidDate 0) (ValidDate 31557600000))
     = JNumber (Fin 1).
Proof.
  assert (P : calculatePortfolioMetrics powExponentOne toNumberNaN InvalidDate
                (num 1) (num 100000) (num 50000)
                (JDate (ValidDate 0)) (JDate (ValidDate 31557600000))
              = Ok (metricsOf powExponentOne (Fin 1) (Fin 100000) (Fin 50000)
                      (ValidDate 0) (ValidDate 31557600000)))
    by (vm_compute; reflexivity).
  split; [exact P|].
  exact (proj1 (proj2 (displayCAGR_gate _ _ _ _ _ _ _ _ _ P)) eq_refl).
Defined.

(** Scenario A on a host in UTC. *)
Lemma scenarioA_oneDay_witness :
  -43200000 <= 0 <= 0
  /\ exists h d m,
       parseHistoricalData strictParse scenarioA_raw = Ok h
       /\ getCalendarStartDate 0 "1d" (ValidDate scenarioA_now) = Ok d
       /\ getPriceForDate strictParse h (JDate d)
          = Ok (Some (mkPriceInfo "2024-12-15" (JNumber (Fin 50000))))
       /\ calculatePortfolioMetrics powExponentOne toNumberNaN
            (ValidDate scenarioA_now)
            (JNumber (Fin 1)) (JNumber (Fin 45000)) (JNumber (Fin 50000))
            (JDate (Date_ofString strictParse "2024-12-15"))
            (JDate (ValidDate scenarioA_now))
          = Ok m
       /\ absoluteGain m = Fin (-5000)
       /\ percentageGain m = Fin (-1 # 10)
       /\ updatePortfolioMetricsForTimeWindow 0 strictParse powExponentOne
            toNumberNaN (Some h) (JNumber (Fin 1)) (JNumber (Fin 45000))
            (ValidDate scenarioA_now) "1d"
          = ShowMetrics m.
Proof.
  assert (H : -43200000 <= 0 <= 0) by lia.
  split; [exact H|].
  exact (scenarioA_oneDay 0 strictParse powExponentOne toNumberNaN H).
Defined.

(** C5.  The code on scenario A on a host two hours east of UTC: the
    one-day window starts at 2024-12-14T22:00:00Z, the lookup gives the
    date 2024-12-14 with the price 52000, and the page shows a gain of
    -7000, where the claim (and the repository's own tests of this
    scenario, which expect 2024-12-15 and 50000) has 2024-12-15, 50000 and
    -5000. *)
Lemma scenarioA_east_of_utc :
  parseHistoricalData strictParse scenarioA_raw = Ok scenarioA_series
  /\ getCalendarStartDate utcPlus2 "1d" (ValidDate scenarioA_now)
     = Ok (ValidDate 1734213600000)
  /\ getPriceForDate strictParse scenarioA_series
       (JDate (ValidDate 1734213600000))
     = Ok (Some (mkPriceInfo "2024-12-14" (JNumber (Fin 52000))))
  /\ updatePortfolioMetricsForTimeWindow utcPlus2 strictParse powExponentOne
       toNumberNaN (Some scenarioA_series) (num 1) (num 45000)
       (ValidDate scenarioA_now) "1d"
     = ShowMetrics (metricsOf powExponentOne (Fin 1) (Fin 45000) (Fin 52000)
                      (ValidDate 1734134400000) (ValidDate scenarioA_now))
  /\ absoluteGain (metricsOf powExponentOne (Fin 1) (Fin 45000) (Fin 52000)
                     (ValidDate 1734134400000) (ValidDate scenarioA_now))
     = Fin (-7000).
Proof. repeat split; vm_compute; reflexivity. Qed.

(** C6 fails on both sides: a price list with [Infinity] is accepted, so a
    returned price need not be finite; and an input that the specification
    accepts is rejected when its second day lies beyond the range of
    [Date]. *)
Lemma parse_accepts_infinity_rejects_overflow :
  parseHistoricalData strictParse infinitePrice_raw
    = Ok (mkHistoricalData "2024-01-01" (ValidDate 1704067200000)
            (ValidDate 1704067200000) [JNumber PosInf] 1)
  /\ num_isFinite PosInf = false
  /\ spec_validRaw strictParse lastDay_raw = true
  /\ parseHistoricalData strictParse lastDay_raw
     = Throw RangeError_InvalidTimeValue.
Proof. repeat split; vm_compute; reflexivity. Qed.

(** C7 fails in both directions.  With a fresh current price of 51000 and a
    series that ends yesterday, the one-day window is shown as stale although
    the caller's price is not from the series; with the "7d" window starting
    on the latest date of the series and the current price taken from that
    latest point, metrics with a gain of zero are shown and nothing marks
    them as stale. *)
Lemma stale_signal_differs_from_flag :
  parseHistoricalData strictParse endsYesterday_raw = Ok endsYesterday_series
  /\ updatePortfolioMetricsForTimeWindow 0 strictParse powExponentOne
       toNumberNaN (Some endsYesterday_series) (num 1) (num 51000)
       (ValidDate scenarioA_now) "1d"
     = ShowStaleNA (Fin (2 # 487)) (Fin 50000) (num 50000)
  /\ spec_isStaleWindow "2024-12-15" "2024-12-15" false = false
  /\ parseHistoricalData strictParse endsLastWeek_raw = Ok endsLastWeek_series
  /\ getLatestPrice strictParse endsLastWeek_series
     = Ok (mkPriceInfo "2024-12-09" (num 50000))
  /\ updatePortfolioMetricsForTimeWindow 0 strictParse powExponentOne
       toNumberNaN (Some endsLastWeek_series) (num 1) (num 50000)
       (ValidDate scenarioA_now) "7d"
     = ShowMetrics (metricsOf powExponentOne (Fin 1) (Fin 50000) (Fin 50000)
                      (ValidDate 1733702400000) (ValidDate scenarioA_now))
  /\ absoluteGain (metricsOf powExponentOne (Fin 1) (Fin 50000) (Fin 50000)
                     (ValidDate 1733702400000) (ValidDate scenarioA_now))
     = Fin 0
  /\ spec_isStaleWindow "2024-12-09" "2024-12-09" true = true.
Proof. repeat split; vm_compute; reflexivity. Qed.


(** C9, on the input of scenario A. *)
Lemma parse_roundtrip_witness :
  parseHistoricalData strictParse scenarioA_raw = Ok scenarioA_series
  /\ isCalendarDateString "2024-12-14" = true
  /\ rawOfSeries scenarioA_series = Ok scenarioA_raw.
Proof.
  assert (P : parseHistoricalData strictParse scenarioA_raw
              = Ok scenarioA_series) by (vm_compute; reflexivity).
  assert (C : isCalendarDateString "2024-12-14" = true) by reflexivity.
  repeat (split; [assumption|]).
  exact (proj2 (proj2 (parse_roundtrip strictParse _ _ _ P)) C).
Defined.

(** C10, for a day and a half and prices that [calculateCAGR] rejects. *)
Lemma calculateDisplayCAGR_short_period_witness :
  num_lt (Fin (2 # 487)) minYearsForCAGR = true
  /\ calculateDisplayCAGR powExponentOne toNumberNaN (num 0) (num (-5))
       (JNumber (Fin (2 # 487)))
     = Ok JNull.
Proof.
  assert (H : num_lt (Fin (2 # 487)) minYearsForCAGR = true) by reflexivity.
  split; [exact H|].
  exact (proj1 (calculateDisplayCAGR_short_period powExponentOne toNumberNaN
                  (num 0) (num (-5)) (Fin (2 # 487)) H)).
Defined.

(* ================================================================== *)
(** ** Instances of the further properties *)

(** X1, at 2024-12-16T12:00:00Z. *)
Lemma formatDate_parseDate_witness :
  inTimeRange scenarioA_now
  /\ exists s,
       formatDate (ValidDate scenarioA_now) = Ok s
       /\ parseDate strictParse s
          = Ok (ValidDate (scenarioA_now - TimeWithinDay scenarioA_now)).
Proof.
  assert (R : inTimeRange scenarioA_now)
    by (unfold inTimeRange, scenarioA_now, maxTime; lia).
  split; [exact R|].
  destruct (formatDate_parseDate strictParse scenarioA_now R)
    as (s & F & P & _).
  exists s. split; assumption.
Defined.

(** X2, on the calendar date 2024-12-14. *)
Lemma parseDate_formatDate_witness :
  parseDate strictParse "2024-12-14" = Ok (ValidDate 1734134400000)
  /\ isCalendarDateString "2024-12-14" = true
  /\ formatDate (ValidDate 1734134400000) = Ok "2024-12-14"%string.
Proof.
  assert (P : parseDate strictParse "2024-12-14" = Ok (ValidDate 1734134400000))
    by (vm_compute; reflexivity).
  split; [exact P|]. split; [reflexivity|].
  destruct (parseDate_formatDate strictParse _ _ P) as (t & s' & _ & _ & F & K).
  destruct (K eq_refl) as (E & _). rewrite E in F. exact F.
Defined.

(** X3, across the end of January and the leap day of 2024. *)
Lemma calculateDate_add_witness :
  calculateDate strictParse "2024-01-31" 1 = Ok "2024-02-01"%string
  /\ calculateDate strictParse "2024-01-31" (1 + 28) = Ok "2024-02-29"%string
  /\ calculateDate strictParse "2024-02-01" 28 = Ok "2024-02-29"%string
  /\ calculateDate strictParse "2024-02-29" (- 28) = Ok "2024-02-01"%string.
Proof.
  assert (C1 : calculateDate strictParse "2024-01-31" 1 = Ok "2024-02-01"%string)
    by (vm_compute; reflexivity).
  assert (C2 : calculateDate strictParse "2024-01-31" (1 + 28)
               = Ok "2024-02-29"%string)
    by (vm_compute; reflexivity).
  split; [exact C1|]. split; [exact C2|].
  destruct (calculateDate_add strictParse _ _ _ 1 28 C1 C2) as (A & B & _).
  split; assumption.
Defined.

(** X4, on the series of the unit tests. *)
Lemma getLatestPrice_is_last_entry_witness :
  parseHistoricalData strictParse testData_raw = Ok testData
  /\ isCalendarDateString (start testData) = true
  /\ exists latest,
       getLatestPrice strictParse testData = Ok latest
       /\ price latest = last (prices testData) JUndefined
       /\ getPriceForDate strictParse testData (JString (date latest))
          = Ok (Some latest).
Proof.
  assert (P : parseHistoricalData strictParse testData_raw = Ok testData)
    by (vm_compute; reflexivity).
  split; [exact P|]. split; [reflexivity|].
  destruct (getLatestPrice_is_last_entry strictParse _ _ P)
    as (latest & G & L & _ & _ & K).
  exists latest. split; [exact G|]. split; [exact L|].
  exact (proj1 (K eq_refl)).
Defined.

(** X5, on the series of the unit tests: the second entry of a range. *)
Lemma getPriceRange_entries_are_lookups_witness :
  parseHistoricalData strictParse testData_raw = Ok testData
  /\ isCalendarDateString (start testData) = true
  /\ getPriceRange strictParse testData "2023-12-30" "2024-01-02"
     = Ok [mkPriceInfo "2024-01-01" (num 50000);
           mkPriceInfo "2024-01-02" (num 51000)]
  /\ getPriceForDate strictParse testData (JString "2024-01-02")
     = Ok (Some (mkPriceInfo "2024-01-02" (num 51000))).
Proof.
  assert (P : parseHistoricalData strictParse testData_raw = Ok testData)
    by (vm_compute; reflexivity).
  assert (G : getPriceRange strictParse testData "2023-12-30" "2024-01-02"
              = Ok [mkPriceInfo "2024-01-01" (num 50000);
                    mkPriceInfo "2024-01-02" (num 51000)])
    by (vm_compute; reflexivity).
  split; [exact P|]. split; [reflexivity|]. split; [exact G|].
  exact (proj1 (getPriceRange_entries_are_lookups strictParse _ _ _ _ _
                  P eq_refl G _ (or_intror (or_introl eq_refl)))).
Defined.

(** X6, on the series of the unit tests. *)
Lemma getPriceRange_whole_series_witness :
  parseHistoricalData strictParse testData_raw = Ok testData
  /\ isCalendarDateString (start testData) = true
  /\ getLatestPrice strictParse testData
     = Ok (mkPriceInfo "2024-01-05" (num 54000))
  /\ exists l,
       getPriceRange strictParse testData "2024-01-01" "2024-01-05" = Ok l
       /\ map price l = prices testData.
Proof.
  assert (P : parseHistoricalData strictParse testData_raw = Ok testData)
    by (vm_compute; reflexivity).
  assert (L : getLatestPrice strictParse testData
              = Ok (mkPriceInfo "2024-01-05" (num 54000)))
    by (vm_compute; reflexivity).
  split; [exact P|]. split; [reflexivity|]. split; [exact L|].
  destruct (getPriceRange_whole_series strictParse _ _ _ P eq_refl L)
    as (l & G & M & _).
  exists l. split; assumption.
Defined.

(** X7, two hours east of UTC at 2024-12-16T12:00:00Z, a Monday. *)
Lemma getStartOfWeek_is_local_monday_witness :
  - maxTime + 7 * msPerDay <= scenarioA_now <= maxTime
  /\ exists m,
       getStartOfWeek utcPlus2 (ValidDate scenarioA_now)
       = ValidDate (localMidnight utcPlus2 m)
       /\ Date_getDay utcPlus2 (getStartOfWeek utcPlus2 (ValidDate scenarioA_now))
          = Some 1
       /\ localMidnight utcPlus2 m <= scenarioA_now.
Proof.
  assert (R : - maxTime + 7 * msPerDay <= scenarioA_now <= maxTime)
    by (unfold scenarioA_now, maxTime, msPerDay; lia).
  split; [exact R|].
  destruct (getStartOfWeek_is_local_monday utcPlus2 scenarioA_now R)
    as (m & G & D & _ & (B & _) & _).
  exists m. split; [exact G|]. split; assumption.
Defined.

(** X8, two hours east of UTC at 2024-12-16T12:00:00Z: 1 December 2024. *)
Lemma getStartOfMonth_is_first_of_month_witness :
  - maxTime + 31 * msPerDay <= scenarioA_now <= maxTime
  /\ ~ 0 <= YearFromTime (LocalTime utcPlus2 scenarioA_now) <= 99
  /\ exists d1,
       getStartOfMonth utcPlus2 (ValidDate scenarioA_now)
       = ValidDate (localMidnight utcPlus2 d1)
       /\ civil_of_day d1 = (2024, 11, 1).
Proof.
  assert (R : - maxTime + 31 * msPerDay <= scenarioA_now <= maxTime)
    by (unfold scenarioA_now, maxTime, msPerDay; lia).
  assert (Y : ~ 0 <= YearFromTime (LocalTime utcPlus2 scenarioA_now) <= 99)
    by (vm_compute; intros [_ H]; apply H; reflexivity).
  split; [exact R|]. split; [exact Y|].
  destruct (getStartOfMonth_is_first_of_month utcPlus2 scenarioA_now R Y)
    as (d1 & G & C & _).
  exists d1. split; [exact G|exact C].
Defined.

(** X9, two hours east of UTC at 2024-12-16T12:00:00Z: 1 January 2024. *)
Lemma getStartOfYear_is_first_of_january_witness :
  - maxTime + 366 * msPerDay <= scenarioA_now <= maxTime
  /\ ~ 0 <= YearFromTime (LocalTime utcPlus2 scenarioA_now) <= 99
  /\ exists d1,
       getStartOfYear utcPlus2 (ValidDate scenarioA_now)
       = ValidDate (localMidnight utcPlus2 d1)
       /\ civil_of_day d1 = (2024, 0, 1).
Proof.
  assert (R : - maxTime + 366 * msPerDay <= scenarioA_now <= maxTime)
    by (unfold scenarioA_now, maxTime, msPerDay; lia).
  assert (Y : ~ 0 <= YearFromTime (LocalTime utcPlus2 scenarioA_now) <= 99)
    by (vm_compute; intros [_ H]; apply H; reflexivity).
  split; [exact R|]. split; [exact Y|].
  destruct (getStartOfYear_is_first_of_january utcPlus2 scenarioA_now R Y)
    as (d1 & G & C & _).
  exists d1. split; [exact G|exact C].
Defined.

(** X10, two hours east of UTC on 1 January of the year 50: both starts are
    1 January 1950. *)
Lemma calendar_start_of_two_digit_year_witness :
  - msPerDay < utcPlus2 < msPerDay
  /\ 0 <= YearFromTime (LocalTime utcPlus2 year50) <= 99
  /\ exists dm dy,
       getStartOfMonth utcPlus2 (ValidDate year50)
       = ValidDate (localMidnight utcPlus2 dm)
       /\ civil_of_day dm = (1950, 0, 1)
       /\ getStartOfYear utcPlus2 (ValidDate year50)
          = ValidDate (localMidnight utcPlus2 dy)
       /\ civil_of_day dy = (1950, 0, 1)
       /\ year50 < localMidnight utcPlus2 dy.
Proof.
  assert (Z1 : - msPerDay < utcPlus2 < msPerDay)
    by (unfold utcPlus2, msPerDay; lia).
  assert (Y : 0 <= YearFromTime (LocalTime utcPlus2 year50) <= 99)
    by (vm_compute; split; discriminate).
  split; [exact Z1|]. split; [exact Y|].
  destruct (calendar_start_of_two_digit_year utcPlus2 year50 Z1 Y)
    as (dm & dy & Gm & Cm & Gy & Cy & (B & _)).
  exists dm, dy. repeat (split; [assumption|]). exact B.
Defined.

(** X12, the seven-day window on three points: the point of 1970-01-01 is
    dropped. *)
Lemma filterByTimeWindow_keeps_since_cutoff_witness :
  cutoffOfWindow 0 InvalidDate "7d" sampleNow (sampleNow - 7 * msPerDay)
  /\ forallb hasDateObject samplePoints = true
  /\ filterByTimeWindow 0 InvalidDate (JArray samplePoints) (JString "7d")
       (JDate (ValidDate sampleNow))
     = WOk [dataPoint (ValidDate 864000000) (num 110);
            dataPoint (ValidDate 950400000) (num 120)].
Proof.
  assert (K : cutoffOfWindow 0 InvalidDate "7d" sampleNow
                (sampleNow - 7 * msPerDay)).
  { left. exists 7. split; [reflexivity|]. vm_compute. reflexivity. }
  split; [exact K|]. split; [reflexivity|].
  exact (proj1 (filterByTimeWindow_keeps_since_cutoff 0 InvalidDate
                  samplePoints "7d" sampleNow _ K) eq_refl).
Defined.

(** X13, the seven-day window on three points, filtered twice. *)
Lemma filterByTimeWindow_idempotent_witness :
  filterByTimeWindow 0 InvalidDate (JArray samplePoints) (JString "7d")
    (JDate (ValidDate sampleNow))
  = WOk [dataPoint (ValidDate 864000000) (num 110);
         dataPoint (ValidDate 950400000) (num 120)]
  /\ filterByTimeWindow 0 InvalidDate
       (JArray [dataPoint (ValidDate 864000000) (num 110);
                dataPoint (ValidDate 950400000) (num 120)])
       (JString "7d") (JDate (ValidDate sampleNow))
     = WOk [dataPoint (ValidDate 864000000) (num 110);
            dataPoint (ValidDate 950400000) (num 120)].
Proof.
  assert (H : filterByTimeWindow 0 InvalidDate (JArray samplePoints)
                (JString "7d") (JDate (ValidDate sampleNow))
              = WOk [dataPoint (ValidDate 864000000) (num 110);
                     dataPoint (ValidDate 950400000) (num 120)])
    by (vm_compute; reflexivity).
  split; [exact H|].
  exact (proj1 (filterByTimeWindow_idempotent 0 InvalidDate _ _ _ _ H)).
Defined.

(** X15, the seven-day window on three points. *)
Lemma window_date_bounds_witness :
  filterByTimeWindow 0 InvalidDate (JArray samplePoints) (JString "7d")
    (JDate (ValidDate sampleNow))
  = WOk [dataPoint (ValidDate 864000000) (num 110);
         dataPoint (ValidDate 950400000) (num 120)]
  /\ "7d"%string <> "all"%string
  /\ exists e l,
       getEarliestDateForWindow 0 noOrder InvalidDate (JArray samplePoints)
         (JString "7d") (JDate (ValidDate sampleNow)) = WOk e
       /\ getLatestDateForWindow 0 noOrder InvalidDate (JArray samplePoints)
            (JString "7d") (JDate (ValidDate sampleNow)) = WOk l
       /\ exists te tl,
            e = JDate (ValidDate te) /\ l = JDate (ValidDate tl) /\ te <= tl.
Proof.
  assert (H : filterByTimeWindow 0 InvalidDate (JArray samplePoints)
                (JString "7d") (JDate (ValidDate sampleNow))
              = WOk [dataPoint (ValidDate 864000000) (num 110);
                     dataPoint (ValidDate 950400000) (num 120)])
    by (vm_compute; reflexivity).
  assert (N : "7d"%string <> "all"%string) by discriminate.
  split; [exact H|]. split; [exact N|].
  destruct (window_date_bounds 0 noOrder InvalidDate _ _ _ _ H N)
    as (e & l & Ge & Gl & _ & K).
  exists e, l. split; [exact Ge|]. split; [exact Gl|].
  destruct (K ltac:(discriminate)) as (te & tl & Ee & El & _ & _ & B).
  exists te, tl. split; [exact Ee|]. split; [exact El|].
  destruct (B _ (or_introl eq_refl)) as (t & _ & B1 & B2).
  exact (Z.le_trans _ _ _ B1 B2).
Defined.

(** X16, on three points. *)
Lemma getAvailableTimeWindows_offers_witness :
  samplePoints <> []
  /\ Forall (fun p => exists t, pointTime p = Some t) samplePoints
  /\ exists ws tmin,
       getAvailableTimeWindows 0 toNumberNaN noOrder (JArray samplePoints)
         (ValidDate sampleNow) = WOk ws
       /\ In "all"%string ws
       /\ (In "7d"%string ws <-> 7 <= (sampleNow - tmin) / msPerDay).
Proof.
  assert (N : samplePoints <> []) by discriminate.
  assert (A : Forall (fun p => exists t, pointTime p = Some t) samplePoints)
    by (repeat constructor; eexists; reflexivity).
  split; [exact N|]. split; [exact A|].
  destruct (getAvailableTimeWindows_offers 0 toNumberNaN noOrder
              samplePoints sampleNow N A)
    as (ws & tmin & G & _ & _ & All & F & _).
  exists ws, tmin. split; [exact G|]. split; [exact All|].
  exact (F "7d"%string 7 eq_refl).
Defined.

(** X17, the third point of the series of the unit tests. *)
Lemma priceData_of_series_witness :
  parseHistoricalData strictParse testData_raw = Ok testData
  /\ isCalendarDateString (start testData) = true
  /\ exists t0,
       startDate testData = ValidDate t0
       /\ nth 2 (priceDataOf utcPlus2 strictParse testData) JUndefined
          = dataPoint (ValidDate (t0 + 2 * msPerDay)) (num 52000).
Proof.
  assert (P : parseHistoricalData strictParse testData_raw = Ok testData)
    by (vm_compute; reflexivity).
  split; [exact P|]. split; [reflexivity|].
  destruct (priceData_of_series utcPlus2 strictParse _ _ P eq_refl)
    as (t0 & S & _ & K).
  exists t0. split; [exact S|].
  exact (K 2 ltac:(cbn; lia)).
Defined.


(** X19, one year (365.25 days) after the purchase. *)
Lemma displayCAGR_by_elapsed_time_witness :
  calculatePortfolioMetrics powExponentOne toNumberNaN InvalidDate
    (num 1) (num 100000) (num 50000)
    (JDate (ValidDate 0)) (JDate (ValidDate 31557600000))
  = Ok (metricsOf powExponentOne (Fin 1) (Fin 100000) (Fin 50000)
          (ValidDate 0) (ValidDate 31557600000))
  /\ displayCAGR (metricsOf powExponentOne (Fin 1) (Fin 100000) (Fin 50000)
                    (ValidDate 0) (ValidDate 31557600000))
     = JNumber (cagr (metricsOf powExponentOne (Fin 1) (Fin 100000)
                        (Fin 50000) (ValidDate 0) (ValidDate 31557600000))).
Proof.
  assert (P : calculatePortfolioMetrics powExponentOne toNumberNaN InvalidDate
                (num 1) (num 100000) (num 50000)
                (JDate (ValidDate 0)) (JDate (ValidDate 31557600000))
              = Ok (metricsOf powExponentOne (Fin 1) (Fin 100000) (Fin 50000)
                      (ValidDate 0) (ValidDate 31557600000)))
    by (vm_compute; reflexivity).
  split; [exact P|].
  refine (proj1 (proj2 (displayCAGR_by_elapsed_time powExponentOne toNumberNaN
                          _ _ _ _ _ _ _ P)) _).
  unfold msPerDay. lia.
Defined.

(** X20, two coins bought at 50000 and now at 45000. *)
Lemma percentageGain_direction_witness :
  calculatePortfolioMetrics powExponentOne toNumberNaN InvalidDate
    (JNumber (Fin 2)) (JNumber (Fin 45000)) (JNumber (Fin 50000))
    (JDate (ValidDate 0)) (JDate (ValidDate 31557600000))
  = Ok (metricsOf powExponentOne (Fin 2) (Fin 45000) (Fin 50000)
          (ValidDate 0) (ValidDate 31557600000))
  /\ (45000 <= 50000)%Q
  /\ num_le (percentageGain
               (metricsOf powExponentOne (Fin 2) (Fin 45000) (Fin 50000)
                  (ValidDate 0) (ValidDate 31557600000))) (Fin 0) = true.
Proof.
  assert (P : calculatePortfolioMetrics powExponentOne toNumberNaN InvalidDate
                (JNumber (Fin 2)) (JNumber (Fin 45000)) (JNumber (Fin 50000))
                (JDate (ValidDate 0)) (JDate (ValidDate 31557600000))
              = Ok (metricsOf powExponentOne (Fin 2) (Fin 45000) (Fin 50000)
                      (ValidDate 0) (ValidDate 31557600000)))
    by (vm_compute; reflexivity).
  assert (L : (45000 <= 50000)%Q) by (vm_compute; discriminate).
  split; [exact P|]. split; [exact L|].
  destruct (percentageGain_direction powExponentOne toNumberNaN _ _ _ _ _ _ _ P)
    as (_ & _ & D & _).
  exact (D L).
Defined.

(** X21, the seven-day window on a series that ends seven days before now. *)
Lemma fixed_window_displayCAGR_witness :
  TIME_WINDOWS "7d" = Some (mkWindowConfig (Some 7) Fixed)
  /\ updatePortfolioMetricsForTimeWindow utcPlus2 strictParse powExponentOne
       toNumberNaN (Some endsLastWeek_series) (num 1) (num 45000)
       (ValidDate scenarioA_now) "7d"
     = ShowMetrics
         (metricsOf powExponentOne (Fin 1) (Fin 45000) (Fin 50000)
            (ValidDate 1733702400000) (ValidDate scenarioA_now))
  /\ displayCAGR
       (metricsOf powExponentOne (Fin 1) (Fin 45000) (Fin 50000)
          (ValidDate 1733702400000) (ValidDate scenarioA_now))
     = JNull.
Proof.
  assert (T : TIME_WINDOWS "7d" = Some (mkWindowConfig (Some 7) Fixed))
    by reflexivity.
  assert (U : updatePortfolioMetricsForTimeWindow utcPlus2 strictParse
                powExponentOne toNumberNaN (Some endsLastWeek_series) (num 1)
                (num 45000) (ValidDate scenarioA_now) "7d"
              = ShowMetrics
                  (metricsOf powExponentOne (Fin 1) (Fin 45000) (Fin 50000)
                     (ValidDate 1733702400000) (ValidDate scenarioA_now)))
    by (vm_compute; reflexivity).
  split; [exact T|]. split; [exact U|].
  exact (proj2 (fixed_window_displayCAGR utcPlus2 strictParse powExponentOne
                  toNumberNaN _ _ _ _ _ _ _ T U) ltac:(lia)).
Defined.

(** X22, on the series of the unit tests. *)
Lemma all_window_metrics_witness :
  parseHistoricalData strictParse testData_raw = Ok testData
  /\ isCalendarDateString (start testData) = true
  /\ updatePortfolioMetricsForTimeWindow utcPlus2 strictParse powExponentOne
       toNumberNaN (Some testData) (num 1) (num 45000)
       (ValidDate scenarioA_now) "all"
     = match calculatePortfolioMetrics powExponentOne toNumberNaN
               (ValidDate scenarioA_now) (num 1) (num 45000) (num 50000)
               (JDate (startDate testData)) (JDate (ValidDate scenarioA_now))
       with
       | Ok m => ShowMetrics m
       | Throw _ => ShowError
       end.
Proof.
  assert (P : parseHistoricalData strictParse testData_raw = Ok testData)
    by (vm_compute; reflexivity).
  split; [exact P|]. split; [reflexivity|].
  exact (all_window_metrics utcPlus2 strictParse powExponentOne toNumberNaN
           _ _ (num 1) (num 45000) (ValidDate scenarioA_now) P eq_refl).
Defined.

(** X23, at 2024-12-16T12:00:00Z. *)
Lemma getWeekStart_is_utc_monday_witness :
  - maxTime + 7 * msPerDay <= scenarioA_now <= maxTime
  /\ ~ 0 <= YearFromTime scenarioA_now <= 99
  /\ exists m,
       getWeekStart (ValidDate scenarioA_now) = Ok (isoDateOfDay m)
       /\ WeekDay (MakeDate m 0) = 1
       /\ Day scenarioA_now - 6 <= m <= Day scenarioA_now.
Proof.
  assert (R : - maxTime + 7 * msPerDay <= scenarioA_now <= maxTime)
    by (unfold scenarioA_now, maxTime, msPerDay; lia).
  assert (Y : ~ 0 <= YearFromTime scenarioA_now <= 99)
    by (vm_compute; intros [_ H]; apply H; reflexivity).
  split; [exact R|]. split; [exact Y|].
  destruct (getWeekStart_is_utc_monday strictParse scenarioA_now R Y)
    as (m & G & W & B & _).
  exists m. split; [exact G|]. split; [exact W|exact B].
Defined.

(** X24, the fourth day of the series of the unit tests. *)
Lemma weekKeyOfIndex_of_series_witness :
  parseHistoricalData strictParse testData_raw = Ok testData
  /\ 0 <= 3 < arrayLength (prices testData)
  /\ exists t0,
       startDate testData = ValidDate t0
       /\ (100 <= YearFromTime t0 ->
           exists m,
             weekKeyOfIndex strictParse (start testData) 3
             = Ok (isoDateOfDay m)
             /\ WeekDay (MakeDate m 0) = 1
             /\ Day t0 + 3 - 6 <= m <= Day t0 + 3).
Proof.
  assert (P : parseHistoricalData strictParse testData_raw = Ok testData)
    by (vm_compute; reflexivity).
  assert (I : 0 <= 3 < arrayLength (prices testData)) by (cbn; lia).
  split; [exact P|]. split; [exact I|].
  exact (weekKeyOfIndex_of_series strictParse _ _ 3 P I).
Defined.


(* ================================================================== *)
(** ** The unit tests of the repository, on the embedding *)

Example test_parseHistoricalData :
  parseHistoricalData strictParse testData_raw = Ok testData.
Proof. vm_compute. reflexivity. Qed.

Example test_parseHistoricalData_invalid :
  parseHistoricalData strictParse JNull = Throw MustBeAnObject
  /\ parseHistoricalData strictParse (JString "string") = Throw MustBeAnObject
  /\ parseHistoricalData strictParse (JObject []) = Throw MissingOrInvalidStartDate
  /\ parseHistoricalData strictParse
       (JObject [("start"%string, JString "invalid-date");
                 ("prices"%string, JArray [num 1000])])
     = Throw (InvalidDateFormat "invalid-date")
  /\ parseHistoricalData strictParse
       (JObject [("start"%string, JString "2024-01-01");
                 ("prices"%string, JNull)])
     = Throw PricesMustBeAnArray
  /\ parseHistoricalData strictParse
       (JObject [("start"%string, JString "2024-01-01");
                 ("prices"%string, JArray [])])
     = Throw PricesArrayIsEmpty
  /\ parseHistoricalData strictParse
       (JObject [("start"%string, JString "2024-01-01");
                 ("prices"%string, JArray [num 1000; num (-100); num 2000])])
     = Throw (FoundInvalidPrices 1).
Proof. repeat split; vm_compute; reflexivity. Qed.

Example test_calculateDate :
  calculateDate strictParse "2024-01-15" 0 = Ok "2024-01-15"%string
  /\ calculateDate strictParse "2024-01-15" 10 = Ok "2024-01-25"%string
  /\ calculateDate strictParse "2024-01-31" 1 = Ok "2024-02-01"%string
  /\ calculateDate strictParse "2024-01-31" 17 = Ok "2024-02-17"%string
  /\ parseDate strictParse "2024-13-01" = Throw (InvalidDateFormat "2024-13-01").
Proof. repeat split; vm_compute; reflexivity. Qed.

Example test_getPriceForDate :
  getPriceForDate strictParse testData (JString "2024-01-03")
    = Ok (Some (mkPriceInfo "2024-01-03" (num 52000)))
  /\ getPriceForDate strictParse testData (JDate (ValidDate 1704240000000))
     = Ok (Some (mkPriceInfo "2024-01-03" (num 52000)))
  /\ getPriceForDate strictParse testData (JString "2023-12-31") = Ok None
  /\ getPriceForDate strictParse testData (JString "2024-01-06") = Ok None
  /\ getPriceForDate strictParse testData (num 123)
     = Throw TargetDateMustBeStringOrDate.
Proof. repeat split; vm_compute; reflexivity. Qed.

Example test_getLatestPrice :
  getLatestPrice strictParse testData
  = Ok (mkPriceInfo "2024-01-05" (num 54000)).
Proof. vm_compute. reflexivity. Qed.

Example test_getPriceRange :
  getPriceRange strictParse testData "2023-12-30" "2024-01-02"
    = Ok [mkPriceInfo "2024-01-01" (num 50000);
          mkPriceInfo "2024-01-02" (num 51000)]
  /\ getPriceRange strictParse testData "2023-12-01" "2023-12-31" = Ok []
  /\ getPriceRange strictParse testData "2024-01-05" "2024-01-01"
     = Throw RangeStartMustBeBeforeEnd.
Proof. repeat split; vm_compute; reflexivity. Qed.

Example test_portfolio :
  calculateTotalValue (num 1) (num 0) = Ok (Fin 0)
  /\ calculateAbsoluteGain (num 2) (num 45000) (num 50000) = Ok (Fin (-10000))
  /\ calculatePercentageGain (num 50000) (num 50000) = Ok (Fin 0)
  /\ calculatePercentageGain (num 60000) (num 0)
     = Throw PercentageGain_MustBePositive
  /\ calculateCAGR powExponentOne (num 100000) (num 50000) (num 1) = Ok (Fin 1)
  /\ calculateCAGR powExponentOne (num 100000) (num 0) (num 1)
     = Throw CAGR_MustBePositive
  /\ calculateYearsBetweenDates (JDate (ValidDate 0)) (JDate (ValidDate 0))
     = Throw Years_StartMustBeBeforeEnd.
Proof. repeat split; vm_compute; reflexivity. Qed.

(** The start date written back for a [start] that gives a year and a month
    only is the first day of that month. *)
Example rawOfSeries_year_month :
  (do h <- parseHistoricalData strictParse
             (JObject [("start"%string, JString "2024-12");
                       ("prices"%string, JArray [num 1])]);
   rawOfSeries h)
  = Ok (JObject [("start"%string, JString "2024-12-01");
                 ("prices"%string, JArray [num 1])]).
Proof. vm_compute. reflexivity. Qed.
